(** * Kitaab: the borrowing / fine / payment rules of the library client

    A shallow embedding of the TypeScript sources that decide borrowing
    eligibility, loan extension, overdue reporting, fine statistics and
    the payment request, followed by the properties the specification
    states about them.

    Conventions.
    - A JavaScript [number] holding a count or an amount of rupees is a
      [Z]; the application works in whole currency units
      ([FINE_PER_DAY = 5], amounts printed with no fraction digits).
    - A JavaScript [Date] is its [getTime()] value: milliseconds since
      the epoch, a [Z].
    - An optional field [f?: T] is an [option T]; [undefined] is [None].
    - A cold single-value [Observable<T>] (one HTTP exchange) is the
      value it emits or the error it fails with. *)

From Stdlib Require Import ZArith Lia Ascii String.
From stdpp Require Import base decidable option list strings gmap pretty sorting.

Local Open Scope string_scope.
Local Open Scope Z_scope.

(** ** JavaScript helpers *)

Module Js.

(** [x || d] for an optional number: [undefined] and [0] are falsy. *)
Definition or_default (x : option Z) (d : Z) : Z :=
  match x with
  | Some v => if decide (v = 0) then d else v
  | None => d
  end.

(** [Math.ceil (a / b)] for integers [a] and a positive integer [b]. *)
Definition ceil_div (a b : Z) : Z := - ((- a) `div` b).

(** Truthiness of an optional string: [undefined] and [''] are falsy. *)
Definition truthy (s : option string) : bool :=
  match s with
  | Some (String _ _) => true
  | _ => false
  end.

(** [s.slice(-n)]: the last [n] code units of [s], all of [s] when it
    is shorter. *)
Fixpoint drop_string (n : nat) (s : string) : string :=
  match n, s with
  | O, _ => s
  | S _, EmptyString => EmptyString
  | S n', String _ s' => drop_string n' s'
  end.

Definition slice_last (n : nat) (s : string) : string :=
  drop_string (String.length s - n) s.

(** One millisecond count per day: [1000 * 60 * 60 * 24]. *)
Definition msPerDay : Z := 1000 * 60 * 60 * 24.

End Js.

(** ** Observables: one HTTP exchange *)

Module Rx.

(** What an HTTP call can fail with: an [HttpErrorResponse] carrying a
    status code and the optional [error.message] of its body, or a
    plain [Error] made by [throwError(() => new Error(msg))]. *)
Inductive Failure :=
| HttpErrorResponse (status : Z) (message : option string)
| ErrorMsg (message : string).

Inductive Observable (A : Type) :=
| Next (a : A)
| Fail (e : Failure).
Arguments Next {A} a.
Arguments Fail {A} e.

(** [of(a)] *)
Definition of_ {A} (a : A) : Observable A := Next a.

(** [throwError(() => e)] *)
Definition throwError {A} (e : Failure) : Observable A := Fail e.

(** [source.pipe(catchError(handler))] *)
Definition catchError {A} (handler : Failure → Observable A)
    (source : Observable A) : Observable A :=
  match source with
  | Next a => Next a
  | Fail e => handler e
  end.

(** [source.subscribe({ next, error })] run against a state [S]. *)
Definition subscribe {A S} (next : A → S → S) (error : Failure → S → S)
    (source : Observable A) (st : S) : S :=
  match source with
  | Next a => next a st
  | Fail e => error e st
  end.

End Rx.

(** ** models/user.model.ts *)

Inductive BorrowStatus := Borrowed | Returned | Overdue | Lost | Damaged.

Global Instance BorrowStatus_eq_dec : EqDecision BorrowStatus.
Proof. solve_decision. Defined.

Module UserBorrowInfo.
Record t := mk {
  libraryId : string;
  name : string;
  email : string;
  currentBorrowedCount : Z;
  maxBooksAllowed : Z;
  fines : Z;
  overdueBooks : Z;
  isEligible : bool
}.
End UserBorrowInfo.

Module BorrowHistoryEntry.
Record t := mk {
  id : string;
  bookId : string;
  title : string;
  author : string;
  borrowDate : Z;
  dueDate : Z;
  returnedDate : option Z;
  fineAmount : Z;
  finePaid : bool;
  status : BorrowStatus;
  renewalCount : option Z;
  maxRenewalsAllowed : option Z
}.
End BorrowHistoryEntry.

Module GenreStatistic.
Record t := mk { genre : string; booksRead : Z; percentage : Z }.
End GenreStatistic.

Module Achievement.
Record t := mk { id : string; name : string; description : string }.
End Achievement.

Module UserStatistics.
Record t := mk {
  totalBooksRead : Z;
  currentlyBorrowed : Z;
  overdueBooks : Z;
  totalFines : Z;
  averageReadingTime : Z;
  favoriteGenres : list GenreStatistic.t;
  readingStreak : Z;
  monthlyReadingGoal : Z;
  booksReadThisMonth : Z;
  yearlyReadingGoal : option Z;
  booksReadThisYear : option Z;
  memberRanking : option Z;
  achievementsUnlocked : option (list Achievement.t)
}.
End UserStatistics.

Module AuthUser.
Record t := mk { memberId : string; memberName : string; email : string }.
End AuthUser.

(** ** services/user-data.service.ts *)

Module UserDataService.

Record UserData := mkUserData {
  user : option AuthUser.t;
  borrowInfo : option UserBorrowInfo.t;
  borrowHistory : list BorrowHistoryEntry.t;
  statistics : option UserStatistics.t;
  isLoading : bool;
  error : option string
}.

Definition getCurrentBorrowInfo (d : UserData) : option UserBorrowInfo.t :=
  borrowInfo d.

Definition getCurrentBorrowHistory (d : UserData) : list BorrowHistoryEntry.t :=
  borrowHistory d.

(** [borrowHistory.some(entry => entry.status === 'Overdue')] *)
Definition hasOverdueBooks (d : UserData) : bool :=
  existsb (λ entry, bool_decide (BorrowHistoryEntry.status entry = Overdue))
          (getCurrentBorrowHistory d).

(** [borrowHistory.filter(entry => entry.status === 'Overdue').length] *)
Definition getOverdueBooksCount (d : UserData) : Z :=
  Z.of_nat (length (filter (λ entry, BorrowHistoryEntry.status entry = Overdue)
                           (getCurrentBorrowHistory d))).

(** [if (!borrowInfo) return 0;
     return Math.max(0, maxBooksAllowed - currentBorrowedCount)] *)
Definition getAvailableBorrowingSlots (d : UserData) : Z :=
  match getCurrentBorrowInfo d with
  | None => 0
  | Some borrowInfo =>
      Z.max 0 (UserBorrowInfo.maxBooksAllowed borrowInfo
               - UserBorrowInfo.currentBorrowedCount borrowInfo)
  end.

(** [loadCompleteUserData]'s subscription: the [next] handler stores the
    statistics, the [error] handler records a message. *)
Definition onStatistics (s : UserStatistics.t) (d : UserData) : UserData :=
  mkUserData (user d) (borrowInfo d) (borrowHistory d) (Some s) false (error d).

Definition onStatisticsError (_ : Rx.Failure) (d : UserData) : UserData :=
  mkUserData (user d) (borrowInfo d) (borrowHistory d) (statistics d) false
             (Some "Failed to load user statistics").

(** The state is first set to [isLoading: true, error: null]; the
    observable is the one [UserService.getUserStatistics] returns. *)
Definition loadCompleteUserData (result : Rx.Observable UserStatistics.t)
    (d : UserData) : UserData :=
  let d1 := mkUserData (user d) (borrowInfo d) (borrowHistory d)
                       (statistics d) true None in
  Rx.subscribe onStatistics onStatisticsError result d1.

End UserDataService.

(** The overdue predicate in the words of the specification: the stored
    status is [Borrowed] and the clock is past the due date. *)
Definition overdue_by_date (now : Z) (entry : BorrowHistoryEntry.t) : bool :=
  bool_decide (BorrowHistoryEntry.status entry = Borrowed)
  && bool_decide (BorrowHistoryEntry.dueDate entry < now).

(** ** services/user.service.ts *)

Module UserService.

(** The [defaultStats] literal of [getUserStatistics]. *)
Definition defaultStats : UserStatistics.t :=
  {| UserStatistics.totalBooksRead := 0;
     UserStatistics.currentlyBorrowed := 0;
     UserStatistics.overdueBooks := 0;
     UserStatistics.totalFines := 0;
     UserStatistics.averageReadingTime := 0;
     UserStatistics.favoriteGenres := [];
     UserStatistics.readingStreak := 0;
     UserStatistics.monthlyReadingGoal := 0;
     UserStatistics.booksReadThisMonth := 0;
     UserStatistics.yearlyReadingGoal := Some 0;
     UserStatistics.booksReadThisYear := Some 0;
     UserStatistics.memberRanking := Some 0;
     UserStatistics.achievementsUnlocked := Some [] |}.

(** [getUserStatistics]: [response] is what
    [http.get(`${API_URL}/${memberId}/statistics`)] produced. *)
Definition getUserStatistics (response : Rx.Observable UserStatistics.t)
    : Rx.Observable UserStatistics.t :=
  Rx.catchError (λ _error, Rx.of_ defaultStats) response.

(** [getUserBorrowInfo]: the handler rethrows with a message chosen by
    status. *)
Definition getUserBorrowInfo (response : Rx.Observable UserBorrowInfo.t)
    : Rx.Observable UserBorrowInfo.t :=
  Rx.catchError
    (λ error,
       let errorMessage :=
         match error with
         | Rx.HttpErrorResponse 404 _ => "User not found."
         | Rx.HttpErrorResponse 403 _ =>
             "Access denied. Please check your permissions."
         | _ => "Failed to load user information."
         end in
       Rx.throwError (Rx.ErrorMsg errorMessage))
    response.

End UserService.

(** ** components/books/books.component.ts *)

Module BooksComponent.

(** [userBorrowInfo: any]: the three fields the component reads. *)
Record BorrowInfo := mkBorrowInfo {
  currentBorrowedCount : Z;
  fines : Z;
  overdueBooks : Z
}.

(** The messages [validateSelection] shows, by the reason they report;
    the payload is the number interpolated into the text:
    - [LimitExceeded n]: "You cannot borrow more than n books in total."
    - [HasUnpaidFines f]: "You have pending fines of (rupees) f. Please
      clear them before borrowing."
    - [HasOverdueBooks k]: "You have k overdue book(s). Please return
      them first."
    - [NoMessage]: the empty string. *)
Inductive Message :=
| NoMessage
| LimitExceeded (max : Z)
| HasUnpaidFines (fines : Z)
| HasOverdueBooks (count : Z)
| OtherMessage (text : string).

Record State := mkState {
  (** [Map<string, number>]: book id to quantity, in insertion order *)
  selectedBooks : list (string * Z);
  userBorrowInfo : option BorrowInfo;
  errorMessage : Message;
  successMessage : Message
}.

Definition MAX_BOOKS_PER_USER : Z := 5.
Definition BORROW_PERIOD_DAYS : Z := 14.
Definition FINE_PER_DAY : Z := 5.

(** [Array.from(selectedBooks.values()).reduce((sum, q) => sum + q, 0)] *)
Definition getTotalSelectedCopies (st : State) : Z :=
  foldl (λ sum quantity, sum + quantity) 0 (snd <$> selectedBooks st).

(** [showError] also clears the success message; the timer it starts
    ([clearError] five seconds later) is a later event. *)
Definition showError (message : Message) (st : State) : State :=
  mkState (selectedBooks st) (userBorrowInfo st) message NoMessage.

Definition clearError (st : State) : State :=
  mkState (selectedBooks st) (userBorrowInfo st) NoMessage (successMessage st).

Definition validateSelection (st : State) : State :=
  match userBorrowInfo st with
  | None => st
  | Some info =>
      let totalSelected := getTotalSelectedCopies st in
      let totalAfterBorrow := currentBorrowedCount info + totalSelected in
      if decide (totalAfterBorrow > MAX_BOOKS_PER_USER) then
        showError (LimitExceeded MAX_BOOKS_PER_USER) st
      else if decide (fines info > 0) then
        showError (HasUnpaidFines (fines info)) st
      else if decide (overdueBooks info > 0) then
        showError (HasOverdueBooks (overdueBooks info)) st
      else
        clearError st
  end.

End BooksComponent.

(** ** components/my-books/my-books.component.ts *)

Module MyBooksComponent.

(** [getDaysUntilDue]: [now] is the [new Date()] the method reads.
    The quotient of two integers is rounded up; rounding the exact
    quotient and rounding its double agree on which side of [-7] the
    result falls, the only use made of it here. *)
Definition getDaysUntilDue (now : Z) (dueDate : Z) : Z :=
  let diffTime := dueDate - now in
  Js.ceil_div diffTime Js.msPerDay.

Definition canExtendBook (now : Z) (entry : BorrowHistoryEntry.t) : bool :=
  bool_decide (BorrowHistoryEntry.status entry = Borrowed)
  && bool_decide (Js.or_default (BorrowHistoryEntry.renewalCount entry) 0
                  < Js.or_default (BorrowHistoryEntry.maxRenewalsAllowed entry) 2)
  && bool_decide (getDaysUntilDue now (BorrowHistoryEntry.dueDate entry) > -7).

Definition canReturnEarly (entry : BorrowHistoryEntry.t) : bool :=
  bool_decide (BorrowHistoryEntry.status entry = Borrowed).

(** What [extendBookDueDate(entry, days = 7)] does before the backend
    answers: it refuses entries that are not [Borrowed], and otherwise
    sends [userService.extendBookDueDate(entry.id, days)]. *)
Inductive ExtendAction :=
| ShowError (message : string)
| SendExtension (borrowId : string) (days : Z).

Definition extendBookDueDate (entry : BorrowHistoryEntry.t) (days : option Z)
    : ExtendAction :=
  let days := default 7 days in
  if decide (BorrowHistoryEntry.status entry ≠ Borrowed) then
    ShowError "Only currently borrowed books can be extended."
  else
    SendExtension (BorrowHistoryEntry.id entry) days.

End MyBooksComponent.

(** ** models/fine.model.ts *)

Inductive FineStatus := F_PENDING | F_PAID | F_WAIVED | F_OVERDUE.

Global Instance FineStatus_eq_dec : EqDecision FineStatus.
Proof. solve_decision. Defined.

Inductive PaymentStatus := P_PENDING | P_COMPLETED | P_FAILED | P_REFUNDED | P_CANCELLED.

Global Instance PaymentStatus_eq_dec : EqDecision PaymentStatus.
Proof. solve_decision. Defined.

Inductive PaymentMethod := card | upi | netbanking | wallet | cash.

Global Instance PaymentMethod_eq_dec : EqDecision PaymentMethod.
Proof. solve_decision. Defined.

Module FineRecord.
Record t := mk {
  id : string;
  memberId : string;
  bookTitle : string;
  author : string;
  borrowId : string;
  dueDate : Z;
  returnDate : option Z;
  daysOverdue : Z;
  dailyFine : Z;
  totalFine : Z;
  status : FineStatus;
  paidDate : option Z;
  paymentId : option string
}.
End FineRecord.

Module CustomerInfo.
Record t := mk { name : string; email : string }.
End CustomerInfo.

Module PaymentRequest.
Record t := mk {
  memberId : string;
  fineIds : list string;
  totalAmount : Z;
  paymentMethod : PaymentMethod;
  customerInfo : CustomerInfo.t
}.
End PaymentRequest.

Module PaymentResponse.
Record t := mk {
  success : bool;
  message : string;
  paymentId : option string;
  transactionId : option string
}.
End PaymentResponse.

Module DummyPaymentForm.
Record t := mk {
  paymentMethod : PaymentMethod;
  cardNumber : option string;
  cardName : option string;
  expiryMonth : option string;
  expiryYear : option string;
  cvv : option string;
  upiId : option string;
  bankName : option string;
  walletProvider : option string;
  walletNumber : option string
}.
End DummyPaymentForm.

Module MonthlyFineData.
Record t := mk { month : string; year : Z; totalFines : Z; totalPaid : Z }.
End MonthlyFineData.

Module PaymentSummary.
Record t := mk { date : string; amount : Z; method : PaymentMethod;
                 status : PaymentStatus; bookCount : Z }.
End PaymentSummary.

Module FineStatistics.
Record t := mk {
  totalOutstandingFines : Z;
  totalOverdueBooks : Z;
  totalPaidFines : Z;
  averageDaysOverdue : Z;
  finesByMonth : list MonthlyFineData.t;
  paymentHistory : list PaymentSummary.t
}.
End FineStatistics.

Module FineCalculationRule.
Record t := mk {
  id : string;
  name : string;
  dailyFineAmount : Z;
  gracePeriodDays : Z;
  maxFineAmount : option Z;
  isActive : bool
}.
End FineCalculationRule.

(** ** String helpers used by the fine service and the fines component *)

Module Str.

(** Whitespace as [\s] and [trim()] see it, on the ASCII range. *)
Definition is_space (c : ascii) : bool :=
  let n := nat_of_ascii c in
  bool_decide (n = 32%nat) || (bool_decide (9 ≤ n)%nat && bool_decide (n ≤ 13)%nat).

(** [s.replace(/\s/g, '')] *)
Fixpoint strip_spaces (s : string) : string :=
  match s with
  | EmptyString => EmptyString
  | String c s' =>
      if is_space c then strip_spaces s' else String c (strip_spaces s')
  end.

Fixpoint trim_start (s : string) : string :=
  match s with
  | String c s' => if is_space c then trim_start s' else s
  | EmptyString => EmptyString
  end.

(** [s.trim()] *)
Definition trim (s : string) : string :=
  String.rev (trim_start (String.rev (trim_start s))).

(** [s.includes(q)] *)
Fixpoint includes (s q : string) : bool :=
  String.prefix q s
  || match s with
     | EmptyString => false
     | String _ s' => includes s' q
     end.

(** [s.toLowerCase()] on the ASCII letters. *)
Definition lower_ascii (c : ascii) : ascii :=
  let n := nat_of_ascii c in
  if bool_decide (65 ≤ n)%nat && bool_decide (n ≤ 90)%nat
  then ascii_of_nat (n + 32) else c.

Fixpoint toLowerCase (s : string) : string :=
  match s with
  | EmptyString => EmptyString
  | String c s' => String (lower_ascii c) (toLowerCase s')
  end.

Definition len (s : string) : Z := Z.of_nat (String.length s).

End Str.

(** ** services/fine.service.ts *)

Module FineService.

Record State := mkState {
  finesSubject : list FineRecord.t;
  currentUser : option AuthUser.t
}.

(** What the read of the fines in [loadUserData] comes back with.  The
    payments subject is loaded the same way and is left out. *)
Record Backend := mkBackend {
  userFines : Rx.Observable (list FineRecord.t)
}.

(** [getUserFines]: the handler rethrows the error unchanged.  The
    [map] step of the source turns the date strings of the response into
    [Date]s; dates are times already here. *)
Definition getUserFines (response : Rx.Observable (list FineRecord.t))
    : Rx.Observable (list FineRecord.t) :=
  Rx.catchError (λ error, Rx.throwError error) response.

(** [loadUserData]: with a signed-in user, the fines subject receives
    the fetched list, or the empty list when the fetch fails. *)
Definition loadUserData (be : Backend) (st : State) : State :=
  match currentUser st with
  | Some _ =>
      Rx.subscribe
        (λ fines st, mkState fines (currentUser st))
        (λ _error st, mkState [] (currentUser st))
        (getUserFines (userFines be)) st
  | None => st
  end.

(** The body [processPayment] posts to [`${PAYMENT_URL}/process`]:
    [{ ...paymentRequest, paymentDetails: { ...paymentForm, cardNumber } }]. *)
Record RequestData := mkRequestData {
  request : PaymentRequest.t;
  paymentDetails : DummyPaymentForm.t
}.

Definition cardMask : string := "**** **** **** ".

(** [paymentForm.cardNumber ? '**** **** **** ' + cardNumber.slice(-4)
                            : undefined] *)
Definition maskCardNumber (cardNumber : option string) : option string :=
  match cardNumber with
  | Some n =>
      if Js.truthy (Some n) then Some (cardMask +:+ Js.slice_last 4 n)
      else None
  | None => None
  end.

Definition requestData (paymentRequest : PaymentRequest.t)
    (paymentForm : DummyPaymentForm.t) : RequestData :=
  mkRequestData paymentRequest
    (DummyPaymentForm.mk
       (DummyPaymentForm.paymentMethod paymentForm)
       (maskCardNumber (DummyPaymentForm.cardNumber paymentForm))
       (DummyPaymentForm.cardName paymentForm)
       (DummyPaymentForm.expiryMonth paymentForm)
       (DummyPaymentForm.expiryYear paymentForm)
       (DummyPaymentForm.cvv paymentForm)
       (DummyPaymentForm.upiId paymentForm)
       (DummyPaymentForm.bankName paymentForm)
       (DummyPaymentForm.walletProvider paymentForm)
       (DummyPaymentForm.walletNumber paymentForm)).

(** The [catchError] handler of [processPayment]. *)
Definition paymentErrorMessage (error : Rx.Failure) : string :=
  match error with
  | Rx.HttpErrorResponse 400 message =>
      if Js.truthy message then default "" message else "Invalid payment data."
  | Rx.HttpErrorResponse 401 _ =>
      "Authentication required. Please log in again."
  | Rx.HttpErrorResponse 402 _ =>
      "Payment declined. Please check your payment details."
  | Rx.HttpErrorResponse 409 _ =>
      "Some fines have already been paid or are being processed."
  | Rx.HttpErrorResponse 0 _ =>
      "Unable to connect to payment gateway. Please try again."
  | _ => "Payment processing failed. Please try again."
  end.

(** [processPayment]: [post] is the payment endpoint, applied to the
    request body; [be] answers the reload a successful response
    triggers.  The result is what the subscriber receives and the
    state of the service afterwards. *)
Definition processPayment
    (post : RequestData → Rx.Observable PaymentResponse.t) (be : Backend)
    (paymentRequest : PaymentRequest.t) (paymentForm : DummyPaymentForm.t)
    (st : State) : Rx.Observable PaymentResponse.t * State :=
  match post (requestData paymentRequest paymentForm) with
  | Rx.Next response =>
      (Rx.Next response,
       if PaymentResponse.success response then loadUserData be st else st)
  | Rx.Fail error =>
      (Rx.throwError (Rx.ErrorMsg (paymentErrorMessage error)), st)
  end.

(** The [defaultStats] literal of [getFineStatistics]. *)
Definition defaultStats : FineStatistics.t :=
  {| FineStatistics.totalOutstandingFines := 0;
     FineStatistics.totalOverdueBooks := 0;
     FineStatistics.totalPaidFines := 0;
     FineStatistics.averageDaysOverdue := 0;
     FineStatistics.finesByMonth := [];
     FineStatistics.paymentHistory := [] |}.

(** [getFineStatistics]: [response] is what
    [http.get(`${API_URL}/statistics`)] produced. *)
Definition getFineStatistics (response : Rx.Observable FineStatistics.t)
    : Rx.Observable FineStatistics.t :=
  Rx.catchError (λ _error, Rx.of_ defaultStats) response.

Record Validation := mkValidation { isValid : bool; errors : list string }.

Definition missing (s : option string) : bool := negb (Js.truthy s).

Definition text (s : option string) : string := default "" s.

Definition push_if (c : bool) (e : string) (errors : list string) : list string :=
  if c then errors ++ [e] else errors.

(** [validatePaymentData]; the [switch] has no case for ['cash']. *)
Definition validatePaymentData (paymentMethod : PaymentMethod)
    (formData : DummyPaymentForm.t) : Validation :=
  let errors :=
    match paymentMethod with
    | card =>
        let e1 := push_if
          (missing (DummyPaymentForm.cardNumber formData)
           || bool_decide (Str.len (Str.strip_spaces
                 (text (DummyPaymentForm.cardNumber formData))) < 13))
          "Invalid card number" [] in
        let e2 := push_if
          (missing (DummyPaymentForm.cardName formData)
           || bool_decide (Str.len (Str.trim
                 (text (DummyPaymentForm.cardName formData))) < 2))
          "Cardholder name is required" e1 in
        let e3 := push_if
          (missing (DummyPaymentForm.expiryMonth formData)
           || missing (DummyPaymentForm.expiryYear formData))
          "Expiry date is required" e2 in
        push_if
          (missing (DummyPaymentForm.cvv formData)
           || bool_decide (Str.len (text (DummyPaymentForm.cvv formData)) < 3))
          "Valid CVV is required" e3
    | upi =>
        push_if
          (missing (DummyPaymentForm.upiId formData)
           || negb (Str.includes (text (DummyPaymentForm.upiId formData)) "@"))
          "Valid UPI ID is required" []
    | netbanking =>
        push_if (missing (DummyPaymentForm.bankName formData))
          "Bank selection is required" []
    | wallet =>
        push_if (missing (DummyPaymentForm.walletProvider formData))
          "Wallet provider selection is required" []
    | cash => []
    end in
  mkValidation (bool_decide (length errors = 0%nat)) errors.

End FineService.

(** ** components/fines/fines.component.ts *)

Module FinesComponent.

(** The value of [searchForm].  An empty control is falsy: [""] for
    the query, [None] elsewhere.  [minAmount] and [maxAmount] hold the
    number [parseFloat] reads from the control, [dateFrom] and [dateTo]
    the time [new Date(...)] reads from it. *)
Record SearchForm := mkSearchForm {
  query : string;
  status : option FineStatus;
  minAmount : option Z;
  maxAmount : option Z;
  dateFrom : option Z;
  dateTo : option Z
}.

Record State := mkState {
  fines : list FineRecord.t;
  filteredFines : list FineRecord.t;
  (** [Set<string>]: no duplicates, in insertion order *)
  selectedFines : list string;
  currentUser : option AuthUser.t;
  selectedPaymentMethod : option PaymentMethod;
  paymentForm : DummyPaymentForm.t;
  searchForm : SearchForm;
  fineStats : FineStatistics.t;
  showPaymentModal : bool;
  isLoadingStats : bool;
  isProcessingPayment : bool;
  errorMessage : string;
  successMessage : string
}.

Definition set_filteredFines (l : list FineRecord.t) (st : State) : State :=
  mkState (fines st) l (selectedFines st) (currentUser st)
    (selectedPaymentMethod st) (paymentForm st) (searchForm st) (fineStats st)
    (showPaymentModal st) (isLoadingStats st) (isProcessingPayment st)
    (errorMessage st) (successMessage st).

Definition set_selectedFines (s : list string) (st : State) : State :=
  mkState (fines st) (filteredFines st) s (currentUser st)
    (selectedPaymentMethod st) (paymentForm st) (searchForm st) (fineStats st)
    (showPaymentModal st) (isLoadingStats st) (isProcessingPayment st)
    (errorMessage st) (successMessage st).

Definition set_searchForm (f : SearchForm) (st : State) : State :=
  mkState (fines st) (filteredFines st) (selectedFines st) (currentUser st)
    (selectedPaymentMethod st) (paymentForm st) f (fineStats st)
    (showPaymentModal st) (isLoadingStats st) (isProcessingPayment st)
    (errorMessage st) (successMessage st).

Definition set_fineStats (s : FineStatistics.t) (loading : bool) (st : State)
    : State :=
  mkState (fines st) (filteredFines st) (selectedFines st) (currentUser st)
    (selectedPaymentMethod st) (paymentForm st) (searchForm st) s
    (showPaymentModal st) loading (isProcessingPayment st)
    (errorMessage st) (successMessage st).

Definition set_showPaymentModal (b : bool) (st : State) : State :=
  mkState (fines st) (filteredFines st) (selectedFines st) (currentUser st)
    (selectedPaymentMethod st) (paymentForm st) (searchForm st) (fineStats st)
    b (isLoadingStats st) (isProcessingPayment st)
    (errorMessage st) (successMessage st).

Definition set_isProcessingPayment (b : bool) (st : State) : State :=
  mkState (fines st) (filteredFines st) (selectedFines st) (currentUser st)
    (selectedPaymentMethod st) (paymentForm st) (searchForm st) (fineStats st)
    (showPaymentModal st) (isLoadingStats st) b
    (errorMessage st) (successMessage st).

Definition set_messages (err ok : string) (st : State) : State :=
  mkState (fines st) (filteredFines st) (selectedFines st) (currentUser st)
    (selectedPaymentMethod st) (paymentForm st) (searchForm st) (fineStats st)
    (showPaymentModal st) (isLoadingStats st) (isProcessingPayment st)
    err ok.

Definition showError (message : string) : State → State :=
  set_messages message "".

Definition showSuccess (message : string) : State → State :=
  set_messages "" message.

Definition clearMessages : State → State := set_messages "" "".

(** [Set.prototype.add], [delete] and [has] on the insertion-ordered
    list of members. *)
Definition set_add (x : string) (s : list string) : list string :=
  if decide (x ∈ s) then s else s ++ [x].

Definition set_delete (x : string) (s : list string) : list string :=
  filter (λ y, y ≠ x) s.

Definition set_has (x : string) (s : list string) : bool :=
  bool_decide (x ∈ s).

(** One [filtered = filtered.filter(...)] step guarded by a truthy
    form control. *)
Definition when {A} (c : option A) (keep : A → FineRecord.t → bool)
    (l : list FineRecord.t) : list FineRecord.t :=
  match c with
  | Some a => List.filter (keep a) l
  | None => l
  end.

Definition query_opt (q : string) : option string :=
  if Js.truthy (Some q) then Some q else None.

(** [!formValue.query && !formValue.status && !formValue.minAmount &&
    !formValue.maxAmount && !formValue.dateFrom && !formValue.dateTo] *)
Definition noFilters (formValue : SearchForm) : bool :=
  negb (Js.truthy (Some (query formValue)))
  && bool_decide (status formValue = None)
  && bool_decide (minAmount formValue = None)
  && bool_decide (maxAmount formValue = None)
  && bool_decide (dateFrom formValue = None)
  && bool_decide (dateTo formValue = None).

Definition performSearch (st : State) : State :=
  let formValue := searchForm st in
  if noFilters formValue then set_filteredFines (fines st) st else
  let filtered := fines st in
  let filtered :=
    when (query_opt (query formValue))
      (λ q fine,
         let query := Str.toLowerCase q in
         Str.includes (Str.toLowerCase (FineRecord.bookTitle fine)) query
         || Str.includes (Str.toLowerCase (FineRecord.author fine)) query)
      filtered in
  let filtered :=
    when (status formValue)
      (λ s fine, bool_decide (FineRecord.status fine = s)) filtered in
  let filtered :=
    when (minAmount formValue)
      (λ m fine, bool_decide (FineRecord.totalFine fine >= m)) filtered in
  let filtered :=
    when (maxAmount formValue)
      (λ m fine, bool_decide (FineRecord.totalFine fine <= m)) filtered in
  let filtered :=
    when (dateFrom formValue)
      (λ d fine, bool_decide (FineRecord.dueDate fine >= d)) filtered in
  let filtered :=
    when (dateTo formValue)
      (λ d fine, bool_decide (FineRecord.dueDate fine <= d)) filtered in
  set_filteredFines filtered st.

Definition applyCurrentFilters (st : State) : State :=
  performSearch (set_filteredFines (fines st) st).

(** The search form changed (the debounced [valueChanges] handler). *)
Definition onSearchChange (f : SearchForm) (st : State) : State :=
  performSearch (set_searchForm f st).

(** The [fines$] subscription of [setupRealtimeUpdates] and the [next]
    handler of [loadUserData]. *)
Definition onFines (l : list FineRecord.t) (st : State) : State :=
  applyCurrentFilters
    (mkState l (filteredFines st) (selectedFines st) (currentUser st)
       (selectedPaymentMethod st) (paymentForm st) (searchForm st)
       (fineStats st) (showPaymentModal st) (isLoadingStats st)
       (isProcessingPayment st) (errorMessage st) (successMessage st)).

Definition onFineSelectionChange (fineId : string) (isSelected : bool)
    (st : State) : State :=
  if isSelected then set_selectedFines (set_add fineId (selectedFines st)) st
  else set_selectedFines (set_delete fineId (selectedFines st)) st.

Definition onSelectAllFines (st : State) : State :=
  set_selectedFines
    (foldl (λ s fine, set_add (FineRecord.id fine) s)
           (selectedFines st) (filteredFines st)) st.

Definition onDeselectAllFines (st : State) : State :=
  set_selectedFines [] st.

Definition getSelectedFines (st : State) : list FineRecord.t :=
  List.filter (λ fine, set_has (FineRecord.id fine) (selectedFines st))
              (filteredFines st).

Definition getSelectedTotal (st : State) : Z :=
  foldl (λ total fine, total + FineRecord.totalFine fine) 0
        (getSelectedFines st).

Definition onPaySelected (st : State) : State :=
  if decide (length (selectedFines st) = 0%nat) then
    showError "Please select at least one fine to pay." st
  else set_showPaymentModal true st.

Definition onPaymentMethodSelect (m : PaymentMethod) (st : State) : State :=
  let f := paymentForm st in
  mkState (fines st) (filteredFines st) (selectedFines st) (currentUser st)
    (Some m)
    (DummyPaymentForm.mk m
       (DummyPaymentForm.cardNumber f) (DummyPaymentForm.cardName f)
       (DummyPaymentForm.expiryMonth f) (DummyPaymentForm.expiryYear f)
       (DummyPaymentForm.cvv f) (DummyPaymentForm.upiId f)
       (DummyPaymentForm.bankName f) (DummyPaymentForm.walletProvider f)
       (DummyPaymentForm.walletNumber f))
    (searchForm st) (fineStats st) (showPaymentModal st) (isLoadingStats st)
    (isProcessingPayment st) (errorMessage st) (successMessage st).

(** [onSubmitPayment] up to the call of [fineService.processPayment]:
    the state it leaves and, when the form passes validation, the two
    arguments of the call. *)
Definition onSubmitPayment (st : State)
    : State * option (PaymentRequest.t * DummyPaymentForm.t) :=
  match currentUser st, selectedPaymentMethod st with
  | Some user, Some method =>
      let validation := FineService.validatePaymentData method (paymentForm st) in
      if negb (FineService.isValid validation) then
        (showError (String.concat ", " (FineService.errors validation)) st, None)
      else
        let st := clearMessages (set_isProcessingPayment true st) in
        let paymentRequest :=
          {| PaymentRequest.memberId := AuthUser.memberId user;
             PaymentRequest.fineIds := selectedFines st;
             PaymentRequest.totalAmount := getSelectedTotal st;
             PaymentRequest.paymentMethod := method;
             PaymentRequest.customerInfo :=
               CustomerInfo.mk (AuthUser.memberName user) (AuthUser.email user) |} in
        (st, Some (paymentRequest, paymentForm st))
  | _, _ => (st, None)
  end.

(** [loadFineStatistics]: [result] is what
    [fineService.getFineStatistics(memberId)] returned. *)
Definition loadFineStatistics (result : Rx.Observable FineStatistics.t)
    (st : State) : State :=
  Rx.subscribe
    (λ stats st, set_fineStats stats false st)
    (λ _error st, set_fineStats (fineStats st) false st)
    result (set_fineStats (fineStats st) true st).

Definition totalPendingFines (st : State) : Z :=
  FineStatistics.totalOutstandingFines (fineStats st).

Definition totalBooksOverdue (st : State) : Z :=
  FineStatistics.totalOverdueBooks (fineStats st).

End FinesComponent.

(** ** The engine behind the REST endpoints

    The client above posts to [/api/payments/process] and reads fines the
    backend has computed; the code of that backend (the fine accrual and
    the payment reconciler) is not part of the sources.  The definitions
    of this module follow sections 4.3 and 4.5 of the specification. *)

Module Engine.

(** Modelled from the spec: [days(date)], missing from the sources; the
    number of whole days from the epoch to the (UTC) day of [date]. *)
Definition days (date : Z) : Z := date `div` Js.msPerDay.

(** Modelled from the spec: the calendar dates of the scenarios, as the
    day count of the proleptic Gregorian calendar (1970-01-01 is day 0). *)
Definition days_from_civil (y m d : Z) : Z :=
  let y := if decide (m <= 2) then y - 1 else y in
  let era := y `div` 400 in
  let yoe := y - era * 400 in
  let mp := (m + 9) `mod` 12 in
  let doy := (153 * mp + 2) `div` 5 + d - 1 in
  let doe := yoe * 365 + yoe `div` 4 - yoe `div` 100 + doy in
  era * 146097 + doe - 719468.

(** Modelled from the spec: midnight UTC of a calendar date, as a [Date]. *)
Definition utc (y m d : Z) : Z := days_from_civil y m d * Js.msPerDay.

(** Modelled from the spec: the first step of [computeFine],
    [daysOverdue = max(0, days(referenceDate) - days(dueDate) - gracePeriodDays)]:
    a negative lateness counts as no day at all. *)
Definition daysOverdue (dueDate referenceDate gracePeriodDays : Z) : Z :=
  let late := days referenceDate - days dueDate - gracePeriodDays in
  if decide (late < 0) then 0 else late.

(** Modelled from the spec: [computeFine], missing from the sources
    (the client only declares [FineCalculationRule] and the constant
    [FINE_PER_DAY]): [amount = min(daysOverdue * dailyRate,
    maxFineAmount ?? +inf)], the cap applying only when one is set. *)
Definition computeFine (dueDate referenceDate dailyRate gracePeriodDays : Z)
    (maxFineAmount : option Z) : Z :=
  let accrued := daysOverdue dueDate referenceDate gracePeriodDays * dailyRate in
  match maxFineAmount with
  | Some cap => if decide (cap < accrued) then cap else accrued
  | None => accrued
  end.

(** Modelled from the spec: [computeFine] under a [FineCalculationRule]. *)
Definition computeFineByRule (rule : FineCalculationRule.t)
    (dueDate referenceDate : Z) : Z :=
  computeFine dueDate referenceDate
    (FineCalculationRule.dailyFineAmount rule)
    (FineCalculationRule.gracePeriodDays rule)
    (FineCalculationRule.maxFineAmount rule).

(** Modelled from the spec: the durable storage the reconciler works
    on, fines by identifier and loans by identifier. *)
Record Ledger := mkLedger {
  fines : gmap string FineRecord.t;
  loans : gmap string BorrowHistoryEntry.t
}.

(** Modelled from the spec: the outcomes of [pay]. *)
Inductive PaymentResult :=
| Paid (paymentId : string)
| AmountMismatch
| NotCompleted (status : PaymentStatus).

(** Modelled from the spec: the payment gateway,
    [initiate(amount, method) -> (transactionId, terminalStatus)]. *)
Definition Gateway := Z → PaymentMethod → string * PaymentStatus.

(** Modelled from the spec: [currentFineAmounts(fineIds)]; an
    identifier that names no stored fine contributes nothing. *)
Definition currentFineAmounts (l : Ledger) (fineIds : list string) : list Z :=
  omap (λ id, FineRecord.totalFine <$> fines l !! id) fineIds.

(** Modelled from the spec: [sum(...)] of a list of amounts. *)
Definition sum (amounts : list Z) : Z := foldr Z.add 0 amounts.

(** Modelled from the spec: a fine set to [PAID] with the payment's id. *)
Definition markPaid (paymentId : string) (f : FineRecord.t) : FineRecord.t :=
  FineRecord.mk (FineRecord.id f) (FineRecord.memberId f)
    (FineRecord.bookTitle f) (FineRecord.author f) (FineRecord.borrowId f)
    (FineRecord.dueDate f) (FineRecord.returnDate f) (FineRecord.daysOverdue f)
    (FineRecord.dailyFine f) (FineRecord.totalFine f) F_PAID
    (FineRecord.paidDate f) (Some paymentId).

(** Modelled from the spec: [finePaid = true] and the total frozen on
    the loan the fine belongs to. *)
Definition settleLoan (total : Z) (b : BorrowHistoryEntry.t) : BorrowHistoryEntry.t :=
  BorrowHistoryEntry.mk (BorrowHistoryEntry.id b) (BorrowHistoryEntry.bookId b)
    (BorrowHistoryEntry.title b) (BorrowHistoryEntry.author b)
    (BorrowHistoryEntry.borrowDate b) (BorrowHistoryEntry.dueDate b)
    (BorrowHistoryEntry.returnedDate b) total true
    (BorrowHistoryEntry.status b) (BorrowHistoryEntry.renewalCount b)
    (BorrowHistoryEntry.maxRenewalsAllowed b).

(** Modelled from the spec: the commit of one referenced fine. *)
Definition commitOne (paymentId : string) (l : Ledger) (id : string) : Ledger :=
  match fines l !! id with
  | None => l
  | Some f =>
      mkLedger (<[id := markPaid paymentId f]> (fines l))
               (alter (settleLoan (FineRecord.totalFine f))
                      (FineRecord.borrowId f) (loans l))
  end.

(** Modelled from the spec: the commit of the whole batch. *)
Definition commit (paymentId : string) (fineIds : list string) (l : Ledger)
    : Ledger :=
  foldl (commitOne paymentId) l fineIds.

(** Modelled from the spec: [pay(fineIds, paymentMethod, expectedTotal)],
    missing from the sources: validate the total, ask the gateway for a
    terminal status, commit the batch on [COMPLETED] and leave the
    ledger alone otherwise. *)
Definition pay (gateway : Gateway) (l : Ledger) (fineIds : list string)
    (paymentMethod : PaymentMethod) (expectedTotal : Z)
    : PaymentResult * Ledger :=
  if decide (sum (currentFineAmounts l fineIds) = expectedTotal) then
    let '(paymentId, status) := gateway expectedTotal paymentMethod in
    if decide (status = P_COMPLETED) then
      (Paid paymentId, commit paymentId fineIds l)
    else (NotCompleted status, l)
  else (AmountMismatch, l).

(** Modelled from the spec: a maximum fine, when one is configured, is
    an amount of money (monetary, non-negative). *)
Definition cap_nonneg (cap : option Z) : Prop :=
  match cap with Some c => 0 ≤ c | None => True end.

End Engine.

(** * Scenarios

    The concrete records the examples below are stated on. *)

(** A loan whose record allows no renewal at all. *)
Definition loan_without_renewals : BorrowHistoryEntry.t :=
  {| BorrowHistoryEntry.id := "L1";
     BorrowHistoryEntry.bookId := "B1";
     BorrowHistoryEntry.title := "Godan";
     BorrowHistoryEntry.author := "Premchand";
     BorrowHistoryEntry.borrowDate := Engine.utc 2024 1 1;
     BorrowHistoryEntry.dueDate := Engine.utc 2024 1 15;
     BorrowHistoryEntry.returnedDate := None;
     BorrowHistoryEntry.fineAmount := 0;
     BorrowHistoryEntry.finePaid := false;
     BorrowHistoryEntry.status := Borrowed;
     BorrowHistoryEntry.renewalCount := Some 0;
     BorrowHistoryEntry.maxRenewalsAllowed := Some 0 |}.

(** A stale loan: still stored as [Borrowed], due on 2024-01-10. *)
Definition stale_loan : BorrowHistoryEntry.t :=
  {| BorrowHistoryEntry.id := "L2";
     BorrowHistoryEntry.bookId := "B2";
     BorrowHistoryEntry.title := "Gitanjali";
     BorrowHistoryEntry.author := "Rabindranath Tagore";
     BorrowHistoryEntry.borrowDate := Engine.utc 2023 12 27;
     BorrowHistoryEntry.dueDate := Engine.utc 2024 1 10;
     BorrowHistoryEntry.returnedDate := None;
     BorrowHistoryEntry.fineAmount := 0;
     BorrowHistoryEntry.finePaid := false;
     BorrowHistoryEntry.status := Borrowed;
     BorrowHistoryEntry.renewalCount := None;
     BorrowHistoryEntry.maxRenewalsAllowed := None |}.

(** The state of the user-data service holding a borrow history. *)
Definition history_of (h : list BorrowHistoryEntry.t) : UserDataService.UserData :=
  UserDataService.mkUserData None None h None false None.

(** The payment form after the card-number control is set to [n]. *)
Definition withCardNumber (n : string) (f : DummyPaymentForm.t) : DummyPaymentForm.t :=
  DummyPaymentForm.mk (DummyPaymentForm.paymentMethod f) (Some n)
    (DummyPaymentForm.cardName f) (DummyPaymentForm.expiryMonth f)
    (DummyPaymentForm.expiryYear f) (DummyPaymentForm.cvv f)
    (DummyPaymentForm.upiId f) (DummyPaymentForm.bankName f)
    (DummyPaymentForm.walletProvider f) (DummyPaymentForm.walletNumber f).

(** A card payment of one fine of 25 rupees. *)
Definition card_form : DummyPaymentForm.t :=
  DummyPaymentForm.mk card (Some "4111 1111 1111 1111") (Some "Asha Rao")
    (Some "12") (Some "2027") (Some "123") None None None None.

Definition card_request : PaymentRequest.t :=
  PaymentRequest.mk "M1" ["F1"] 25 card (CustomerInfo.mk "Asha Rao" "asha@example.com").

(** Two fines of one member: 60 rupees pending, 40 rupees overdue. *)
Definition fine_pending : FineRecord.t :=
  {| FineRecord.id := "F1";
     FineRecord.memberId := "M1";
     FineRecord.bookTitle := "Godan";
     FineRecord.author := "Premchand";
     FineRecord.borrowId := "L1";
     FineRecord.dueDate := Engine.utc 2024 1 10;
     FineRecord.returnDate := Some (Engine.utc 2024 1 22);
     FineRecord.daysOverdue := 12;
     FineRecord.dailyFine := 5;
     FineRecord.totalFine := 60;
     FineRecord.status := F_PENDING;
     FineRecord.paidDate := None;
     FineRecord.paymentId := None |}.

Definition fine_overdue : FineRecord.t :=
  {| FineRecord.id := "F2";
     FineRecord.memberId := "M1";
     FineRecord.bookTitle := "Gitanjali";
     FineRecord.author := "Rabindranath Tagore";
     FineRecord.borrowId := "L2";
     FineRecord.dueDate := Engine.utc 2024 2 1;
     FineRecord.returnDate := None;
     FineRecord.daysOverdue := 8;
     FineRecord.dailyFine := 5;
     FineRecord.totalFine := 40;
     FineRecord.status := F_OVERDUE;
     FineRecord.paidDate := None;
     FineRecord.paymentId := None |}.

Definition member : AuthUser.t := AuthUser.mk "M1" "Asha Rao" "asha@example.com".

Definition upi_form : DummyPaymentForm.t :=
  DummyPaymentForm.mk upi None None None None None (Some "asha@upi") None None None.

Definition no_filter : FinesComponent.SearchForm :=
  FinesComponent.mkSearchForm "" None None None None None.

Definition pending_only : FinesComponent.SearchForm :=
  FinesComponent.mkSearchForm "" (Some F_PENDING) None None None None.

(** The fines page once both fines are loaded. *)
Definition fines_page : FinesComponent.State :=
  FinesComponent.onFines [fine_pending; fine_overdue]
    (FinesComponent.mkState [] [] [] (Some member) None upi_form no_filter
       FineService.defaultStats false false false "" "").

(** The member selects all fines, narrows the list to the pending ones,
    asks to pay and picks UPI. *)
Definition fines_page_before_submit : FinesComponent.State :=
  FinesComponent.onPaymentMethodSelect upi
    (FinesComponent.onPaySelected
       (FinesComponent.onSearchChange pending_only
          (FinesComponent.onSelectAllFines fines_page))).

(** The backend ledger holding the two fines and their loans. *)
Definition two_fines_ledger : Engine.Ledger :=
  Engine.mkLedger
    (<["F1" := fine_pending]> (<["F2" := fine_overdue]> ∅))
    (<["L1" := loan_without_renewals]> (<["L2" := stale_loan]> ∅)).

(** Gateways that complete, and decline, every payment. *)
Definition completing_gateway : Engine.Gateway := λ _ _, ("PAY-1", P_COMPLETED).

Definition declining_gateway : Engine.Gateway := λ _ _, ("PAY-2", P_FAILED).

(** The totals of the stored fines that a list of identifiers refers to. *)
Definition referencedTotal (fines : list FineRecord.t) (fineIds : list string) : Z :=
  foldr Z.add 0
    (FineRecord.totalFine <$> filter (λ f, FineRecord.id f ∈ fineIds) fines).

(** The backend's table of fines when it holds exactly the fines the
    page lists, by identifier. *)
Definition ledger_of (fines : list FineRecord.t) : gmap string FineRecord.t :=
  list_to_map ((λ f, (FineRecord.id f, f)) <$> fines).

(** A borrow-history entry with another [maxRenewalsAllowed]. *)
Definition withMaxRenewals (limit : option Z) (b : BorrowHistoryEntry.t)
    : BorrowHistoryEntry.t :=
  BorrowHistoryEntry.mk (BorrowHistoryEntry.id b) (BorrowHistoryEntry.bookId b)
    (BorrowHistoryEntry.title b) (BorrowHistoryEntry.author b)
    (BorrowHistoryEntry.borrowDate b) (BorrowHistoryEntry.dueDate b)
    (BorrowHistoryEntry.returnedDate b) (BorrowHistoryEntry.fineAmount b)
    (BorrowHistoryEntry.finePaid b) (BorrowHistoryEntry.status b)
    (BorrowHistoryEntry.renewalCount b) limit.

(** * More of the client code

    The remaining methods of the components and services above, and of
    the navigation bar that reads the same user data. *)

(** The fine [f] passes every filter that is set in the search form. *)
Definition fine_passes (form : FinesComponent.SearchForm) (f : FineRecord.t) : Prop :=
  (FinesComponent.query form ≠ "" →
     Str.includes (Str.toLowerCase (FineRecord.bookTitle f))
                  (Str.toLowerCase (FinesComponent.query form))
     || Str.includes (Str.toLowerCase (FineRecord.author f))
                     (Str.toLowerCase (FinesComponent.query form)) = true)
  ∧ (∀ s, FinesComponent.status form = Some s → FineRecord.status f = s)
  ∧ (∀ m, FinesComponent.minAmount form = Some m → m ≤ FineRecord.totalFine f)
  ∧ (∀ m, FinesComponent.maxAmount form = Some m → FineRecord.totalFine f ≤ m)
  ∧ (∀ d, FinesComponent.dateFrom form = Some d → d ≤ FineRecord.dueDate f)
  ∧ (∀ d, FinesComponent.dateTo form = Some d → FineRecord.dueDate f ≤ d).

(** ** services/user-data.service.ts, the remaining methods *)

Module UserDataOps.

(** [Partial<UserBorrowInfo>]: [None] is a key the object does not have. *)
Record PartialBorrowInfo := mkPartial {
  libraryId : option string;
  name : option string;
  email : option string;
  currentBorrowedCount : option Z;
  maxBooksAllowed : option Z;
  fines : option Z;
  overdueBooks : option Z;
  isEligible : option bool
}.

(** [{ ...current, ...updatedInfo }] *)
Definition spread (current : UserBorrowInfo.t) (updatedInfo : PartialBorrowInfo)
    : UserBorrowInfo.t :=
  UserBorrowInfo.mk
    (default (UserBorrowInfo.libraryId current) (libraryId updatedInfo))
    (default (UserBorrowInfo.name current) (name updatedInfo))
    (default (UserBorrowInfo.email current) (email updatedInfo))
    (default (UserBorrowInfo.currentBorrowedCount current)
             (currentBorrowedCount updatedInfo))
    (default (UserBorrowInfo.maxBooksAllowed current) (maxBooksAllowed updatedInfo))
    (default (UserBorrowInfo.fines current) (fines updatedInfo))
    (default (UserBorrowInfo.overdueBooks current) (overdueBooks updatedInfo))
    (default (UserBorrowInfo.isEligible current) (isEligible updatedInfo)).

(** The literal of [clearUserData]. *)
Definition clearUserData (_ : UserDataService.UserData) : UserDataService.UserData :=
  UserDataService.mkUserData None None [] None false None.

(** [updateBorrowInfo]: without a borrow profile nothing is updated. *)
Definition updateBorrowInfo (updatedInfo : PartialBorrowInfo)
    (d : UserDataService.UserData) : UserDataService.UserData :=
  match UserDataService.borrowInfo d with
  | Some current =>
      let updated := spread current updatedInfo in
      UserDataService.mkUserData (UserDataService.user d) (Some updated)
        (UserDataService.borrowHistory d) (UserDataService.statistics d)
        (UserDataService.isLoading d) (UserDataService.error d)
  | None => d
  end.

Definition updateBorrowHistory (updatedHistory : list BorrowHistoryEntry.t)
    (d : UserDataService.UserData) : UserDataService.UserData :=
  UserDataService.mkUserData (UserDataService.user d) (UserDataService.borrowInfo d)
    updatedHistory (UserDataService.statistics d)
    (UserDataService.isLoading d) (UserDataService.error d).

(** [return borrowInfo?.fines || 0] *)
Definition getTotalFines (d : UserDataService.UserData) : Z :=
  match UserDataService.getCurrentBorrowInfo d with
  | Some borrowInfo => Js.or_default (Some (UserBorrowInfo.fines borrowInfo)) 0
  | None => 0
  end.

(** [canBorrowMoreBooks] *)
Definition canBorrowMoreBooks (d : UserDataService.UserData) : bool :=
  match UserDataService.getCurrentBorrowInfo d with
  | None => false
  | Some borrowInfo =>
      UserBorrowInfo.isEligible borrowInfo
      && bool_decide (UserBorrowInfo.currentBorrowedCount borrowInfo
                      < UserBorrowInfo.maxBooksAllowed borrowInfo)
      && bool_decide (UserBorrowInfo.fines borrowInfo = 0)
      && bool_decide (UserBorrowInfo.overdueBooks borrowInfo = 0)
  end.

(** The subscriptions of [initializeUserData] to [userBorrowInfo$] and
    [borrowHistory$]. *)
Definition onBorrowInfo (borrowInfo : option UserBorrowInfo.t)
    (d : UserDataService.UserData) : UserDataService.UserData :=
  UserDataService.mkUserData (UserDataService.user d) borrowInfo
    (UserDataService.borrowHistory d) (UserDataService.statistics d)
    false (UserDataService.error d).

Definition onBorrowHistory (borrowHistory : list BorrowHistoryEntry.t)
    (d : UserDataService.UserData) : UserDataService.UserData :=
  UserDataService.mkUserData (UserDataService.user d) (UserDataService.borrowInfo d)
    borrowHistory (UserDataService.statistics d)
    false (UserDataService.error d).

(** The subscription of [initializeUserData] to [currentUser$]:
    [statisticsResponse] is the answer to the statistics request sent
    for a signed-in user. *)
Definition onAuthUser (user : option AuthUser.t)
    (statisticsResponse : Rx.Observable UserStatistics.t)
    (d : UserDataService.UserData) : UserDataService.UserData :=
  let d := UserDataService.mkUserData user (UserDataService.borrowInfo d)
             (UserDataService.borrowHistory d) (UserDataService.statistics d)
             (UserDataService.isLoading d) (UserDataService.error d) in
  match user with
  | Some _ =>
      UserDataService.loadCompleteUserData
        (UserService.getUserStatistics statisticsResponse) d
  | None => clearUserData d
  end.

End UserDataOps.

(** ** services/user.service.ts, the cached subjects *)

Module UserServiceCache.

Record State := mkState {
  borrowHistorySubject : list BorrowHistoryEntry.t;
  userBorrowInfoSubject : option UserBorrowInfo.t;
  currentUser : option AuthUser.t
}.

(** What the two reads of the user's data come back with. *)
Record Backend := mkBackend {
  borrowInfoResponse : Rx.Observable UserBorrowInfo.t;
  historyResponse : Rx.Observable (list BorrowHistoryEntry.t)
}.

(** [getUserBorrowHistory]: the handler rethrows the error unchanged
    (the [map] step only turns date strings into [Date]s). *)
Definition getUserBorrowHistory (response : Rx.Observable (list BorrowHistoryEntry.t))
    : Rx.Observable (list BorrowHistoryEntry.t) :=
  Rx.catchError (λ error, Rx.throwError error) response.

Definition set_info (i : option UserBorrowInfo.t) (st : State) : State :=
  mkState (borrowHistorySubject st) i (currentUser st).

Definition set_history (h : list BorrowHistoryEntry.t) (st : State) : State :=
  mkState h (userBorrowInfoSubject st) (currentUser st).

(** [loadUserData]: a failed read resets the subject, to [null] and to
    the empty list. *)
Definition loadUserData (be : Backend) (st : State) : State :=
  match currentUser st with
  | Some _ =>
      let st :=
        Rx.subscribe (λ borrowInfo, set_info (Some borrowInfo))
                     (λ _error, set_info None)
                     (UserService.getUserBorrowInfo (borrowInfoResponse be)) st in
      Rx.subscribe (λ history, set_history history)
                   (λ _error, set_history [])
                   (getUserBorrowHistory (historyResponse be)) st
  | None => st
  end.

(** [refreshUserBorrowInfo] and [refreshBorrowHistory]: a failed read is
    only logged. *)
Definition refreshUserBorrowInfo (be : Backend) (st : State) : State :=
  Rx.subscribe (λ borrowInfo, set_info (Some borrowInfo))
               (λ _error st, st)
               (UserService.getUserBorrowInfo (borrowInfoResponse be)) st.

Definition refreshBorrowHistory (be : Backend) (st : State) : State :=
  Rx.subscribe (λ history, set_history history)
               (λ _error st, st)
               (getUserBorrowHistory (historyResponse be)) st.

Definition refreshUserData (be : Backend) (st : State) : State :=
  match currentUser st with
  | Some _ => refreshBorrowHistory be (refreshUserBorrowInfo be st)
  | None => st
  end.

Record ExtendResponse := mkExtendResponse {
  extendSuccess : bool;
  newDueDate : string;
  extendMessage : string
}.


(** The [catchError] handlers of [extendBookDueDate] and [returnBook]. *)
Definition extendErrorMessage (error : Rx.Failure) : string :=
  match error with
  | Rx.HttpErrorResponse 400 message =>
      if Js.truthy message then default "" message
      else "Extension not allowed for this book."
  | Rx.HttpErrorResponse 409 _ => "Book has already been extended or is overdue."
  | _ => "Failed to extend due date. Please try again."
  end.


(** [extendBookDueDate]: [patch] is the answer of the [/extend] endpoint;
    a successful one makes a signed-in client re-read the history. *)
Definition extendBookDueDate (patch : Rx.Observable ExtendResponse)
    (be : Backend) (st : State) : Rx.Observable ExtendResponse * State :=
  match patch with
  | Rx.Next response =>
      (Rx.Next response,
       if extendSuccess response then
         match currentUser st with
         | Some _ => refreshBorrowHistory be st
         | None => st
         end
       else st)
  | Rx.Fail error => (Rx.throwError (Rx.ErrorMsg (extendErrorMessage error)), st)
  end.


End UserServiceCache.

(** ** [Array.prototype.sort] *)

Module JsArray.

(** [array.sort(compare)] sorts stably; for a comparator that orders
    the elements consistently the result is the one stable arrangement,
    which insertion from the right computes.  [before x y] says
    [compare(x, y) <= 0]: [x] may stay in front of [y]. *)
Fixpoint insert {A} (before : A → A → bool) (x : A) (l : list A) : list A :=
  match l with
  | [] => [x]
  | y :: l' => if before x y then x :: l else y :: insert before x l'
  end.

Definition sort {A} (before : A → A → bool) (l : list A) : list A :=
  foldr (insert before) [] l.

End JsArray.

(** ** components/my-books/my-books.component.ts, the history list *)

Module MyBooksHistory.

(** The string a [BorrowStatus] is. *)
Definition statusText (s : BorrowStatus) : string :=
  match s with
  | Borrowed => "Borrowed"
  | Returned => "Returned"
  | Overdue => "Overdue"
  | Lost => "Lost"
  | Damaged => "Damaged"
  end.

(** The value of [filterForm]: the two dates as [new Date(...)] reads
    them ([None] for an empty control) and the status, ['all'] at first. *)
Record FilterForm := mkFilterForm {
  startDate : option Z;
  endDate : option Z;
  status : string
}.

(** [(a, b) => b.borrowDate.getTime() - a.borrowDate.getTime()] is at
    most 0. *)
Definition newestFirst (a b : BorrowHistoryEntry.t) : bool :=
  bool_decide (BorrowHistoryEntry.borrowDate b - BorrowHistoryEntry.borrowDate a <= 0).

Definition sortHistoryByDate (filteredHistory : list BorrowHistoryEntry.t)
    : list BorrowHistoryEntry.t :=
  JsArray.sort newestFirst filteredHistory.

(** The three filters of [applyCurrentFilters]; [endOfDay] is
    [end.setHours(23, 59, 59, 999)], which depends on the time zone of
    the browser. *)
Definition filterHistory (endOfDay : Z → Z) (form : FilterForm)
    (borrowHistory : list BorrowHistoryEntry.t) : list BorrowHistoryEntry.t :=
  let filtered := borrowHistory in
  let filtered :=
    match startDate form with
    | Some start =>
        List.filter (λ record, bool_decide (BorrowHistoryEntry.borrowDate record >= start))
                    filtered
    | None => filtered
    end in
  let filtered :=
    match endDate form with
    | Some e =>
        let end_ := endOfDay e in
        List.filter (λ record, bool_decide (BorrowHistoryEntry.borrowDate record <= end_))
                    filtered
    | None => filtered
    end in
  if Js.truthy (Some (status form)) && negb (String.eqb (status form) "all") then
    List.filter
      (λ record,
         String.eqb (Str.toLowerCase (statusText (BorrowHistoryEntry.status record)))
                    (Str.toLowerCase (status form)))
      filtered
  else filtered.

(** [applyCurrentFilters]: the new [filteredHistory]. *)
Definition applyCurrentFilters (endOfDay : Z → Z) (form : FilterForm)
    (borrowHistory : list BorrowHistoryEntry.t) : list BorrowHistoryEntry.t :=
  sortHistoryByDate (filterHistory endOfDay form borrowHistory).

(** The counters [updateStatistics] writes. *)
Record Stats := mkStats {
  totalBorrowedBooks : Z;
  currentlyBorrowedBooks : Z;
  returnedBooks : Z;
  overdueBooks : Z;
  totalFines : Z
}.

Definition updateStatistics (userBorrowInfo : option UserBorrowInfo.t)
    (userStatistics : option UserStatistics.t)
    (borrowHistory : list BorrowHistoryEntry.t) (s : Stats) : Stats :=
  let s :=
    match userBorrowInfo with
    | Some info =>
        mkStats (totalBorrowedBooks s) (UserBorrowInfo.currentBorrowedCount info)
                (returnedBooks s) (UserBorrowInfo.overdueBooks info)
                (UserBorrowInfo.fines info)
    | None => s
    end in
  let total :=
    match userStatistics with
    | Some statistics => UserStatistics.totalBooksRead statistics
    | None => Z.of_nat (length borrowHistory)
    end in
  mkStats total (currentlyBorrowedBooks s)
    (Z.of_nat (length (filter (λ record, BorrowHistoryEntry.status record = Returned)
                              borrowHistory)))
    (overdueBooks s) (totalFines s).

(** The paging fields. *)
Record Paging := mkPaging {
  currentPage : Z;
  totalPages : Z;
  isLoadingMore : bool
}.

Definition hasMoreResults (p : Paging) : bool :=
  bool_decide (currentPage p < totalPages p - 1).

(** [loadMore]: the paging fields afterwards and the page asked of
    [getUserBorrowHistory], if any. *)
Definition loadMore (currentUser : option AuthUser.t) (p : Paging)
    : Paging * option Z :=
  if bool_decide (currentPage p < totalPages p - 1) && negb (isLoadingMore p) then
    let p := mkPaging (currentPage p + 1) (totalPages p) true in
    match currentUser with
    | Some _ => (p, Some (currentPage p))
    | None => (p, None)
    end
  else (p, None).

(** The answer to the request of [loadMore]. *)
Definition onMoreHistory (response : Rx.Observable (list BorrowHistoryEntry.t))
    (borrowHistory : list BorrowHistoryEntry.t) (p : Paging)
    : list BorrowHistoryEntry.t * Paging :=
  match response with
  | Rx.Next moreHistory =>
      ((borrowHistory ++ moreHistory)%list, mkPaging (currentPage p) (totalPages p) false)
  | Rx.Fail _ => (borrowHistory, mkPaging (currentPage p) (totalPages p) false)
  end.

End MyBooksHistory.

(** ** models/book.model.ts *)

Module Book.
Record t := mk {
  id : string;
  title : string;
  author : string;
  category : string;
  availableCopies : Z;
  totalCopies : Z;
  isAvailable : bool
}.
End Book.

(** A [BookBorrower]: [dueDate] is the time [new Date(b.dueDate)] reads
    from the date string, taken to be a date; [returnDate] is [None]
    when missing. *)
Module BookBorrower.
Record t := mk {
  memberId : string;
  dueDate : Z;
  returnDate : option string
}.
End BookBorrower.

Module BorrowRequest.
Record t := mk {
  memberId : string;
  borrowItems : list (string * Z);
  borrowDate : Z;
  dueDate : Z;
  notes : string
}.
End BorrowRequest.

Module BorrowResponse.
Record t := mk {
  success : bool;
  message : string;
  dueDate : option string
}.
End BorrowResponse.

(** ** components/books/books.component.ts, selecting and borrowing *)

Module BooksPage.

(** The component with the fields the methods below read and write
    beside those of [BooksComponent.State]; [searchResults] is
    [searchResults?.books]. *)
Record Page := mkPage {
  core : BooksComponent.State;
  currentUser : option AuthUser.t;
  searchResults : option (list Book.t);
  books : list Book.t;
  showBorrowConfirmModal : bool;
  isBorrowing : bool
}.

Definition set_core (c : BooksComponent.State) (pg : Page) : Page :=
  mkPage c (currentUser pg) (searchResults pg) (books pg)
         (showBorrowConfirmModal pg) (isBorrowing pg).

Definition set_modal (b : bool) (pg : Page) : Page :=
  mkPage (core pg) (currentUser pg) (searchResults pg) (books pg) b (isBorrowing pg).

Definition set_isBorrowing (b : bool) (pg : Page) : Page :=
  mkPage (core pg) (currentUser pg) (searchResults pg) (books pg)
         (showBorrowConfirmModal pg) b.

Definition set_selectedBooks (m : list (string * Z)) (st : BooksComponent.State)
    : BooksComponent.State :=
  BooksComponent.mkState m (BooksComponent.userBorrowInfo st)
    (BooksComponent.errorMessage st) (BooksComponent.successMessage st).

Definition set_borrowInfo (i : option BooksComponent.BorrowInfo)
    (st : BooksComponent.State) : BooksComponent.State :=
  BooksComponent.mkState (BooksComponent.selectedBooks st) i
    (BooksComponent.errorMessage st) (BooksComponent.successMessage st).

(** [showSuccess] also clears the error message. *)
Definition showSuccess (message : BooksComponent.Message)
    (st : BooksComponent.State) : BooksComponent.State :=
  BooksComponent.mkState (BooksComponent.selectedBooks st)
    (BooksComponent.userBorrowInfo st) BooksComponent.NoMessage message.

(** [Map.prototype.set] and [delete] on the entries in insertion order:
    an existing key keeps its place. *)
Fixpoint map_set (k : string) (v : Z) (m : list (string * Z)) : list (string * Z) :=
  match m with
  | [] => [(k, v)]
  | (k', v') :: m' =>
      if decide (k' = k) then (k, v) :: m' else (k', v') :: map_set k v m'
  end.

Definition map_delete (k : string) (m : list (string * Z)) : list (string * Z) :=
  filter (λ p, p.1 ≠ k) m.

(** [Map.prototype.get] *)
Definition map_get (k : string) (m : list (string * Z)) : option Z :=
  snd <$> List.find (λ p, bool_decide (p.1 = k)) m.

(** [books.find(b => b.id === bookId)] *)
Definition findBook (bookId : string) (books : list Book.t) : option Book.t :=
  List.find (λ b, bool_decide (Book.id b = bookId)) books.

Definition quote : string := String (ascii_of_nat 34) EmptyString.

(** The text of the message for a quantity above the available copies:
    Only N copies of (the quoted title) are available. *)
Definition onlyCopiesText (book : Book.t) : string :=
  "Only " +:+ pretty (Book.availableCopies book) +:+ " copies of " +:+ quote
  +:+ Book.title book +:+ quote +:+ " are available.".

(** [onQuantityChange]: [value] is [parseInt(target.value, 10)], [None]
    when it is [NaN]. *)
Definition onQuantityChange (bookId : string) (value : option Z) (pg : Page) : Page :=
  let quantity := Js.or_default value 0 in
  let st := core pg in
  let selected := BooksComponent.selectedBooks st in
  let st :=
    if decide (quantity <= 0) then set_selectedBooks (map_delete bookId selected) st
    else
      match searchResults pg ≫= findBook bookId with
      | Some book =>
          if decide (quantity > Book.availableCopies book) then
            set_selectedBooks (map_set bookId (Book.availableCopies book) selected)
              (BooksComponent.showError
                 (BooksComponent.OtherMessage (onlyCopiesText book)) st)
          else set_selectedBooks (map_set bookId quantity selected) st
      | None => set_selectedBooks (map_set bookId quantity selected) st
      end in
  set_core (BooksComponent.validateSelection st) pg.

(** [!book.isAvailable || book.availableCopies === 0] *)
Definition unavailable (book : Book.t) : bool :=
  negb (Book.isAvailable book) || bool_decide (Book.availableCopies book = 0).

Definition getAvailabilityClass (book : Book.t) : string :=
  if unavailable book then "availability-unavailable"
  else if decide (Book.availableCopies book = 1) then "availability-limited"
  else "availability-available".

Definition getAvailabilityText (book : Book.t) : string :=
  if unavailable book then "Unavailable"
  else if decide (Book.availableCopies book = 1) then "Limited"
  else "Available".

Record AvailabilityInfo := mkAvailabilityInfo {
  status : string;
  message : string;
  nextAvailableDate : option Z
}.

Definition limitedText (book : Book.t) : string :=
  "Only 1 copy remaining out of " +:+ pretty (Book.totalCopies book)
  +:+ " total copies.".

Definition availableText (book : Book.t) : string :=
  pretty (Book.availableCopies book) +:+ " of " +:+ pretty (Book.totalCopies book)
  +:+ " copies available.".

(** [(a, b) => new Date(a.dueDate).getTime() - new Date(b.dueDate).getTime()]
    is at most 0. *)
Definition earliestFirst (a b : BookBorrower.t) : bool :=
  bool_decide (BookBorrower.dueDate a - BookBorrower.dueDate b <= 0).

Definition calculateAvailabilityInfo (book : Book.t) (borrowers : list BookBorrower.t)
    : AvailabilityInfo :=
  if unavailable book then
    let earliestReturn :=
      head (JsArray.sort earliestFirst
              (List.filter (λ b, negb (Js.truthy (BookBorrower.returnDate b)))
                           borrowers)) in
    mkAvailabilityInfo "Unavailable"
      ("All " +:+ pretty (Book.totalCopies book) +:+ " copies are currently borrowed.")
      (BookBorrower.dueDate <$> earliestReturn)
  else if decide (Book.availableCopies book = 1) then
    mkAvailabilityInfo "Limited" (limitedText book) None
  else mkAvailabilityInfo "Available" (availableText book) None.

(** [getAvailabilityInfo], the fallback when the borrowers cannot be read. *)
Definition getAvailabilityInfo (book : Book.t) : AvailabilityInfo :=
  if unavailable book then
    mkAvailabilityInfo "Unavailable" "This book is currently not available." None
  else if decide (Book.availableCopies book = 1) then
    mkAvailabilityInfo "Limited" (limitedText book) None
  else mkAvailabilityInfo "Available" (availableText book) None.

(** [onCheckAvailability]: [borrowers] is the answer of
    [bookService.getBookBorrowers(book.id)]; the availability shown. *)
Definition onCheckAvailability (book : Book.t)
    (borrowers : Rx.Observable (list BookBorrower.t)) : AvailabilityInfo :=
  match borrowers with
  | Rx.Next borrowers => calculateAvailabilityInfo book borrowers
  | Rx.Fail _ => getAvailabilityInfo book
  end.

(** What [onBorrowBook] does next to changing the page. *)
Inductive BorrowClick := Nothing | CheckAvailability (book : Book.t).

Definition onBorrowBook (book : Book.t) (pg : Page) : Page * BorrowClick :=
  match currentUser pg with
  | None =>
      (set_core (BooksComponent.showError
                   (BooksComponent.OtherMessage "Please log in to borrow books.")
                   (core pg)) pg, Nothing)
  | Some _ =>
      if unavailable book then (pg, CheckAvailability book)
      else
        (set_modal true (set_core (set_selectedBooks [(Book.id book, 1)] (core pg)) pg),
         Nothing)
  end.

Definition onBorrowSelected (pg : Page) : Page :=
  if decide (length (BooksComponent.selectedBooks (core pg)) = 0%nat) then
    set_core (BooksComponent.showError
                (BooksComponent.OtherMessage
                   "Please select at least one book to borrow.") (core pg)) pg
  else set_modal true pg.

(** [confirmBorrow] up to the call of [bookService.borrowBooks]: [now1]
    is the [new Date()] and [now2] the [Date.now()] it reads. *)
Definition confirmBorrow (now1 now2 : Z) (pg : Page)
    : Page * option BorrowRequest.t :=
  match currentUser pg, BooksComponent.userBorrowInfo (core pg) with
  | Some user, Some _ =>
      let borrowRequest :=
        {| BorrowRequest.memberId := AuthUser.memberId user;
           BorrowRequest.borrowItems := BooksComponent.selectedBooks (core pg);
           BorrowRequest.borrowDate := now1;
           BorrowRequest.dueDate :=
             now2 + BooksComponent.BORROW_PERIOD_DAYS * 24 * 60 * 60 * 1000;
           BorrowRequest.notes :=
             "Borrowed " +:+ pretty (BooksComponent.getTotalSelectedCopies (core pg))
             +:+ " book(s)" |} in
      (set_isBorrowing true pg, Some borrowRequest)
  | _, _ => (pg, None)
  end.

(** [getSelectedBookDetails]: [None] where the source dereferences a
    book it did not find ([book!] and then [item.book.title]). *)
Definition getSelectedBookDetails (pg : Page) : option (list (Book.t * Z)) :=
  mapM (λ '(bookId, quantity),
          match searchResults pg ≫= findBook bookId with
          | Some book => Some (book, quantity)
          | None => (λ book, (book, quantity)) <$> findBook bookId (books pg)
          end)
       (BooksComponent.selectedBooks (core pg)).

(** The text of the success message; [dueText] is what the locale makes
    of the due date. *)
Definition borrowedText (details : list (Book.t * Z)) (dueText : string) : string :=
  "✅ Successfully borrowed: "
  +:+ String.concat ", "
        ((λ '(book, quantity), pretty quantity +:+ "x " +:+ Book.title book)
           <$> details)
  +:+ ". Due date: " +:+ dueText.

Definition borrowErrorMessage (error : Rx.Failure) : string :=
  match error with
  | Rx.HttpErrorResponse 400 message =>
      if Js.truthy message then default "" message else "Invalid borrow request."
  | Rx.HttpErrorResponse 409 _ => "Some books are no longer available."
  | _ => "Failed to borrow books. Please try again."
  end.

(** The subscriber of [confirmBorrow].  When a selected book is among
    neither the search results nor the loaded books, building the
    success message throws and the handler stops there; so it does at
    the count when the borrow profile is missing.  The search the
    handler starts afterwards changes none of these fields. *)
Definition onBorrowResponse (dueText : string)
    (response : Rx.Observable BorrowResponse.t) (pg : Page) : Page :=
  match response with
  | Rx.Next response =>
      if BorrowResponse.success response then
        match getSelectedBookDetails pg with
        | Some details =>
            let st := showSuccess
                        (BooksComponent.OtherMessage (borrowedText details dueText))
                        (core pg) in
            match BooksComponent.userBorrowInfo st with
            | Some info =>
                let info :=
                  BooksComponent.mkBorrowInfo
                    (BooksComponent.currentBorrowedCount info
                     + BooksComponent.getTotalSelectedCopies st)
                    (BooksComponent.fines info) (BooksComponent.overdueBooks info) in
                let st := set_selectedBooks [] (set_borrowInfo (Some info) st) in
                set_isBorrowing false (set_modal false (set_core st pg))
            | None => set_core st pg
            end
        | None => pg
        end
      else
        set_isBorrowing false
          (set_core (BooksComponent.showError
                       (BooksComponent.OtherMessage
                          (if Js.truthy (Some (BorrowResponse.message response))
                           then BorrowResponse.message response
                           else "Failed to borrow books. Please try again."))
                       (core pg)) pg)
  | Rx.Fail error =>
      set_isBorrowing false
        (set_core (BooksComponent.showError
                     (BooksComponent.OtherMessage (borrowErrorMessage error))
                     (core pg)) pg)
  end.

End BooksPage.

(** ** components/navbar/navbar.component.ts *)

Module Notification.
Record t := mk {
  id : string;
  type : string;
  title : string;
  message : string;
  timestamp : Z;
  actionUrl : option string;
  actionText : option string
}.
End Notification.

Module Navbar.

Record State := mkState {
  currentUser : option AuthUser.t;
  userBorrowInfo : option UserBorrowInfo.t;
  showProfileDropdown : bool;
  showMobileMenu : bool;
  showNotifications : bool;
  isLoading : bool;
  notifications : list Notification.t;
  unreadNotificationsCount : Z;
  overdueBooks : Z;
  totalFines : Z;
  borrowedBooksCount : Z;
  showSearchSuggestions : bool
}.

(** The field initialisers of the class. *)
Definition initial : State :=
  mkState None None false false false false [] 0 0 0 0 false.

Definition set_menus (profile mobile notes : bool) (st : State) : State :=
  mkState (currentUser st) (userBorrowInfo st) profile mobile notes (isLoading st)
    (notifications st) (unreadNotificationsCount st) (overdueBooks st) (totalFines st)
    (borrowedBooksCount st) (showSearchSuggestions st).

Definition set_showSearchSuggestions (b : bool) (st : State) : State :=
  mkState (currentUser st) (userBorrowInfo st) (showProfileDropdown st)
    (showMobileMenu st) (showNotifications st) (isLoading st) (notifications st)
    (unreadNotificationsCount st) (overdueBooks st) (totalFines st)
    (borrowedBooksCount st) b.

Definition set_notifications (l : list Notification.t) (st : State) : State :=
  mkState (currentUser st) (userBorrowInfo st) (showProfileDropdown st)
    (showMobileMenu st) (showNotifications st) (isLoading st) l
    (unreadNotificationsCount st) (overdueBooks st) (totalFines st)
    (borrowedBooksCount st) (showSearchSuggestions st).

Definition set_unreadNotificationsCount (n : Z) (st : State) : State :=
  mkState (currentUser st) (userBorrowInfo st) (showProfileDropdown st)
    (showMobileMenu st) (showNotifications st) (isLoading st) (notifications st)
    n (overdueBooks st) (totalFines st) (borrowedBooksCount st)
    (showSearchSuggestions st).

Definition set_quickStats (overdue fines borrowed : Z) (st : State) : State :=
  mkState (currentUser st) (userBorrowInfo st) (showProfileDropdown st)
    (showMobileMenu st) (showNotifications st) (isLoading st) (notifications st)
    (unreadNotificationsCount st) overdue fines borrowed (showSearchSuggestions st).

Definition set_userData (d : UserDataService.UserData) (st : State) : State :=
  mkState (UserDataService.user d) (UserDataService.borrowInfo d)
    (showProfileDropdown st) (showMobileMenu st) (showNotifications st)
    (UserDataService.isLoading d) (notifications st) (unreadNotificationsCount st)
    (overdueBooks st) (totalFines st) (borrowedBooksCount st)
    (showSearchSuggestions st).

Definition updateQuickStats (st : State) : State :=
  match userBorrowInfo st with
  | Some info =>
      set_quickStats (UserBorrowInfo.overdueBooks info) (UserBorrowInfo.fines info)
        (UserBorrowInfo.currentBorrowedCount info) st
  | None => st
  end.

(** [n > 1 ? 's' : ''] *)
Definition plural (n : Z) : string := if decide (n > 1) then "s" else "".

Definition overdueNotification (now : Z) (st : State) : Notification.t :=
  Notification.mk "overdue-books" "warning" "Overdue Books"
    ("You have " +:+ pretty (overdueBooks st) +:+ " overdue book"
     +:+ plural (overdueBooks st))
    now (Some "/my-books") (Some "View Books").

Definition finesNotification (now : Z) (st : State) : Notification.t :=
  Notification.mk "pending-fines" "error" "Pending Fines"
    ("You have ₹" +:+ pretty (totalFines st) +:+ " in pending fines")
    now (Some "/fines") (Some "Pay Fines").

Definition limitNotification (now : Z) : Notification.t :=
  Notification.mk "borrowing-limit" "info" "Borrowing Limit Reached"
    "You have reached your maximum borrowing limit"
    now (Some "/my-books") (Some "View Books").

Definition complaintNotification (now : Z) (inProgress : Z) : Notification.t :=
  Notification.mk "complaint-updates" "info" "Complaint Updates"
    ("You have " +:+ pretty inProgress +:+ " complaint" +:+ plural inProgress
     +:+ " in progress")
    now (Some "/complaints") (Some "View Complaints").

Definition limitReached (st : State) : bool :=
  match userBorrowInfo st with
  | Some info =>
      bool_decide (UserBorrowInfo.currentBorrowedCount info
                   >= UserBorrowInfo.maxBooksAllowed info)
  | None => false
  end.

(** [loadUserNotifications], [now] being the [new Date()] of each
    notification; the complaint statistics it asks for arrive later,
    see [onComplaintStatistics]. *)
Definition loadUserNotifications (now : Z) (st : State) : State :=
  match currentUser st with
  | None => st
  | Some _ =>
      let l := ((if decide (overdueBooks st > 0) then [overdueNotification now st] else [])
                ++ (if decide (totalFines st > 0) then [finesNotification now st] else [])
                ++ (if limitReached st then [limitNotification now] else []))%list in
      set_unreadNotificationsCount (Z.of_nat (length l)) (set_notifications l st)
  end.

(** The [next] handler of [loadComplaintNotifications]. *)
Definition onComplaintStatistics (now : Z) (inProgressComplaints : Z) (st : State)
    : State :=
  if decide (inProgressComplaints > 0) then
    set_notifications
      (notifications st ++ [complaintNotification now inProgressComplaints])%list st
  else st.

(** The subscriber of [setupUserSubscription]. *)
Definition onUserData (now : Z) (d : UserDataService.UserData) (st : State) : State :=
  let st := updateQuickStats (set_userData d st) in
  match UserDataService.user d, UserDataService.borrowInfo d with
  | Some _, Some _ => loadUserNotifications now st
  | _, _ => st
  end.

Definition markNotificationsAsRead (st : State) : State :=
  set_unreadNotificationsCount 0 st.

Definition toggleProfileDropdown (st : State) : State :=
  if negb (showProfileDropdown st) then set_menus true false false st
  else set_menus false (showMobileMenu st) (showNotifications st) st.

Definition toggleNotifications (st : State) : State :=
  if negb (showNotifications st) then
    markNotificationsAsRead (set_menus false false true st)
  else set_menus (showProfileDropdown st) (showMobileMenu st) false st.

Definition toggleMobileMenu (st : State) : State :=
  if negb (showMobileMenu st) then set_menus false true false st
  else set_menus (showProfileDropdown st) false (showNotifications st) st.

Definition closeAllDropdowns (st : State) : State :=
  set_showSearchSuggestions false (set_menus false false false st).

Definition dismissNotification (notificationId : string) (st : State) : State :=
  set_unreadNotificationsCount (Z.max 0 (unreadNotificationsCount st - 1))
    (set_notifications
       (filter (λ n, Notification.id n ≠ notificationId) (notifications st)) st).

(** What happens to the component: the handlers above, one per event;
    [NotificationsRefresh] is the timer of [setupNotifications]. *)
Inductive Event :=
| UserDataArrives (now : Z) (d : UserDataService.UserData)
| ComplaintStatisticsArrive (now : Z) (inProgressComplaints : Z)
| NotificationsRefresh (now : Z)
| ToggleProfileDropdown
| ToggleNotifications
| ToggleMobileMenu
| CloseAllDropdowns
| DismissNotification (notificationId : string).

Definition handle (st : State) (e : Event) : State :=
  match e with
  | UserDataArrives now d => onUserData now d st
  | ComplaintStatisticsArrive now n => onComplaintStatistics now n st
  | NotificationsRefresh now => loadUserNotifications now st
  | ToggleProfileDropdown => toggleProfileDropdown st
  | ToggleNotifications => toggleNotifications st
  | ToggleMobileMenu => toggleMobileMenu st
  | CloseAllDropdowns => closeAllDropdowns st
  | DismissNotification notificationId => dismissNotification notificationId st
  end.

Definition run (events : list Event) : State := foldl handle initial events.

(** The notifications the component builds from the member's own
    figures, those about complaints left out. *)
Definition own (l : list Notification.t) : list Notification.t :=
  filter (λ n, Notification.id n ≠ "complaint-updates") l.

(** What every handler keeps: the three menus exclude one another, the
    unread count is not negative and not above the number of own
    notifications, and these have distinct ids. *)
Definition invariant (st : State) : Prop :=
  (showProfileDropdown st = true → showMobileMenu st = false ∧ showNotifications st = false)
  ∧ (showMobileMenu st = true → showNotifications st = false)
  ∧ 0 ≤ unreadNotificationsCount st
  ∧ unreadNotificationsCount st ≤ Z.of_nat (length (own (notifications st)))
  ∧ NoDup (Notification.id <$> own (notifications st)).

End Navbar.

(** * Properties *)

(** ** Arithmetic of the JavaScript helpers *)

Lemma msPerDay_pos : 0 < Js.msPerDay.
Proof. reflexivity. Qed.

Lemma ceil_div_gt (a b k : Z) : 0 < b → Js.ceil_div a b > k ↔ a > k * b.
Proof.
  intros Hb. unfold Js.ceil_div.
  pose proof (Z.div_mod (- a) b ltac:(lia)) as Hdm.
  pose proof (Z.mod_pos_bound (- a) b Hb) as Hr.
  split; intros H; nia.
Qed.

Lemma or_default_some_nonzero (v d : Z) : v ≠ 0 → Js.or_default (Some v) d = v.
Proof. intros H. unfold Js.or_default. by case_decide. Qed.

(** ** Available borrowing slots *)

(** C9. The number of available borrowing slots is never negative: with
    a borrow profile loaded it is [max(0, maxBooksAllowed -
    currentBorrowedCount)], which is 0 once the borrowed count reaches or
    exceeds the maximum, and it is 0 when no borrow profile is loaded. *)
Theorem C9_available_slots (u : option AuthUser.t)
    (h : list BorrowHistoryEntry.t) (s : option UserStatistics.t)
    (l : bool) (e : option string) (info : UserBorrowInfo.t) :
  let loaded := UserDataService.mkUserData u (Some info) h s l e in
  let missing := UserDataService.mkUserData u None h s l e in
  UserDataService.getAvailableBorrowingSlots loaded
    = Z.max 0 (UserBorrowInfo.maxBooksAllowed info
               - UserBorrowInfo.currentBorrowedCount info)
  ∧ 0 ≤ UserDataService.getAvailableBorrowingSlots loaded
  ∧ (UserBorrowInfo.maxBooksAllowed info
       ≤ UserBorrowInfo.currentBorrowedCount info
     → UserDataService.getAvailableBorrowingSlots loaded = 0)
  ∧ UserDataService.getAvailableBorrowingSlots missing = 0.
Proof.
  cbn. repeat split; lia.
Qed.

Lemma C9_available_slots_witness :
  let info := UserBorrowInfo.mk "M1" "Asha" "asha@example.com" 7 5 0 0 true in
  let loaded := UserDataService.mkUserData None (Some info) [] None false None in
  UserDataService.getAvailableBorrowingSlots loaded = 0.
Proof.
  intros info loaded.
  destruct (C9_available_slots None [] None false None info) as (_ & _ & H & _).
  apply H. cbn. lia.
Defined.

(** ** Borrowing eligibility *)

Lemma validateSelection_some (st : BooksComponent.State)
    (info : BooksComponent.BorrowInfo) :
  BooksComponent.userBorrowInfo st = Some info →
  BooksComponent.errorMessage (BooksComponent.validateSelection st) =
    if decide (BooksComponent.currentBorrowedCount info
               + BooksComponent.getTotalSelectedCopies st
               > BooksComponent.MAX_BOOKS_PER_USER)
    then BooksComponent.LimitExceeded BooksComponent.MAX_BOOKS_PER_USER
    else if decide (BooksComponent.fines info > 0)
    then BooksComponent.HasUnpaidFines (BooksComponent.fines info)
    else if decide (BooksComponent.overdueBooks info > 0)
    then BooksComponent.HasOverdueBooks (BooksComponent.overdueBooks info)
    else BooksComponent.NoMessage.
Proof.
  intros Hinfo. unfold BooksComponent.validateSelection. rewrite Hinfo. cbn zeta.
  repeat case_decide; reflexivity.
Qed.

(** Any requested quantity is the total of some selection. *)
Lemma getTotalSelectedCopies_single (b : string) (q : Z)
    (i : option BooksComponent.BorrowInfo) (e s : BooksComponent.Message) :
  BooksComponent.getTotalSelectedCopies (BooksComponent.mkState [(b, q)] i e s) = q.
Proof. reflexivity. Qed.

(** C1. Eligibility is evaluated in a fixed order and the first failing
    reason wins: when the borrowed count plus the requested quantity
    exceeds the maximum, the limit-exceeded error is shown whatever the
    fines and overdue count are; otherwise outstanding fines above 0 give
    the unpaid-fines error; otherwise an overdue count above 0 gives the
    overdue-books error; the error is cleared exactly when all three
    checks pass. *)
Theorem C1_eligibility_order (st : BooksComponent.State)
    (info : BooksComponent.BorrowInfo) :
  BooksComponent.userBorrowInfo st = Some info →
  let total := BooksComponent.currentBorrowedCount info
               + BooksComponent.getTotalSelectedCopies st in
  let shown := BooksComponent.errorMessage (BooksComponent.validateSelection st) in
  (total > BooksComponent.MAX_BOOKS_PER_USER →
     shown = BooksComponent.LimitExceeded BooksComponent.MAX_BOOKS_PER_USER)
  ∧ (total ≤ BooksComponent.MAX_BOOKS_PER_USER →
     BooksComponent.fines info > 0 →
     shown = BooksComponent.HasUnpaidFines (BooksComponent.fines info))
  ∧ (total ≤ BooksComponent.MAX_BOOKS_PER_USER →
     BooksComponent.fines info ≤ 0 →
     BooksComponent.overdueBooks info > 0 →
     shown = BooksComponent.HasOverdueBooks (BooksComponent.overdueBooks info))
  ∧ (shown = BooksComponent.NoMessage ↔
     total ≤ BooksComponent.MAX_BOOKS_PER_USER
     ∧ BooksComponent.fines info ≤ 0
     ∧ BooksComponent.overdueBooks info ≤ 0).
Proof.
  intros Hinfo total shown. subst shown.
  rewrite (validateSelection_some st info Hinfo). fold total.
  repeat split; repeat case_decide; try lia; try congruence; try reflexivity.
Qed.

Lemma C1_eligibility_order_witness :
  let info := BooksComponent.mkBorrowInfo 5 50 3 in
  let st := BooksComponent.mkState [("B1", 1)] (Some info)
              BooksComponent.NoMessage BooksComponent.NoMessage in
  BooksComponent.errorMessage (BooksComponent.validateSelection st)
    = BooksComponent.LimitExceeded BooksComponent.MAX_BOOKS_PER_USER.
Proof.
  intros info st.
  apply (C1_eligibility_order st info); [reflexivity | vm_compute; reflexivity].
Defined.

(** The two scenarios of the specification, with one copy requested. *)
Example eligibility_at_limit :
  BooksComponent.errorMessage
    (BooksComponent.validateSelection
       (BooksComponent.mkState [("B1", 1)]
          (Some (BooksComponent.mkBorrowInfo 5 0 0))
          BooksComponent.NoMessage BooksComponent.NoMessage))
  = BooksComponent.LimitExceeded 5.
Proof. reflexivity. Qed.

Example eligibility_with_fines :
  BooksComponent.errorMessage
    (BooksComponent.validateSelection
       (BooksComponent.mkState [("B1", 1)]
          (Some (BooksComponent.mkBorrowInfo 2 50 0))
          BooksComponent.NoMessage BooksComponent.NoMessage))
  = BooksComponent.HasUnpaidFines 50.
Proof. reflexivity. Qed.

(** Without a borrow profile nothing is validated and no message changes. *)
Lemma validateSelection_no_profile (st : BooksComponent.State) :
  BooksComponent.userBorrowInfo st = None →
  BooksComponent.validateSelection st = st.
Proof. intros H. unfold BooksComponent.validateSelection. by rewrite H. Qed.

(** ** Extending a loan *)

(** [getDaysUntilDue(dueDate) > -7] says that less than seven whole days
    have passed since the due date. *)
Lemma getDaysUntilDue_window (now dueDate : Z) :
  MyBooksComponent.getDaysUntilDue now dueDate > -7
  ↔ now - dueDate < 7 * Js.msPerDay.
Proof.
  unfold MyBooksComponent.getDaysUntilDue. cbn zeta.
  rewrite (ceil_div_gt _ _ _ msPerDay_pos). lia.
Qed.

(** When [canExtendBook] answers [true], the entry is [Borrowed], the
    renewal count is below the maximum the code works with (a missing or
    zero count is 0, a missing or zero maximum is 2) and the loan is less
    than seven days past due. *)
Lemma canExtendBook_true (now : Z) (entry : BorrowHistoryEntry.t) :
  MyBooksComponent.canExtendBook now entry = true ↔
    BorrowHistoryEntry.status entry = Borrowed
    ∧ Js.or_default (BorrowHistoryEntry.renewalCount entry) 0
      < Js.or_default (BorrowHistoryEntry.maxRenewalsAllowed entry) 2
    ∧ now - BorrowHistoryEntry.dueDate entry < 7 * Js.msPerDay.
Proof.
  unfold MyBooksComponent.canExtendBook.
  rewrite !andb_true_iff, !bool_decide_eq_true, getDaysUntilDue_window.
  tauto.
Qed.

(** Extension is refused for an entry that is not [Borrowed], for one
    more than seven days past due, and for one whose renewal count has
    reached a maximum that is set and not zero. *)
Lemma canExtendBook_refuses (now : Z) (entry : BorrowHistoryEntry.t) :
  BorrowHistoryEntry.status entry ≠ Borrowed
  ∨ now - BorrowHistoryEntry.dueDate entry > 7 * Js.msPerDay
  ∨ (∃ count limit,
        BorrowHistoryEntry.renewalCount entry = Some count
        ∧ BorrowHistoryEntry.maxRenewalsAllowed entry = Some limit
        ∧ limit ≠ 0 ∧ limit ≤ count)
  ∨ (∃ count,
        BorrowHistoryEntry.renewalCount entry = Some count
        ∧ BorrowHistoryEntry.maxRenewalsAllowed entry = None
        ∧ 2 ≤ count) →
  MyBooksComponent.canExtendBook now entry = false.
Proof.
  intros H. apply not_true_is_false. rewrite canExtendBook_true.
  intros (Hs & Hr & Hd).
  destruct H as [H | [H | [(c & m & Hc & Hm & Hm0 & Hle) | (c & Hc & Hm & Hle)]]].
  - contradiction.
  - lia.
  - rewrite Hc, Hm in Hr. rewrite (or_default_some_nonzero m 2 Hm0) in Hr.
    unfold Js.or_default in Hr. case_decide; lia.
  - rewrite Hc, Hm in Hr. unfold Js.or_default in Hr. case_decide; lia.
Qed.

(** C5. An entry whose renewal count is not strictly below its maximum
    renewals allowed must not be extendable; [canExtendBook] nevertheless
    answers [true] for a borrowed loan with [renewalCount = 0] and
    [maxRenewalsAllowed = 0], five days before it is due: the zero
    maximum is replaced by the default 2. *)
Theorem C5_canExtendBook_zero_maximum :
  let entry := loan_without_renewals in
  let now := Engine.utc 2024 1 10 in
  BorrowHistoryEntry.status entry = Borrowed
  ∧ BorrowHistoryEntry.renewalCount entry = Some 0
  ∧ BorrowHistoryEntry.maxRenewalsAllowed entry = Some 0
  ∧ now < BorrowHistoryEntry.dueDate entry
  ∧ MyBooksComponent.canExtendBook now entry = true.
Proof. vm_compute. repeat split. Qed.

(** A maximum of 0 is read as no maximum at all, that is as 2. *)
Lemma canExtendBook_zero_is_missing (now : Z) (entry : BorrowHistoryEntry.t) :
  MyBooksComponent.canExtendBook now (withMaxRenewals (Some 0) entry)
  = MyBooksComponent.canExtendBook now (withMaxRenewals None entry).
Proof. reflexivity. Qed.

(** The action itself only looks at the status: the request is sent for
    every [Borrowed] entry, whatever its renewal count and due date. *)
Lemma extendBookDueDate_sends (entry : BorrowHistoryEntry.t) (days : option Z) :
  BorrowHistoryEntry.status entry = Borrowed →
  MyBooksComponent.extendBookDueDate entry days
  = MyBooksComponent.SendExtension (BorrowHistoryEntry.id entry) (default 7 days).
Proof.
  intros H. unfold MyBooksComponent.extendBookDueDate. cbn zeta.
  case_decide; [contradiction | reflexivity].
Qed.

(** ** Overdue loans *)

Lemma existsb_bool_decide_elem {A B} `{EqDecision B} (f : A → B) (b : B)
    (l : list A) :
  existsb (λ x, bool_decide (f x = b)) l = bool_decide (b ∈ f <$> l).
Proof.
  induction l as [|x l IH]; cbn.
  - symmetry. apply bool_decide_eq_false. apply not_elem_of_nil.
  - rewrite IH. destruct (decide (f x = b)) as [Heq | Hne].
    + rewrite (bool_decide_eq_true_2 _ Heq). cbn. symmetry.
      apply bool_decide_eq_true. rewrite <- Heq. apply list_elem_of_here.
    + rewrite (bool_decide_eq_false_2 _ Hne). cbn.
      apply bool_decide_ext. rewrite elem_of_cons.
      split; [intros Hin; by right | intros [Hb | Hin]; [congruence | done]].
Qed.

Lemma length_filter_fmap {A B} `{EqDecision B} (f : A → B) (b : B) (l : list A) :
  length (filter (λ x, f x = b) l) = length (filter (λ y, y = b) (f <$> l)).
Proof.
  induction l as [|x l IH]; [reflexivity|].
  rewrite fmap_cons, !filter_cons.
  destruct (decide (f x = b)); cbn; by rewrite IH.
Qed.

(** C6, as stated, fails. The overdue check does not agree with the
    computed predicate: on 2024-01-15 a loan stored as [Borrowed] and due
    on 2024-01-10 is past due, yet [hasOverdueBooks] answers [false] and
    the count is 0. *)
Lemma C6_overdue_check_ignores_dates :
  existsb (overdue_by_date (Engine.utc 2024 1 15))
          (UserDataService.borrowHistory (history_of [stale_loan])) = true
  ∧ UserDataService.hasOverdueBooks (history_of [stale_loan]) = false
  ∧ UserDataService.getOverdueBooksCount (history_of [stale_loan]) = 0.
Proof. repeat split. Qed.

(** So the check is not the computed predicate at any one time. *)
Lemma hasOverdueBooks_is_not_overdue_by_date :
  ¬ (∀ (now : Z) (d : UserDataService.UserData),
       UserDataService.hasOverdueBooks d
       = existsb (overdue_by_date now) (UserDataService.borrowHistory d)).
Proof.
  intros H.
  specialize (H (Engine.utc 2024 1 15) (history_of [stale_loan])).
  vm_compute in H. discriminate H.
Qed.

(** C6, as the code has it. The overdue check reads the stored status
    and nothing else: [hasOverdueBooks] holds exactly when some entry of
    the borrow history is stored with status [Overdue], and
    [getOverdueBooksCount] is the number of such entries; both are
    functions of the list of stored statuses, whatever the due dates and
    the clock are. *)
Theorem C6_overdue_is_the_stored_status (d : UserDataService.UserData) :
  let statuses := BorrowHistoryEntry.status <$> UserDataService.borrowHistory d in
  UserDataService.hasOverdueBooks d = bool_decide (Overdue ∈ statuses)
  ∧ UserDataService.getOverdueBooksCount d
    = Z.of_nat (length (filter (λ s, s = Overdue) statuses))
  ∧ (UserDataService.hasOverdueBooks d = true
     ↔ 0 < UserDataService.getOverdueBooksCount d).
Proof.
  cbn zeta.
  unfold UserDataService.hasOverdueBooks, UserDataService.getOverdueBooksCount,
    UserDataService.getCurrentBorrowHistory.
  rewrite existsb_bool_decide_elem, length_filter_fmap.
  repeat split.
  - rewrite bool_decide_eq_true. intros Hin.
    assert (Hf : Overdue ∈ filter (λ s, s = Overdue)
                   (BorrowHistoryEntry.status <$> UserDataService.borrowHistory d)).
    { apply list_elem_of_filter. split; [reflexivity | exact Hin]. }
    destruct (filter _ _); [by apply not_elem_of_nil in Hf | cbn; lia].
  - intros Hpos. rewrite bool_decide_eq_true.
    destruct (filter (λ s, s = Overdue) _) as [|s l] eqn:Heq; [cbn in Hpos; lia|].
    assert (Hs : s ∈ filter (λ s, s = Overdue)
                   (BorrowHistoryEntry.status <$> UserDataService.borrowHistory d)).
    { rewrite Heq. apply list_elem_of_here. }
    apply list_elem_of_filter in Hs as [-> Hin]. exact Hin.
Qed.

(** ** Statistics when the backend fails *)

(** C8. Neither statistics query propagates a backend failure: whatever
    the error, [getFineStatistics] emits the zeroed [FineStatistics]
    (all totals 0, empty lists) and [getUserStatistics] the zeroed
    [UserStatistics]; their subscribers run the [next] handler, so the
    fines page shows zero totals with its messages untouched and the
    user-data state stores the zeroed statistics with no error. *)
Theorem C8_statistics_fallback (e : Rx.Failure)
    (st : FinesComponent.State) (d : UserDataService.UserData) :
  FineService.getFineStatistics (Rx.Fail e)
    = Rx.Next (FineStatistics.mk 0 0 0 0 [] [])
  ∧ UserService.getUserStatistics (Rx.Fail e)
    = Rx.Next (UserStatistics.mk 0 0 0 0 0 [] 0 0 0 (Some 0) (Some 0) (Some 0)
                                 (Some []))
  ∧ (let st' := FinesComponent.loadFineStatistics
                  (FineService.getFineStatistics (Rx.Fail e)) st in
     FinesComponent.totalPendingFines st' = 0
     ∧ FinesComponent.totalBooksOverdue st' = 0
     ∧ FinesComponent.errorMessage st' = FinesComponent.errorMessage st)
  ∧ (let d' := UserDataService.loadCompleteUserData
                 (UserService.getUserStatistics (Rx.Fail e)) d in
     UserDataService.statistics d' = Some UserService.defaultStats
     ∧ UserDataService.error d' = None).
Proof. repeat split. Qed.

(** Had the failure been propagated, the user-data state would have
    recorded it. *)
Lemma loadCompleteUserData_on_failure (e : Rx.Failure)
    (d : UserDataService.UserData) :
  UserDataService.error (UserDataService.loadCompleteUserData (Rx.Fail e) d)
  = Some "Failed to load user statistics".
Proof. reflexivity. Qed.

(** The borrow-information query, by contrast, rethrows. *)
Lemma getUserBorrowInfo_propagates (e : Rx.Failure) :
  ∃ message, UserService.getUserBorrowInfo (Rx.Fail e)
             = Rx.Fail (Rx.ErrorMsg message).
Proof. unfold UserService.getUserBorrowInfo. cbn. eauto. Qed.

(** ** The card number in the payment request *)

Lemma drop_string_append (p t : string) :
  Js.drop_string (String.length p) (p +:+ t) = t.
Proof. induction p as [|c p IH]; [by destruct t | exact IH]. Qed.

Lemma length_append (p t : string) :
  String.length (p +:+ t) = (String.length p + String.length t)%nat.
Proof. induction p as [|c p IH]; [reflexivity | exact (f_equal S IH)]. Qed.

Lemma slice_last_append (p t : string) (n : nat) :
  String.length t = n → Js.slice_last n (p +:+ t) = t.
Proof.
  intros <-. unfold Js.slice_last.
  rewrite length_append.
  replace (String.length p + String.length t - String.length t)%nat
    with (String.length p) by lia.
  apply drop_string_append.
Qed.

Lemma maskCardNumber_nonempty (n : string) :
  n ≠ "" →
  FineService.maskCardNumber (Some n)
  = Some (FineService.cardMask +:+ Js.slice_last 4 n).
Proof. intros H. destruct n; [contradiction | reflexivity]. Qed.

(** C10. The request posted to the payment endpoint carries, for a form
    with a card number, the constant mask followed by the last 4
    characters of that number and nothing else of it; two forms that
    differ only in what precedes the last 4 characters of the card number
    produce the same request. *)
Theorem C10_card_number_masked (paymentRequest : PaymentRequest.t)
    (form : DummyPaymentForm.t) :
  (∀ n : string, n ≠ "" →
     DummyPaymentForm.cardNumber
       (FineService.paymentDetails
          (FineService.requestData paymentRequest (withCardNumber n form)))
     = Some ("**** **** **** " +:+ Js.slice_last 4 n))
  ∧ (∀ leading1 leading2 last4 : string, String.length last4 = 4%nat →
       FineService.requestData paymentRequest
         (withCardNumber (leading1 +:+ last4) form)
       = FineService.requestData paymentRequest
           (withCardNumber (leading2 +:+ last4) form)).
Proof.
  split.
  - intros n Hn. exact (maskCardNumber_nonempty n Hn).
  - intros p1 p2 t Ht.
    assert (Hne : ∀ p, p +:+ t ≠ "").
    { intros p Hp. apply (f_equal String.length) in Hp.
      rewrite length_append, Ht in Hp. cbn in Hp. lia. }
    unfold FineService.requestData, withCardNumber.
    cbn -[FineService.maskCardNumber String.append].
    rewrite !maskCardNumber_nonempty by apply Hne.
    by rewrite !(slice_last_append _ t 4 Ht).
Qed.

Lemma C10_card_number_masked_witness :
  DummyPaymentForm.cardNumber
    (FineService.paymentDetails
       (FineService.requestData card_request
          (withCardNumber "4111 1111 1111 1111" card_form)))
  = Some "**** **** **** 1111"
  ∧ FineService.requestData card_request
      (withCardNumber ("4111 1111 1111 " +:+ "1111") card_form)
    = FineService.requestData card_request
        (withCardNumber ("5500 0000 0000 " +:+ "1111") card_form).
Proof.
  destruct (C10_card_number_masked card_request card_form) as [Hmask Hsame].
  split.
  - apply (Hmask "4111 1111 1111 1111"). discriminate.
  - apply (Hsame "4111 1111 1111 " "5500 0000 0000 " "1111"). reflexivity.
Defined.

(** Without a card number the field is left undefined. *)
Lemma maskCardNumber_empty :
  FineService.maskCardNumber (Some "") = None
  ∧ FineService.maskCardNumber None = None.
Proof. split; reflexivity. Qed.

(** The other card fields travel unmasked. *)
Lemma requestData_keeps_cvv (paymentRequest : PaymentRequest.t)
    (form : DummyPaymentForm.t) :
  DummyPaymentForm.cvv (FineService.paymentDetails
                          (FineService.requestData paymentRequest form))
  = DummyPaymentForm.cvv form.
Proof. reflexivity. Qed.

(** ** Fine accrual *)

Example days_from_civil_epoch : Engine.days_from_civil 1970 1 1 = 0.
Proof. reflexivity. Qed.

Example days_of_2024_01_10 : Engine.days (Engine.utc 2024 1 10) = 19732.
Proof. reflexivity. Qed.

Lemma days_mono (a b : Z) : a ≤ b → Engine.days a ≤ Engine.days b.
Proof. intros H. apply Z.div_le_mono; [exact msPerDay_pos | exact H]. Qed.

Lemma days_add_days (date n : Z) :
  Engine.days (date + n * Js.msPerDay) = Engine.days date + n.
Proof. unfold Engine.days. apply Z.div_add. discriminate. Qed.

Lemma daysOverdue_max (dueDate referenceDate grace : Z) :
  Engine.daysOverdue dueDate referenceDate grace
  = Z.max 0 (Engine.days referenceDate - Engine.days dueDate - grace).
Proof. unfold Engine.daysOverdue. cbn zeta. case_decide; lia. Qed.

Lemma daysOverdue_nonneg (dueDate referenceDate grace : Z) :
  0 ≤ Engine.daysOverdue dueDate referenceDate grace.
Proof. rewrite daysOverdue_max. lia. Qed.

Lemma daysOverdue_mono (dueDate grace ref1 ref2 : Z) :
  ref1 ≤ ref2 →
  Engine.daysOverdue dueDate ref1 grace ≤ Engine.daysOverdue dueDate ref2 grace.
Proof. intros H%days_mono. rewrite !daysOverdue_max. lia. Qed.

Lemma daysOverdue_in_grace (dueDate grace referenceDate : Z) :
  referenceDate ≤ dueDate + grace * Js.msPerDay →
  Engine.daysOverdue dueDate referenceDate grace = 0.
Proof.
  intros H%days_mono. rewrite days_add_days in H.
  rewrite daysOverdue_max. lia.
Qed.

(** The cap, [min(_, maxFineAmount ?? +inf)]. *)
Lemma computeFine_min (dueDate referenceDate rate grace : Z) (cap : option Z) :
  Engine.computeFine dueDate referenceDate rate grace cap
  = let accrued := Engine.daysOverdue dueDate referenceDate grace * rate in
    match cap with
    | Some c => Z.min accrued c
    | None => accrued
    end.
Proof.
  unfold Engine.computeFine. cbn zeta.
  destruct cap as [c|]; [case_decide; lia | reflexivity].
Qed.

(** C3. The computed fine is [min(max(0, days(referenceDate) -
    days(dueDate) - gracePeriodDays) * dailyRate, maxFineAmount or
    infinity)]; a loan due 2024-01-10 at rate 5 with no grace costs 25
    when returned on 2024-01-15 and 0 when returned on 2024-01-10; and,
    the rate and the maximum being amounts of money, no fine is negative. *)
Theorem C3_computeFine (dueDate referenceDate dailyRate gracePeriodDays : Z)
    (maxFineAmount : option Z) :
  Engine.computeFine dueDate referenceDate dailyRate gracePeriodDays maxFineAmount
  = (let daysOverdue :=
       Z.max 0 (Engine.days referenceDate - Engine.days dueDate - gracePeriodDays) in
     match maxFineAmount with
     | Some cap => Z.min (daysOverdue * dailyRate) cap
     | None => daysOverdue * dailyRate
     end)
  ∧ Engine.computeFine (Engine.utc 2024 1 10) (Engine.utc 2024 1 15) 5 0 None = 25
  ∧ Engine.computeFine (Engine.utc 2024 1 10) (Engine.utc 2024 1 10) 5 0 None = 0
  ∧ (0 ≤ dailyRate → Engine.cap_nonneg maxFineAmount →
     0 ≤ Engine.computeFine dueDate referenceDate dailyRate gracePeriodDays
           maxFineAmount).
Proof.
  split; [|split; [reflexivity | split; [reflexivity|]]].
  - rewrite computeFine_min, daysOverdue_max. reflexivity.
  - intros Hrate Hcap. rewrite computeFine_min. cbn zeta.
    pose proof (daysOverdue_nonneg dueDate referenceDate gracePeriodDays) as Hd.
    destruct maxFineAmount as [c|]; cbn in Hcap; nia.
Qed.

Lemma C3_computeFine_witness :
  Engine.computeFine (Engine.utc 2024 3 1) (Engine.utc 2024 4 30) 5 2 (Some 200)
  = Z.min (Z.max 0 (Engine.days (Engine.utc 2024 4 30)
                    - Engine.days (Engine.utc 2024 3 1) - 2) * 5) 200
  ∧ 0 ≤ Engine.computeFine (Engine.utc 2024 3 1) (Engine.utc 2024 4 30) 5 2
          (Some 200).
Proof.
  destruct (C3_computeFine (Engine.utc 2024 3 1) (Engine.utc 2024 4 30) 5 2
              (Some 200)) as (Hformula & _ & _ & Hnonneg).
  split; [exact Hformula | apply Hnonneg; cbn; lia].
Defined.

(** The same through a [FineCalculationRule]. *)
Lemma computeFineByRule_nonneg (rule : FineCalculationRule.t)
    (dueDate referenceDate : Z) :
  0 ≤ FineCalculationRule.dailyFineAmount rule →
  Engine.cap_nonneg (FineCalculationRule.maxFineAmount rule) →
  0 ≤ Engine.computeFineByRule rule dueDate referenceDate.
Proof.
  intros Hr Hc. unfold Engine.computeFineByRule. rewrite computeFine_min. cbn zeta.
  pose proof (daysOverdue_nonneg dueDate referenceDate
                (FineCalculationRule.gracePeriodDays rule)) as Hd.
  destruct (FineCalculationRule.maxFineAmount rule) as [c|]; cbn in Hc; nia.
Qed.

(** C4. For a fixed due date, daily rate and grace period the fine does
    not decrease as the reference date advances, and it is exactly 0 for
    every reference date up to the due date plus the grace period. *)
Theorem C4_fine_monotone (dueDate dailyRate gracePeriodDays : Z)
    (maxFineAmount : option Z) (reference1 reference2 : Z) :
  (0 ≤ dailyRate → reference1 ≤ reference2 →
   Engine.computeFine dueDate reference1 dailyRate gracePeriodDays maxFineAmount
   ≤ Engine.computeFine dueDate reference2 dailyRate gracePeriodDays maxFineAmount)
  ∧ (Engine.cap_nonneg maxFineAmount →
     reference1 ≤ dueDate + gracePeriodDays * Js.msPerDay →
     Engine.computeFine dueDate reference1 dailyRate gracePeriodDays maxFineAmount
     = 0).
Proof.
  split.
  - intros Hrate Hle. rewrite !computeFine_min. cbn zeta.
    pose proof (daysOverdue_mono dueDate gracePeriodDays _ _ Hle) as Hd.
    destruct maxFineAmount as [c|]; nia.
  - intros Hcap Hle. rewrite computeFine_min. cbn zeta.
    rewrite (daysOverdue_in_grace _ _ _ Hle).
    destruct maxFineAmount as [c|]; cbn in Hcap; lia.
Qed.

Lemma C4_fine_monotone_witness :
  Engine.computeFine (Engine.utc 2024 1 10) (Engine.utc 2024 1 12) 5 3 None
  ≤ Engine.computeFine (Engine.utc 2024 1 10) (Engine.utc 2024 1 20) 5 3 None
  ∧ Engine.computeFine (Engine.utc 2024 1 10) (Engine.utc 2024 1 12) 5 3 None = 0.
Proof.
  destruct (C4_fine_monotone (Engine.utc 2024 1 10) 5 3 None
              (Engine.utc 2024 1 12) (Engine.utc 2024 1 20)) as [Hmono Hzero].
  split.
  - apply Hmono; [lia | vm_compute; discriminate].
  - apply Hzero; [exact I | vm_compute; discriminate].
Defined.

(** ** Payment reconciliation *)

Lemma markPaid_idemp (paymentId : string) (f : FineRecord.t) :
  Engine.markPaid paymentId (Engine.markPaid paymentId f)
  = Engine.markPaid paymentId f.
Proof. reflexivity. Qed.

Lemma commitOne_lookup (paymentId : string) (l : Engine.Ledger) (a id : string) :
  Engine.fines (Engine.commitOne paymentId l a) !! id
  = if decide (id = a) then Engine.markPaid paymentId <$> Engine.fines l !! a
    else Engine.fines l !! id.
Proof.
  unfold Engine.commitOne.
  destruct (Engine.fines l !! a) as [f|] eqn:Hf; cbn.
  - case_decide as Hid.
    + subst id. by rewrite lookup_insert_eq.
    + by rewrite lookup_insert_ne.
  - case_decide as Hid; [by subst id | reflexivity].
Qed.

(** After the commit every referenced fine is the paid version of what
    it was, and every other fine is what it was. *)
Lemma commit_lookup (paymentId : string) (fineIds : list string)
    (l : Engine.Ledger) (id : string) :
  Engine.fines (Engine.commit paymentId fineIds l) !! id
  = if decide (id ∈ fineIds) then Engine.markPaid paymentId <$> Engine.fines l !! id
    else Engine.fines l !! id.
Proof.
  revert l. induction fineIds as [|a ids IH]; intros l.
  - cbn. case_decide as Hin; [by apply not_elem_of_nil in Hin | reflexivity].
  - change (Engine.commit paymentId (a :: ids) l)
      with (Engine.commit paymentId ids (Engine.commitOne paymentId l a)).
    rewrite IH, commitOne_lookup.
    destruct (decide (id = a)) as [-> | Hne].
    + rewrite (decide_True (P := a ∈ a :: ids)) by apply list_elem_of_here.
      case_decide; [|reflexivity].
      destruct (Engine.fines l !! a); reflexivity.
    + destruct (decide (id ∈ ids)) as [Hin | Hnin].
      * rewrite (decide_True (P := id ∈ a :: ids)); [reflexivity|].
        by apply list_elem_of_further.
      * rewrite (decide_False (P := id ∈ a :: ids)); [reflexivity|].
        rewrite elem_of_cons. intros [? | ?]; contradiction.
Qed.

(** C2. Payment reconciliation is all-or-nothing. After [pay] returns,
    either the payment went through and every referenced fine is [PAID]
    and carries the one payment id of this payment (its total unchanged,
    and no other fine touched), or the payment did not go through and the
    ledger, so every referenced fine, is exactly what it was before. *)
Theorem C2_payment_all_or_nothing (gateway : Engine.Gateway) (l : Engine.Ledger)
    (fineIds : list string) (method : PaymentMethod) (expectedTotal : Z) :
  let outcome := Engine.pay gateway l fineIds method expectedTotal in
  (∃ paymentId,
      outcome.1 = Engine.Paid paymentId
      ∧ (∀ id f, id ∈ fineIds → Engine.fines l !! id = Some f →
           ∃ f', Engine.fines outcome.2 !! id = Some f'
                 ∧ FineRecord.status f' = F_PAID
                 ∧ FineRecord.paymentId f' = Some paymentId
                 ∧ FineRecord.totalFine f' = FineRecord.totalFine f)
      ∧ (∀ id, id ∈ fineIds → Engine.fines l !! id = None →
           Engine.fines outcome.2 !! id = None)
      ∧ (∀ id, id ∉ fineIds →
           Engine.fines outcome.2 !! id = Engine.fines l !! id))
  ∨ ((∀ paymentId, outcome.1 ≠ Engine.Paid paymentId)
     ∧ outcome.2 = l
     ∧ (∀ id, id ∈ fineIds →
          Engine.fines outcome.2 !! id = Engine.fines l !! id)).
Proof.
  cbn zeta. unfold Engine.pay.
  case_decide as Hsum; [|right; by repeat split].
  destruct (gateway expectedTotal method) as [paymentId status].
  case_decide as Hstatus; [|right; by repeat split].
  left. exists paymentId. cbn [fst snd]. split; [reflexivity|].
  split; [|split].
  - intros id f Hin Hf. exists (Engine.markPaid paymentId f).
    rewrite commit_lookup, decide_True, Hf by exact Hin.
    by repeat split.
  - intros id Hin Hf. by rewrite commit_lookup, decide_True, Hf.
  - intros id Hnin. by rewrite commit_lookup, decide_False.
Qed.

Lemma C2_payment_all_or_nothing_witness :
  let outcome := Engine.pay completing_gateway two_fines_ledger ["F1"; "F2"] upi 100 in
  ∃ f1 f2,
    Engine.fines outcome.2 !! "F1" = Some f1
    ∧ Engine.fines outcome.2 !! "F2" = Some f2
    ∧ FineRecord.status f1 = F_PAID ∧ FineRecord.status f2 = F_PAID
    ∧ FineRecord.paymentId f1 = FineRecord.paymentId f2.
Proof.
  intros outcome.
  destruct (C2_payment_all_or_nothing completing_gateway two_fines_ledger
              ["F1"; "F2"] upi 100) as [(pid & _ & Hpaid & _) | (Hnot & _)].
  - destruct (Hpaid "F1" fine_pending) as (f1 & H1 & Hs1 & Hp1 & _);
      [apply list_elem_of_here | reflexivity |].
    destruct (Hpaid "F2" fine_overdue) as (f2 & H2 & Hs2 & Hp2 & _);
      [apply list_elem_of_further, list_elem_of_here | reflexivity |].
    exists f1, f2. repeat split; try assumption. by rewrite Hp1, Hp2.
  - exfalso. apply (Hnot "PAY-1"). reflexivity.
Defined.

(** A payment whose expected total is not the current sum of the
    referenced fines is rejected and changes nothing. *)
Lemma pay_amount_mismatch (gateway : Engine.Gateway) (l : Engine.Ledger)
    (fineIds : list string) (method : PaymentMethod) (expectedTotal : Z) :
  Engine.sum (Engine.currentFineAmounts l fineIds) ≠ expectedTotal →
  Engine.pay gateway l fineIds method expectedTotal = (Engine.AmountMismatch, l).
Proof. intros H. unfold Engine.pay. by rewrite decide_False. Qed.

(** A payment the gateway does not complete changes nothing. *)
Lemma pay_not_completed (gateway : Engine.Gateway) (l : Engine.Ledger)
    (fineIds : list string) (method : PaymentMethod) (expectedTotal : Z) :
  (gateway expectedTotal method).2 ≠ P_COMPLETED →
  (Engine.pay gateway l fineIds method expectedTotal).2 = l.
Proof.
  intros H. unfold Engine.pay. case_decide; [|reflexivity].
  destruct (gateway expectedTotal method) as [pid status]; cbn in H.
  by rewrite decide_False.
Qed.

(** The scenario of the specification: fines totalling 100, expected
    total 90. *)
Example pay_100_expected_90 :
  Engine.pay completing_gateway two_fines_ledger ["F1"; "F2"] upi 90
  = (Engine.AmountMismatch, two_fines_ledger).
Proof. apply pay_amount_mismatch. vm_compute. discriminate. Qed.

Example pay_declined :
  Engine.pay declining_gateway two_fines_ledger ["F1"; "F2"] upi 100
  = (Engine.NotCompleted P_FAILED, two_fines_ledger).
Proof. reflexivity. Qed.

(** On the client, the cached list of fines is left alone unless the
    payment endpoint answers with [success: true]. *)
Lemma processPayment_keeps_fines_unless_success
    (post : FineService.RequestData → Rx.Observable PaymentResponse.t)
    (be : FineService.Backend) (paymentRequest : PaymentRequest.t)
    (paymentForm : DummyPaymentForm.t) (st : FineService.State) :
  (∀ response,
     post (FineService.requestData paymentRequest paymentForm) = Rx.Next response →
     PaymentResponse.success response = false) →
  (FineService.processPayment post be paymentRequest paymentForm st).2 = st.
Proof.
  intros H. unfold FineService.processPayment.
  destruct (post _) as [response | error] eqn:Hpost; [|reflexivity].
  by rewrite (H response eq_refl).
Qed.

(** After a successful payment the cache is whatever the reload brings,
    the empty list when the reload fails. *)
Lemma processPayment_reloads_on_success
    (post : FineService.RequestData → Rx.Observable PaymentResponse.t)
    (reply : Rx.Observable (list FineRecord.t))
    (paymentRequest : PaymentRequest.t) (paymentForm : DummyPaymentForm.t)
    (cached : list FineRecord.t) (u : AuthUser.t) (response : PaymentResponse.t) :
  post (FineService.requestData paymentRequest paymentForm) = Rx.Next response →
  PaymentResponse.success response = true →
  FineService.finesSubject
    (FineService.processPayment post (FineService.mkBackend reply)
       paymentRequest paymentForm (FineService.mkState cached (Some u))).2
  = match reply with Rx.Next fines => fines | Rx.Fail _ => [] end.
Proof.
  intros Hpost Hok. unfold FineService.processPayment.
  rewrite Hpost, Hok. by destruct reply.
Qed.

(** ** The total of a payment request *)

Lemma foldl_total (l : list FineRecord.t) (acc : Z) :
  foldl (λ total fine, total + FineRecord.totalFine fine) acc l
  = acc + foldr Z.add 0 (FineRecord.totalFine <$> l).
Proof.
  revert acc. induction l as [|f l IH]; intros acc; cbn; [lia|].
  rewrite IH. lia.
Qed.

Lemma filter_set_has (selected : list string) (l : list FineRecord.t) :
  List.filter (λ fine, FinesComponent.set_has (FineRecord.id fine) selected) l
  = filter (λ f, FineRecord.id f ∈ selected) l.
Proof.
  induction l as [|f l IH]; [reflexivity|].
  rewrite filter_cons. cbn [List.filter]. rewrite IH.
  unfold FinesComponent.set_has.
  destruct (decide (FineRecord.id f ∈ selected)) as [Hin | Hnin].
  - by rewrite (bool_decide_eq_true_2 _ Hin).
  - by rewrite (bool_decide_eq_false_2 _ Hnin).
Qed.

(** The total of the request is the sum over the fines that are selected
    and listed under the current search filter. *)
Lemma getSelectedTotal_visible (st : FinesComponent.State) :
  FinesComponent.getSelectedTotal st
  = referencedTotal (FinesComponent.filteredFines st) (FinesComponent.selectedFines st).
Proof.
  unfold FinesComponent.getSelectedTotal, FinesComponent.getSelectedFines,
    referencedTotal.
  rewrite foldl_total, filter_set_has. lia.
Qed.

(** With no search filter set, the request total is the sum over the
    selected fines, the fines its [fineIds] refer to. *)
Lemma onSubmitPayment_total_unfiltered (st st' : FinesComponent.State)
    (paymentRequest : PaymentRequest.t) (form : DummyPaymentForm.t) :
  FinesComponent.filteredFines st = FinesComponent.fines st →
  FinesComponent.onSubmitPayment st = (st', Some (paymentRequest, form)) →
  PaymentRequest.fineIds paymentRequest = FinesComponent.selectedFines st
  ∧ PaymentRequest.totalAmount paymentRequest
    = referencedTotal (FinesComponent.fines st)
        (PaymentRequest.fineIds paymentRequest).
Proof.
  intros Hall. unfold FinesComponent.onSubmitPayment.
  destruct (FinesComponent.currentUser st) as [u|]; [|discriminate].
  destruct (FinesComponent.selectedPaymentMethod st) as [m|]; [|discriminate].
  destruct (negb _); [discriminate|].
  intros [= <- <- <-]. cbn [PaymentRequest.fineIds PaymentRequest.totalAmount].
  split; [reflexivity|].
  rewrite getSelectedTotal_visible. cbn. by rewrite Hall.
Qed.

(** C7. The total of the submitted request must be the sum of the totals
    of exactly the selected fines.  With both fines selected (60 and 40)
    and the list then narrowed to the pending ones, the submitted request
    names both fines in [fineIds] and carries [totalAmount = 60], while
    the fines it refers to total 100; the reconciler of the specification
    rejects such a request as an amount mismatch. *)
Theorem C7_total_misses_hidden_selection :
  ∃ st' paymentRequest form,
    FinesComponent.onSubmitPayment fines_page_before_submit
      = (st', Some (paymentRequest, form))
    ∧ FinesComponent.selectedFines fines_page_before_submit = ["F1"; "F2"]
    ∧ PaymentRequest.fineIds paymentRequest = ["F1"; "F2"]
    ∧ PaymentRequest.totalAmount paymentRequest = 60
    ∧ referencedTotal (FinesComponent.fines fines_page_before_submit)
        (PaymentRequest.fineIds paymentRequest) = 100
    ∧ Engine.pay completing_gateway two_fines_ledger
        (PaymentRequest.fineIds paymentRequest)
        (PaymentRequest.paymentMethod paymentRequest)
        (PaymentRequest.totalAmount paymentRequest)
      = (Engine.AmountMismatch, two_fines_ledger).
Proof.
  eexists _, _, _. split; [vm_compute; reflexivity|].
  repeat split; apply pay_amount_mismatch; vm_compute; discriminate.
Qed.

(** With no search filter, identifiers that are pairwise distinct and a
    backend holding the listed fines, the total of the request is the sum
    the reconciler computes for its [fineIds]. *)
Lemma sum_lookup_empty (fineIds : list string)
    (loans : gmap string BorrowHistoryEntry.t) :
  Engine.sum (Engine.currentFineAmounts (Engine.mkLedger ∅ loans) fineIds) = 0.
Proof.
  unfold Engine.currentFineAmounts. cbn.
  induction fineIds as [|s sel IH]; [reflexivity|].
  cbn. by rewrite lookup_empty.
Qed.

Lemma sum_lookup_insert (k : string) (v : FineRecord.t)
    (m : gmap string FineRecord.t) (loans : gmap string BorrowHistoryEntry.t)
    (fineIds : list string) :
  m !! k = None → NoDup fineIds →
  Engine.sum (Engine.currentFineAmounts (Engine.mkLedger (<[k := v]> m) loans) fineIds)
  = (if decide (k ∈ fineIds) then FineRecord.totalFine v else 0)
    + Engine.sum (Engine.currentFineAmounts (Engine.mkLedger m loans) fineIds).
Proof.
  intros Hk. unfold Engine.currentFineAmounts, Engine.sum. cbn [Engine.fines].
  induction fineIds as [|s sel IH]; intros Hnd.
  - rewrite decide_False by apply not_elem_of_nil. reflexivity.
  - apply NoDup_cons in Hnd as [Hs Hnd]. specialize (IH Hnd). cbn [omap list_omap].
    destruct (decide (s = k)) as [-> | Hne].
    + rewrite lookup_insert_eq, Hk. cbn [fmap option_fmap option_map foldr].
      rewrite decide_False in IH by exact Hs.
      rewrite decide_True by apply list_elem_of_here.
      rewrite IH. lia.
    + rewrite lookup_insert_ne by congruence.
      assert (Hiff : k ∈ s :: sel ↔ k ∈ sel).
      { rewrite elem_of_cons. split; [intros [? | ?]; [congruence | done] | by right]. }
      rewrite (decide_ext _ _ _ _ Hiff).
      destruct (m !! s) as [f|]; cbn [fmap option_fmap option_map foldr];
        rewrite IH; lia.
Qed.

Lemma ledger_sum_referencedTotal (fines : list FineRecord.t)
    (loans : gmap string BorrowHistoryEntry.t) (fineIds : list string) :
  NoDup (FineRecord.id <$> fines) → NoDup fineIds →
  Engine.sum (Engine.currentFineAmounts
                (Engine.mkLedger (ledger_of fines) loans) fineIds)
  = referencedTotal fines fineIds.
Proof.
  intros Hids Hsel. induction fines as [|f fs IH].
  - apply sum_lookup_empty.
  - rewrite fmap_cons in Hids. apply NoDup_cons in Hids as [Hf Hids].
    unfold ledger_of. rewrite fmap_cons, list_to_map_cons.
    rewrite sum_lookup_insert; [| |exact Hsel].
    + fold (ledger_of fs). rewrite (IH Hids).
      unfold referencedTotal. rewrite filter_cons.
      destruct (decide (FineRecord.id f ∈ fineIds)); reflexivity.
    + apply not_elem_of_list_to_map_1.
      rewrite <- list_fmap_compose. exact Hf.
Qed.

Lemma set_add_NoDup (x : string) (s : list string) :
  NoDup s → NoDup (FinesComponent.set_add x s).
Proof.
  intros H. unfold FinesComponent.set_add. case_decide; [exact H|].
  apply NoDup_app. split; [exact H|]. split.
  - intros y Hy Hx. apply list_elem_of_singleton in Hx. by subst y.
  - apply NoDup_singleton.
Qed.

Lemma unfiltered_request_passes_validation (st st' : FinesComponent.State)
    (paymentRequest : PaymentRequest.t) (form : DummyPaymentForm.t)
    (loans : gmap string BorrowHistoryEntry.t) :
  FinesComponent.filteredFines st = FinesComponent.fines st →
  NoDup (FineRecord.id <$> FinesComponent.fines st) →
  NoDup (FinesComponent.selectedFines st) →
  FinesComponent.onSubmitPayment st = (st', Some (paymentRequest, form)) →
  Engine.sum (Engine.currentFineAmounts
                (Engine.mkLedger (ledger_of (FinesComponent.fines st)) loans)
                (PaymentRequest.fineIds paymentRequest))
  = PaymentRequest.totalAmount paymentRequest.
Proof.
  intros Hall Hids Hsel Hsubmit.
  destruct (onSubmitPayment_total_unfiltered st st' paymentRequest form Hall Hsubmit)
    as [Hfine Htotal].
  rewrite Htotal, Hfine. by apply ledger_sum_referencedTotal.
Qed.

(** ** The loans of a committed payment *)

Lemma commitOne_loans_kept (paymentId : string) (l : Engine.Ledger)
    (a k : string) (b : BorrowHistoryEntry.t) :
  Engine.loans l !! k = Some b →
  ∃ b', Engine.loans (Engine.commitOne paymentId l a) !! k = Some b'
        ∧ (BorrowHistoryEntry.finePaid b = true
           → BorrowHistoryEntry.finePaid b' = true).
Proof.
  intros Hb. unfold Engine.commitOne.
  destruct (Engine.fines l !! a) as [f|]; cbn [Engine.loans]; [|eauto].
  destruct (decide (FineRecord.borrowId f = k)) as [-> | Hne].
  - rewrite lookup_alter_eq, Hb. cbn. eauto.
  - rewrite lookup_alter_ne by exact Hne. eauto.
Qed.

Lemma commit_loans_kept (paymentId : string) (fineIds : list string) :
  ∀ (l : Engine.Ledger) (k : string) (b : BorrowHistoryEntry.t),
    Engine.loans l !! k = Some b →
    ∃ b', Engine.loans (Engine.commit paymentId fineIds l) !! k = Some b'
          ∧ (BorrowHistoryEntry.finePaid b = true
             → BorrowHistoryEntry.finePaid b' = true).
Proof.
  induction fineIds as [|a ids IH]; intros l k b Hb; [cbn; eauto|].
  change (Engine.commit paymentId (a :: ids) l)
    with (Engine.commit paymentId ids (Engine.commitOne paymentId l a)).
  destruct (commitOne_loans_kept paymentId l a k b Hb) as (b1 & Hb1 & Hp1).
  destruct (IH _ k b1 Hb1) as (b2 & Hb2 & Hp2).
  exists b2. split; [exact Hb2 | tauto].
Qed.

(** Every loan a referenced fine belongs to ends with [finePaid = true]. *)
Lemma commit_settles_loans (paymentId : string) (fineIds : list string) :
  ∀ (l : Engine.Ledger) (id : string) (f : FineRecord.t)
    (b : BorrowHistoryEntry.t),
    id ∈ fineIds →
    Engine.fines l !! id = Some f →
    Engine.loans l !! FineRecord.borrowId f = Some b →
    ∃ b', Engine.loans (Engine.commit paymentId fineIds l)
            !! FineRecord.borrowId f = Some b'
          ∧ BorrowHistoryEntry.finePaid b' = true.
Proof.
  induction fineIds as [|a ids IH]; intros l id f b Hin Hf Hb.
  - by apply not_elem_of_nil in Hin.
  - change (Engine.commit paymentId (a :: ids) l)
      with (Engine.commit paymentId ids (Engine.commitOne paymentId l a)).
    apply elem_of_cons in Hin as [-> | Hin].
    + assert (Hb1 : Engine.loans (Engine.commitOne paymentId l a)
                      !! FineRecord.borrowId f
                    = Some (Engine.settleLoan (FineRecord.totalFine f) b)).
      { unfold Engine.commitOne. rewrite Hf. cbn [Engine.loans].
        by rewrite lookup_alter_eq, Hb. }
      destruct (commit_loans_kept paymentId ids _ _ _ Hb1) as (b2 & Hb2 & Hp2).
      exists b2. split; [exact Hb2 | by apply Hp2].
    + destruct (commitOne_loans_kept paymentId l a _ b Hb) as (b1 & Hb1 & _).
      pose proof (commitOne_lookup paymentId l a id) as Hlk.
      destruct (decide (id = a)) as [-> | Hne].
      * rewrite Hf in Hlk. cbn in Hlk.
        exact (IH _ a (Engine.markPaid paymentId f) b1 Hin Hlk Hb1).
      * rewrite Hf in Hlk. exact (IH _ id f b1 Hin Hlk Hb1).
Qed.

(** * Further properties of the client code *)

(** ** The search filter of the fines page *)

Lemma List_filter_sublist {A} (p : A → bool) (l : list A) :
  List.filter p l `sublist_of` l.
Proof.
  induction l as [|x l IH]; cbn; [constructor|].
  destruct (p x); [by apply sublist_skip | by apply sublist_cons].
Qed.

Lemma when_sublist {A} (c : option A) (keep : A → FineRecord.t → bool)
    (l : list FineRecord.t) :
  FinesComponent.when c keep l `sublist_of` l.
Proof. destruct c; cbn; [apply List_filter_sublist | reflexivity]. Qed.

Lemma when_elem {A} (c : option A) (keep : A → FineRecord.t → bool)
    (l : list FineRecord.t) (f : FineRecord.t) :
  f ∈ FinesComponent.when c keep l
  ↔ f ∈ l ∧ (∀ a, c = Some a → keep a f = true).
Proof.
  destruct c as [a|]; cbn.
  - rewrite !list_elem_of_In, filter_In. split.
    + intros [Hin Hk]. split; [exact Hin|]. by intros ? [= <-].
    + intros [Hin Hk]. split; [exact Hin | by apply Hk].
  - split; [intros Hin; split; [exact Hin | discriminate] | by intros [Hin _]].
Qed.

Lemma query_opt_some (q q' : string) :
  FinesComponent.query_opt q = Some q' ↔ q ≠ "" ∧ q' = q.
Proof.
  unfold FinesComponent.query_opt. destruct q as [|c q]; cbn.
  - split; [discriminate | by intros [? _]].
  - split; [by intros [= <-] | by intros [_ ->]].
Qed.

Lemma noFilters_true (form : FinesComponent.SearchForm) :
  FinesComponent.noFilters form = true →
  FinesComponent.query form = ""
  ∧ FinesComponent.status form = None
  ∧ FinesComponent.minAmount form = None
  ∧ FinesComponent.maxAmount form = None
  ∧ FinesComponent.dateFrom form = None
  ∧ FinesComponent.dateTo form = None.
Proof.
  unfold FinesComponent.noFilters.
  rewrite !andb_true_iff, !bool_decide_eq_true, negb_true_iff.
  intros (((((Hq & ?) & ?) & ?) & ?) & ?). repeat split; try assumption.
  by destruct (FinesComponent.query form).
Qed.

(** X1. After a search the page lists exactly the fines that pass every
    filter set in the form, in their original order, and the selection
    is left as it was. *)
Theorem performSearch_lists_matches (st : FinesComponent.State) :
  let st' := FinesComponent.performSearch st in
  FinesComponent.filteredFines st' `sublist_of` FinesComponent.fines st
  ∧ FinesComponent.fines st' = FinesComponent.fines st
  ∧ FinesComponent.selectedFines st' = FinesComponent.selectedFines st
  ∧ ∀ f, f ∈ FinesComponent.filteredFines st'
         ↔ f ∈ FinesComponent.fines st
           ∧ fine_passes (FinesComponent.searchForm st) f.
Proof.
  cbn zeta. unfold FinesComponent.performSearch. cbn zeta.
  destruct (FinesComponent.noFilters (FinesComponent.searchForm st)) eqn:Hno.
  - apply noFilters_true in Hno as (Hq & Hs & Hmin & Hmax & Hfrom & Hto).
    cbn. repeat split; try reflexivity; try tauto.
    all: unfold fine_passes; rewrite ?Hq, ?Hs, ?Hmin, ?Hmax, ?Hfrom, ?Hto;
      try done.
  - cbn [FinesComponent.filteredFines FinesComponent.set_filteredFines
         FinesComponent.fines FinesComponent.selectedFines].
    split; [|split; [reflexivity | split; [reflexivity|]]].
    + repeat (etrans; [apply when_sublist|]). reflexivity.
    + intros f. rewrite !when_elem. unfold fine_passes.
      setoid_rewrite bool_decide_eq_true.
      split.
      * intros ((((([Hin Hq] & Hs) & Hmin) & Hmax) & Hfrom) & Hto).
        split; [exact Hin|]. repeat split.
        -- intros Hne. apply (Hq (FinesComponent.query (FinesComponent.searchForm st))).
           by apply query_opt_some.
        -- exact Hs.
        -- intros m Hm. specialize (Hmin m Hm). lia.
        -- intros m Hm. specialize (Hmax m Hm). lia.
        -- intros d Hd. specialize (Hfrom d Hd). lia.
        -- intros d Hd. specialize (Hto d Hd). lia.
      * intros (Hin & Hq & Hs & Hmin & Hmax & Hfrom & Hto).
        repeat split; try assumption.
        all: try (intros q [Hne ->]%query_opt_some; by apply Hq).
        all: intros x Hx; try specialize (Hmin x Hx); try specialize (Hmax x Hx);
          try specialize (Hfrom x Hx); try specialize (Hto x Hx); lia.
Qed.

(** ** Selecting fines *)

Lemma referencedTotal_ext (l : list FineRecord.t) (s1 s2 : list string) :
  (∀ f, f ∈ l → (FineRecord.id f ∈ s1 ↔ FineRecord.id f ∈ s2)) →
  referencedTotal l s1 = referencedTotal l s2.
Proof.
  unfold referencedTotal. induction l as [|f l IH]; intros H; [reflexivity|].
  rewrite !filter_cons.
  assert (Hf := H f (list_elem_of_here _ _)).
  assert (IH' := IH (λ g Hg, H g (list_elem_of_further _ _ _ Hg))).
  destruct (decide (FineRecord.id f ∈ s1)), (decide (FineRecord.id f ∈ s2));
    cbn; try tauto; by rewrite IH'.
Qed.

Lemma referencedTotal_all (l : list FineRecord.t) (s : list string) :
  (∀ f, f ∈ l → FineRecord.id f ∈ s) →
  referencedTotal l s = foldr Z.add 0 (FineRecord.totalFine <$> l).
Proof.
  unfold referencedTotal. induction l as [|f l IH]; intros H; [reflexivity|].
  rewrite filter_cons, decide_True by apply H, list_elem_of_here.
  cbn. rewrite IH; [reflexivity|]. intros g Hg. by apply H, list_elem_of_further.
Qed.

Lemma referencedTotal_split (l : list FineRecord.t) (s : list string) (x : string) :
  x ∉ s →
  referencedTotal l (s ++ [x]) = referencedTotal l s + referencedTotal l [x].
Proof.
  intros Hx. unfold referencedTotal. induction l as [|f l IH]; [reflexivity|].
  rewrite !filter_cons.
  destruct (decide (FineRecord.id f ∈ s)) as [Hs | Hs].
  - rewrite decide_True by (apply elem_of_app; by left).
    rewrite decide_False.
    + cbn. rewrite IH. lia.
    + intros Heq%list_elem_of_singleton. apply Hx. by rewrite <- Heq.
  - destruct (decide (FineRecord.id f = x)) as [Heq | Hne].
    + rewrite decide_True by (apply elem_of_app; right; by apply list_elem_of_singleton).
      rewrite decide_True by by apply list_elem_of_singleton.
      cbn. rewrite IH. lia.
    + rewrite decide_False.
      * rewrite decide_False by by intros ?%list_elem_of_singleton.
        exact IH.
      * intros [? | ?%list_elem_of_singleton]%elem_of_app; contradiction.
Qed.

Lemma filter_all {A} (P : A → Prop) `{∀ x, Decision (P x)} (l : list A) :
  (∀ x, x ∈ l → P x) → filter P l = l.
Proof.
  induction l as [|x l IH]; intros Hall; [reflexivity|].
  rewrite filter_cons_True by apply Hall, list_elem_of_here.
  f_equal. apply IH. intros y Hy. by apply Hall, list_elem_of_further.
Qed.

Lemma set_add_elem (x y : string) (s : list string) :
  y ∈ FinesComponent.set_add x s ↔ y = x ∨ y ∈ s.
Proof.
  unfold FinesComponent.set_add. case_decide as Hin.
  - split; [by right | intros [-> | Hy]; [exact Hin | exact Hy]].
  - rewrite elem_of_app, list_elem_of_singleton. tauto.
Qed.

Lemma set_delete_elem (x y : string) (s : list string) :
  y ∈ FinesComponent.set_delete x s ↔ y ≠ x ∧ y ∈ s.
Proof. unfold FinesComponent.set_delete. by rewrite list_elem_of_filter. Qed.

Lemma select_all_elem (l : list FineRecord.t) (s : list string) (y : string) :
  y ∈ foldl (λ s fine, FinesComponent.set_add (FineRecord.id fine) s) s l
  ↔ y ∈ s ∨ y ∈ FineRecord.id <$> l.
Proof.
  revert s. induction l as [|f l IH]; intros s; cbn.
  - split; [by left | intros [? | Hn]; [done | by apply not_elem_of_nil in Hn]].
  - rewrite IH, set_add_elem, elem_of_cons. tauto.
Qed.

(** X2. "Select all" selects every listed fine and keeps what was
    selected before: afterwards the selected fines are all the listed
    ones and the selected total is the sum of all listed totals. *)
Theorem onSelectAllFines_selects_listed (st : FinesComponent.State) :
  let st' := FinesComponent.onSelectAllFines st in
  (∀ id, id ∈ FinesComponent.selectedFines st'
         ↔ id ∈ FinesComponent.selectedFines st
           ∨ id ∈ FineRecord.id <$> FinesComponent.filteredFines st)
  ∧ FinesComponent.getSelectedFines st' = FinesComponent.filteredFines st
  ∧ FinesComponent.getSelectedTotal st'
    = foldr Z.add 0 (FineRecord.totalFine <$> FinesComponent.filteredFines st).
Proof.
  cbn zeta.
  assert (Hall : ∀ f, f ∈ FinesComponent.filteredFines st →
            FineRecord.id f
              ∈ FinesComponent.selectedFines (FinesComponent.onSelectAllFines st)).
  { intros f Hf. cbn. apply select_all_elem. right. by apply list_elem_of_fmap_2. }
  split; [intros id; apply select_all_elem|]. split.
  - unfold FinesComponent.getSelectedFines. rewrite filter_set_has.
    change (FinesComponent.filteredFines (FinesComponent.onSelectAllFines st))
      with (FinesComponent.filteredFines st).
    apply filter_all. exact Hall.
  - rewrite getSelectedTotal_visible. by apply referencedTotal_all.
Qed.

(** X3. Ticking a fine that was not selected adds to the selected total
    the totals of the listed fines with that identifier and nothing else;
    unticking a selected fine takes exactly them away; ticking a selected
    fine or unticking an unselected one changes nothing. *)
Theorem onFineSelectionChange_total (st : FinesComponent.State) (fineId : string) :
  let listed := referencedTotal (FinesComponent.filteredFines st) [fineId] in
  let before := FinesComponent.getSelectedTotal st in
  FinesComponent.getSelectedTotal
    (FinesComponent.onFineSelectionChange fineId true st)
  = (if decide (fineId ∈ FinesComponent.selectedFines st)
     then before else before + listed)
  ∧ FinesComponent.getSelectedTotal
      (FinesComponent.onFineSelectionChange fineId false st)
    = (if decide (fineId ∈ FinesComponent.selectedFines st)
       then before - listed else before).
Proof.
  cbn zeta. rewrite !getSelectedTotal_visible.
  change (FinesComponent.filteredFines (FinesComponent.onFineSelectionChange _ _ st))
    with (FinesComponent.filteredFines st).
  cbn [FinesComponent.onFineSelectionChange FinesComponent.selectedFines
       FinesComponent.set_selectedFines].
  split.
  - unfold FinesComponent.set_add. case_decide as Hin; [reflexivity|].
    by apply referencedTotal_split.
  - case_decide as Hin.
    + pose proof (referencedTotal_split (FinesComponent.filteredFines st)
        (FinesComponent.set_delete fineId (FinesComponent.selectedFines st)) fineId)
        as Hsplit.
      assert (Hext : referencedTotal (FinesComponent.filteredFines st)
                (FinesComponent.set_delete fineId
                   (FinesComponent.selectedFines st) ++ [fineId])
              = referencedTotal (FinesComponent.filteredFines st)
                  (FinesComponent.selectedFines st)).
      { apply referencedTotal_ext. intros f _.
        rewrite elem_of_app, set_delete_elem, list_elem_of_singleton.
        destruct (decide (FineRecord.id f = fineId)) as [-> | Hne]; tauto. }
      rewrite Hext in Hsplit. rewrite Hsplit; [lia|].
      rewrite set_delete_elem. tauto.
    + apply referencedTotal_ext. intros f _. rewrite set_delete_elem.
      split; [tauto|]. intros Hf. split; [|exact Hf].
      intros Heq. apply Hin. by rewrite <- Heq.
Qed.

(** ** Validating and submitting a payment *)

Lemma push_if_nil (c : bool) (e : string) (l : list string) :
  FineService.push_if c e l = [] ↔ c = false ∧ l = [].
Proof.
  unfold FineService.push_if. destruct c.
  - split; [intros H; by apply app_nil in H as [_ ?] | by intros [? _]].
  - split; [by intros -> | by intros [_ ->]].
Qed.

Lemma isValid_iff (m : PaymentMethod) (form : DummyPaymentForm.t) :
  FineService.isValid (FineService.validatePaymentData m form) = true
  ↔ FineService.errors (FineService.validatePaymentData m form) = [].
Proof.
  unfold FineService.validatePaymentData. cbn [FineService.isValid FineService.errors].
  rewrite bool_decide_eq_true. apply length_zero_iff_nil.
Qed.

Lemma missing_short (s : option string) (f : string → string) (k : Z) :
  0 < k → f "" = "" →
  FineService.missing s || bool_decide (Str.len (f (FineService.text s)) < k) = false
  ↔ k ≤ Str.len (f (FineService.text s)).
Proof.
  intros Hk Hf. rewrite orb_false_iff, bool_decide_eq_false.
  split; [intros [_ H]; lia|]. intros H. split; [|lia].
  destruct s as [[|c s]|]; cbn in *; try reflexivity;
    exfalso; rewrite Hf in H; unfold Str.len in H; cbn in H; lia.
Qed.

(** X4. The form passes validation exactly when: for a card, the number
    holds at least 13 characters that are not white space, the holder's
    name at least 2 characters once trimmed, month and year are filled in
    and the CVV has at least 3 characters; for UPI, the id contains an
    at-sign; for net banking and wallet, the bank or the provider is
    filled in; cash is never checked. *)
Theorem validatePaymentData_accepts (form : DummyPaymentForm.t) :
  let valid m := FineService.isValid (FineService.validatePaymentData m form) = true in
  (valid card ↔
     13 ≤ Str.len (Str.strip_spaces (FineService.text (DummyPaymentForm.cardNumber form)))
     ∧ 2 ≤ Str.len (Str.trim (FineService.text (DummyPaymentForm.cardName form)))
     ∧ Js.truthy (DummyPaymentForm.expiryMonth form) = true
     ∧ Js.truthy (DummyPaymentForm.expiryYear form) = true
     ∧ 3 ≤ Str.len (FineService.text (DummyPaymentForm.cvv form)))
  ∧ (valid upi ↔
       Str.includes (FineService.text (DummyPaymentForm.upiId form)) "@" = true)
  ∧ (valid netbanking ↔ Js.truthy (DummyPaymentForm.bankName form) = true)
  ∧ (valid wallet ↔ Js.truthy (DummyPaymentForm.walletProvider form) = true)
  ∧ valid cash.
Proof.
  cbn zeta. rewrite !isValid_iff.
  unfold FineService.validatePaymentData. cbn [FineService.errors].
  rewrite !push_if_nil.
  split; [|split; [|split; [|split; [|done]]]]; (split; [intros H | intros H]).
  - destruct H as (H4 & H3 & H2 & H1 & _).
    apply (missing_short _ (λ s, s) 3) in H4; [|lia|reflexivity].
    apply (missing_short _ Str.trim 2) in H2; [|lia|reflexivity].
    apply (missing_short _ Str.strip_spaces 13) in H1; [|lia|reflexivity].
    apply orb_false_iff in H3 as [Hm Hy].
    unfold FineService.missing in Hm, Hy. apply negb_false_iff in Hm, Hy.
    by repeat split.
  - destruct H as (H1 & H2 & Hm & Hy & H4).
    split; [by apply (missing_short _ (λ s, s) 3)|].
    split; [unfold FineService.missing; by rewrite Hm, Hy|].
    split; [by apply (missing_short _ Str.trim 2)|].
    split; [by apply (missing_short _ Str.strip_spaces 13) | reflexivity].
  - destruct H as [H _]. apply orb_false_iff in H as [Hm Hi].
    by apply negb_false_iff in Hi.
  - split; [|reflexivity]. apply orb_false_iff. split.
    + unfold FineService.missing.
      destruct (DummyPaymentForm.upiId form) as [[|c s]|]; cbn in *; congruence.
    + by rewrite H.
  - destruct H as [H _]. unfold FineService.missing in H. by apply negb_false_iff in H.
  - unfold FineService.missing. by rewrite H.
  - destruct H as [H _]. unfold FineService.missing in H. by apply negb_false_iff in H.
  - unfold FineService.missing. by rewrite H.
Qed.

(** X5. Submitting sends a payment request exactly when a member is
    signed in, a payment method is chosen and the form passes validation;
    the request then names the whole selection and the selected total
    (0 for an empty selection, which is not checked here), and the page
    is marked as processing.  When nothing is sent the selection and the
    processing flag are as before. *)
Theorem onSubmitPayment_sends (st : FinesComponent.State) :
  let st' := (FinesComponent.onSubmitPayment st).1 in
  let sent := (FinesComponent.onSubmitPayment st).2 in
  (is_Some sent ↔
     is_Some (FinesComponent.currentUser st)
     ∧ ∃ m, FinesComponent.selectedPaymentMethod st = Some m
            ∧ FineService.isValid
                (FineService.validatePaymentData m (FinesComponent.paymentForm st))
              = true)
  ∧ (∀ paymentRequest form, sent = Some (paymentRequest, form) →
       PaymentRequest.fineIds paymentRequest = FinesComponent.selectedFines st
       ∧ PaymentRequest.totalAmount paymentRequest = FinesComponent.getSelectedTotal st
       ∧ (FinesComponent.selectedFines st = [] →
          PaymentRequest.totalAmount paymentRequest = 0)
       ∧ form = FinesComponent.paymentForm st
       ∧ FinesComponent.isProcessingPayment st' = true)
  ∧ (sent = None →
       FinesComponent.selectedFines st' = FinesComponent.selectedFines st
       ∧ FinesComponent.isProcessingPayment st'
         = FinesComponent.isProcessingPayment st).
Proof.
  cbn zeta. unfold FinesComponent.onSubmitPayment.
  destruct (FinesComponent.currentUser st) as [u|].
  2: { cbn. split; [|split; [discriminate | done]].
       split; [by intros [? ?] | by intros [[? ?] _]]. }
  destruct (FinesComponent.selectedPaymentMethod st) as [m|].
  2: { cbn. split; [|split; [discriminate | done]].
       split; [by intros [? ?] | by intros [_ (? & ? & _)]]. }
  destruct (FineService.isValid _) eqn:Hvalid; cbn [negb fst snd].
  - split; [|split].
    + split; [intros _; split; [by eexists | by exists m] | by eexists].
    + intros req form [= <- <-].
      split; [reflexivity|]. split; [reflexivity|].
      split; [|split; reflexivity].
      intros Hsel. change (FinesComponent.getSelectedTotal st = 0).
      rewrite getSelectedTotal_visible, Hsel. unfold referencedTotal.
      rewrite (list_filter_iff _ (λ _, False)).
      * by induction (FinesComponent.filteredFines st).
      * intros f. split; [by intros ?%not_elem_of_nil | done].
    + discriminate.
  - split; [|split].
    + split; [by intros [? ?] |]. intros [_ (m' & [= <-] & Hv)]. congruence.
    + discriminate.
    + intros _. split; reflexivity.
Qed.

(** ** What the payment call leaves behind *)

Lemma paymentErrorMessage_nonempty (error : Rx.Failure) :
  FineService.paymentErrorMessage error ≠ "".
Proof.
  destruct error as [status message | m]; [|discriminate].
  unfold FineService.paymentErrorMessage.
  destruct status as [|p|p]; try discriminate.
  repeat (destruct p as [p|p|]; try discriminate).
  destruct message as [[|c s]|]; discriminate.
Qed.

(** X6. A payment call that fails hands the subscriber a plain error
    whose message is never empty, whatever the backend sent, and leaves
    the cached fines alone; so does an answer with [success: false],
    which is passed on unchanged. *)
Theorem processPayment_failure
    (post : FineService.RequestData → Rx.Observable PaymentResponse.t)
    (be : FineService.Backend) (paymentRequest : PaymentRequest.t)
    (paymentForm : DummyPaymentForm.t) (st : FineService.State) :
  let outcome := FineService.processPayment post be paymentRequest paymentForm st in
  (∀ error,
     post (FineService.requestData paymentRequest paymentForm) = Rx.Fail error →
     ∃ message, outcome.1 = Rx.Fail (Rx.ErrorMsg message) ∧ message ≠ ""
                ∧ outcome.2 = st)
  ∧ (∀ response,
       post (FineService.requestData paymentRequest paymentForm) = Rx.Next response →
       PaymentResponse.success response = false →
       outcome.1 = Rx.Next response ∧ outcome.2 = st).
Proof.
  cbn zeta. unfold FineService.processPayment. split.
  - intros error ->. eexists. split; [reflexivity|].
    split; [apply paymentErrorMessage_nonempty | reflexivity].
  - intros response -> Hno. by rewrite Hno.
Qed.

(** X7. After a payment the backend reports as successful, the cached
    fines are what the reload brings: the fetched list, the empty list
    when the reload fails, and the old list when nobody is signed in. *)
Theorem processPayment_success
    (post : FineService.RequestData → Rx.Observable PaymentResponse.t)
    (reply : Rx.Observable (list FineRecord.t))
    (paymentRequest : PaymentRequest.t) (paymentForm : DummyPaymentForm.t)
    (st : FineService.State) (response : PaymentResponse.t) :
  post (FineService.requestData paymentRequest paymentForm) = Rx.Next response →
  PaymentResponse.success response = true →
  FineService.finesSubject
    (FineService.processPayment post (FineService.mkBackend reply)
       paymentRequest paymentForm st).2
  = match FineService.currentUser st, reply with
    | None, _ => FineService.finesSubject st
    | Some _, Rx.Next fines => fines
    | Some _, Rx.Fail _ => []
    end.
Proof.
  intros Hpost Hok. unfold FineService.processPayment.
  rewrite Hpost, Hok. cbn [snd]. unfold FineService.loadUserData.
  destruct (FineService.currentUser st); [|reflexivity].
  by destruct reply.
Qed.

Lemma processPayment_success_witness :
  FineService.finesSubject
    (FineService.processPayment
       (λ _, Rx.Next (PaymentResponse.mk true "Paid" (Some "PAY-1") None))
       (FineService.mkBackend (Rx.Fail (Rx.HttpErrorResponse 500 None)))
       card_request card_form
       (FineService.mkState [fine_pending; fine_overdue] (Some member))).2
  = [].
Proof.
  apply (processPayment_success
           (λ _, Rx.Next (PaymentResponse.mk true "Paid" (Some "PAY-1") None))
           (Rx.Fail (Rx.HttpErrorResponse 500 None)) card_request card_form
           (FineService.mkState [fine_pending; fine_overdue] (Some member))
           (PaymentResponse.mk true "Paid" (Some "PAY-1") None));
    reflexivity.
Defined.

(** X8. With no search filter set, the total of the submitted request is
    the sum of the totals of the fines its [fineIds] refer to. *)
Theorem onSubmitPayment_total_without_filter (st st' : FinesComponent.State)
    (paymentRequest : PaymentRequest.t) (form : DummyPaymentForm.t) :
  FinesComponent.noFilters (FinesComponent.searchForm st) = true →
  FinesComponent.onSubmitPayment (FinesComponent.performSearch st)
    = (st', Some (paymentRequest, form)) →
  PaymentRequest.totalAmount paymentRequest
  = referencedTotal (FinesComponent.fines st)
      (PaymentRequest.fineIds paymentRequest).
Proof.
  intros Hno Hsubmit.
  assert (Hall : FinesComponent.filteredFines (FinesComponent.performSearch st)
                 = FinesComponent.fines (FinesComponent.performSearch st)).
  { unfold FinesComponent.performSearch. cbn zeta. by rewrite Hno. }
  destruct (onSubmitPayment_total_unfiltered _ _ _ _ Hall Hsubmit) as [_ Htotal].
  rewrite Htotal. f_equal.
  unfold FinesComponent.performSearch. cbn zeta. by rewrite Hno.
Qed.

Lemma onSubmitPayment_total_without_filter_witness :
  ∃ st' paymentRequest form,
    FinesComponent.onSubmitPayment
      (FinesComponent.performSearch
         (FinesComponent.onPaymentMethodSelect upi
            (FinesComponent.onSelectAllFines fines_page)))
    = (st', Some (paymentRequest, form))
    ∧ PaymentRequest.totalAmount paymentRequest = 100.
Proof.
  eexists _, _, _. split; [vm_compute; reflexivity|].
  etrans; [eapply (onSubmitPayment_total_without_filter
                    (FinesComponent.onPaymentMethodSelect upi
                       (FinesComponent.onSelectAllFines fines_page)));
           [reflexivity | vm_compute; reflexivity] |].
  reflexivity.
Defined.

(** ** Extending and returning a loan *)

(** X9. A loan can be extended exactly when it is stored as [Borrowed],
    its renewal count (0 when missing) is below its maximum (2 when
    missing or 0) and less than seven times 24 hours have passed since
    its due date; at seven days sharp it no longer can. *)
Theorem canExtendBook_exactly (now : Z) (entry : BorrowHistoryEntry.t) :
  (MyBooksComponent.canExtendBook now entry = true ↔
     BorrowHistoryEntry.status entry = Borrowed
     ∧ Js.or_default (BorrowHistoryEntry.renewalCount entry) 0
       < Js.or_default (BorrowHistoryEntry.maxRenewalsAllowed entry) 2
     ∧ now - BorrowHistoryEntry.dueDate entry < 7 * Js.msPerDay)
  ∧ (now - BorrowHistoryEntry.dueDate entry = 7 * Js.msPerDay →
     MyBooksComponent.canExtendBook now entry = false).
Proof.
  split; [apply canExtendBook_true|].
  intros Hseven. apply not_true_is_false. rewrite canExtendBook_true. lia.
Qed.

(** X10. Whenever [canExtendBook] allows it, [extendBookDueDate] sends
    the extension request, for 7 days unless told otherwise; the request
    is sent for exactly the entries [canReturnEarly] accepts, so also for
    loans [canExtendBook] refuses. *)
Theorem extendBookDueDate_guard (now : Z) (entry : BorrowHistoryEntry.t)
    (days : option Z) :
  (MyBooksComponent.canExtendBook now entry = true →
   MyBooksComponent.extendBookDueDate entry days
   = MyBooksComponent.SendExtension (BorrowHistoryEntry.id entry) (default 7 days))
  ∧ (MyBooksComponent.canReturnEarly entry = true ↔
     MyBooksComponent.extendBookDueDate entry days
     = MyBooksComponent.SendExtension (BorrowHistoryEntry.id entry) (default 7 days))
  ∧ (MyBooksComponent.canReturnEarly entry = false ↔
     MyBooksComponent.extendBookDueDate entry days
     = MyBooksComponent.ShowError "Only currently borrowed books can be extended.").
Proof.
  unfold MyBooksComponent.canReturnEarly, MyBooksComponent.extendBookDueDate.
  cbn zeta. rewrite bool_decide_eq_true, bool_decide_eq_false.
  split; [|split].
  - intros (Hs & _)%canExtendBook_true. by rewrite decide_False by tauto.
  - case_decide; intuition congruence.
  - case_decide; intuition congruence.
Qed.

(** X11. The days until a loan is due are at least 1 exactly while the
    due date lies ahead, even by a millisecond, and 0 or less from the
    due date on; a due date a whole number of days away gives that
    number. *)
Theorem getDaysUntilDue_sign (now dueDate : Z) :
  (1 ≤ MyBooksComponent.getDaysUntilDue now dueDate ↔ now < dueDate)
  ∧ (MyBooksComponent.getDaysUntilDue now dueDate ≤ 0 ↔ dueDate ≤ now)
  ∧ (∀ n, MyBooksComponent.getDaysUntilDue now (now + n * Js.msPerDay) = n).
Proof.
  unfold MyBooksComponent.getDaysUntilDue. cbn zeta.
  pose proof (ceil_div_gt (dueDate - now) Js.msPerDay 0 msPerDay_pos) as H.
  split; [|split].
  - split; intros; [apply proj1 in H | apply proj2 in H]; lia.
  - split; intros Hle.
    + destruct (decide (dueDate ≤ now)) as [? | Hgt]; [done|].
      assert (Js.ceil_div (dueDate - now) Js.msPerDay > 0) by (apply H; lia). lia.
    + destruct (decide (Js.ceil_div (dueDate - now) Js.msPerDay ≤ 0)) as [? | Hgt];
        [done|].
      assert (dueDate - now > 0 * Js.msPerDay) by (apply H; lia). lia.
  - intros n. replace (now + n * Js.msPerDay - now) with (n * Js.msPerDay) by lia.
    unfold Js.ceil_div.
    replace (- (n * Js.msPerDay)) with ((- n) * Js.msPerDay) by lia.
    rewrite Z.div_mul by discriminate. lia.
Qed.

(** ** The shared user data *)

(** X12. When [canBorrowMoreBooks] says yes, a borrow profile is loaded
    and eligible, at least one borrowing slot is free, the total of fines
    is 0 and the profile counts no overdue book. *)
Theorem canBorrowMoreBooks_sound (d : UserDataService.UserData) :
  UserDataOps.canBorrowMoreBooks d = true →
  1 ≤ UserDataService.getAvailableBorrowingSlots d
  ∧ UserDataOps.getTotalFines d = 0
  ∧ ∃ borrowInfo,
      UserDataService.borrowInfo d = Some borrowInfo
      ∧ UserBorrowInfo.isEligible borrowInfo = true
      ∧ UserBorrowInfo.overdueBooks borrowInfo = 0.
Proof.
  unfold UserDataOps.canBorrowMoreBooks, UserDataOps.getTotalFines,
    UserDataService.getAvailableBorrowingSlots, UserDataService.getCurrentBorrowInfo.
  destruct (UserDataService.borrowInfo d) as [info|]; [|discriminate].
  rewrite !andb_true_iff, !bool_decide_eq_true.
  intros (((He & Hc) & Hf) & Ho).
  split; [lia|]. split; [by rewrite Hf|]. by exists info.
Qed.

Lemma canBorrowMoreBooks_sound_witness :
  1 ≤ UserDataService.getAvailableBorrowingSlots
        (UserDataService.mkUserData (Some member)
           (Some (UserBorrowInfo.mk "M1" "Asha Rao" "asha@example.com" 2 5 0 0 true))
           [] None false None).
Proof.
  apply (canBorrowMoreBooks_sound
           (UserDataService.mkUserData (Some member)
              (Some (UserBorrowInfo.mk "M1" "Asha Rao" "asha@example.com" 2 5 0 0 true))
              [] None false None)).
  reflexivity.
Defined.

(** X13. [updateBorrowInfo] is dropped when no borrow profile is loaded;
    with one, the keys given replace the stored values, the free slots
    follow the new counts, applying the same update twice is applying it
    once, and the history is untouched. *)
Theorem updateBorrowInfo_merges (p : UserDataOps.PartialBorrowInfo)
    (d : UserDataService.UserData) :
  (UserDataService.borrowInfo d = None → UserDataOps.updateBorrowInfo p d = d)
  ∧ (∀ info, UserDataService.borrowInfo d = Some info →
       UserDataService.getAvailableBorrowingSlots (UserDataOps.updateBorrowInfo p d)
       = Z.max 0 (default (UserBorrowInfo.maxBooksAllowed info)
                          (UserDataOps.maxBooksAllowed p)
                  - default (UserBorrowInfo.currentBorrowedCount info)
                            (UserDataOps.currentBorrowedCount p))
       ∧ UserDataOps.getTotalFines (UserDataOps.updateBorrowInfo p d)
         = default (UserBorrowInfo.fines info) (UserDataOps.fines p))
  ∧ UserDataOps.updateBorrowInfo p (UserDataOps.updateBorrowInfo p d)
    = UserDataOps.updateBorrowInfo p d
  ∧ UserDataService.borrowHistory (UserDataOps.updateBorrowInfo p d)
    = UserDataService.borrowHistory d.
Proof.
  unfold UserDataOps.updateBorrowInfo.
  split; [by intros ->|]. split; [|split].
  - intros info ->. cbn. split; [reflexivity|].
    unfold Js.or_default. case_decide; congruence.
  - destruct (UserDataService.borrowInfo d) as [info|] eqn:Hinfo; cbn.
    + do 2 f_equal. unfold UserDataOps.spread. cbn.
      destruct p as [[?|] [?|] [?|] [?|] [?|] [?|] [?|] [?|]]; reflexivity.
    + by rewrite Hinfo.
  - by destruct (UserDataService.borrowInfo d).
Qed.

(** ** The cached user data of the user service *)

(** X14. A refresh never loses cached data: when both reads fail, or
    nobody is signed in, the cached borrow information and history stay
    as they are.  The initial load is different: with a member signed in
    and both reads failing it resets the cache to no borrow information
    and an empty history. *)
Theorem refresh_keeps_cache_on_failure (e1 e2 : Rx.Failure)
    (be : UserServiceCache.Backend) (st : UserServiceCache.State) :
  let failing := UserServiceCache.mkBackend (Rx.Fail e1) (Rx.Fail e2) in
  UserServiceCache.refreshUserData failing st = st
  ∧ (UserServiceCache.currentUser st = None →
     UserServiceCache.refreshUserData be st = st
     ∧ UserServiceCache.loadUserData be st = st)
  ∧ (is_Some (UserServiceCache.currentUser st) →
     UserServiceCache.userBorrowInfoSubject
       (UserServiceCache.loadUserData failing st) = None
     ∧ UserServiceCache.borrowHistorySubject
         (UserServiceCache.loadUserData failing st) = [])
  ∧ (∀ info history,
       is_Some (UserServiceCache.currentUser st) →
       let fresh := UserServiceCache.mkBackend (Rx.Next info) (Rx.Next history) in
       UserServiceCache.refreshUserData fresh st
       = UserServiceCache.loadUserData fresh st).
Proof.
  cbn zeta. unfold UserServiceCache.refreshUserData, UserServiceCache.loadUserData.
  split; [|split; [|split]].
  - destruct (UserServiceCache.currentUser st); [|reflexivity].
    unfold UserServiceCache.refreshBorrowHistory,
      UserServiceCache.refreshUserBorrowInfo, UserService.getUserBorrowInfo.
    reflexivity.
  - by intros ->.
  - intros [u ->]. unfold UserService.getUserBorrowInfo. by cbn.
  - intros info history [u ->]. reflexivity.
Qed.




(** ** Sorting *)

Lemma insert_Permutation {A} (before : A → A → bool) (x : A) (l : list A) :
  JsArray.insert before x l ≡ₚ x :: l.
Proof.
  induction l as [|y l IH]; cbn; [reflexivity|].
  destruct (before x y); [reflexivity|].
  rewrite IH. apply Permutation_swap.
Qed.

Lemma sort_Permutation {A} (before : A → A → bool) (l : list A) :
  JsArray.sort before l ≡ₚ l.
Proof.
  induction l as [|x l IH]; cbn; [reflexivity|].
  rewrite insert_Permutation. by rewrite IH.
Qed.

Lemma insert_Sorted {A} (before : A → A → bool) (x : A) (l : list A) :
  (∀ a b, before a b = false → before b a = true) →
  Sorted (λ a b, before a b = true) l →
  Sorted (λ a b, before a b = true) (JsArray.insert before x l).
Proof.
  intros Htotal. induction l as [|y l IH]; intros Hs; cbn.
  - repeat constructor.
  - destruct (before x y) eqn:Hxy.
    + constructor; [exact Hs | by constructor].
    + apply Sorted_inv in Hs as [Hs Hhd]. constructor; [by apply IH|].
      destruct l as [|z l]; cbn.
      * constructor. by apply Htotal.
      * destruct (before x z); constructor; [by apply Htotal|].
        by apply HdRel_inv in Hhd.
Qed.

Lemma sort_Sorted {A} (before : A → A → bool) (l : list A) :
  (∀ a b, before a b = false → before b a = true) →
  Sorted (λ a b, before a b = true) (JsArray.sort before l).
Proof.
  intros Htotal. induction l as [|x l IH]; cbn; [constructor|].
  by apply insert_Sorted.
Qed.

(** ** The history list of the my-books page *)

Lemma filterHistory_elem (endOfDay : Z → Z) (form : MyBooksHistory.FilterForm)
    (h : list BorrowHistoryEntry.t) (r : BorrowHistoryEntry.t) :
  r ∈ MyBooksHistory.filterHistory endOfDay form h ↔
    r ∈ h
    ∧ (∀ start, MyBooksHistory.startDate form = Some start →
         start ≤ BorrowHistoryEntry.borrowDate r)
    ∧ (∀ e, MyBooksHistory.endDate form = Some e →
         BorrowHistoryEntry.borrowDate r ≤ endOfDay e)
    ∧ (MyBooksHistory.status form ≠ "" → MyBooksHistory.status form ≠ "all" →
         Str.toLowerCase (MyBooksHistory.statusText (BorrowHistoryEntry.status r))
         = Str.toLowerCase (MyBooksHistory.status form)).
Proof.
  unfold MyBooksHistory.filterHistory. cbn zeta.
  set (l1 := match MyBooksHistory.startDate form with Some _ => _ | None => _ end).
  set (l2 := match MyBooksHistory.endDate form with Some _ => _ | None => _ end).
  assert (H1 : r ∈ l1 ↔ r ∈ h ∧ (∀ start, MyBooksHistory.startDate form = Some start →
                 start ≤ BorrowHistoryEntry.borrowDate r)).
  { subst l1. destruct (MyBooksHistory.startDate form) as [s|].
    - rewrite !list_elem_of_In, filter_In, bool_decide_eq_true. split.
      + intros [? ?]. split; [done|]. intros ? [= <-]. lia.
      + intros [? Hs]. split; [done|]. specialize (Hs s eq_refl). lia.
    - split; [by intros ?; split | by intros [? _]]. }
  assert (H2 : r ∈ l2 ↔ r ∈ l1 ∧ (∀ e, MyBooksHistory.endDate form = Some e →
                 BorrowHistoryEntry.borrowDate r ≤ endOfDay e)).
  { subst l2. destruct (MyBooksHistory.endDate form) as [e|].
    - rewrite !list_elem_of_In, filter_In, bool_decide_eq_true. split.
      + intros [? ?]. split; [done|]. intros ? [= <-]. lia.
      + intros [? Hs]. split; [done|]. by specialize (Hs e eq_refl).
    - split; [by intros ?; split | by intros [? _]]. }
  destruct (MyBooksHistory.status form) as [|c s] eqn:Hst; cbn [Js.truthy andb].
  - rewrite H2, H1. split; [|tauto]. intros [[? ?] ?]. by repeat split.
  - destruct (String.eqb (String c s) "all") eqn:Hall; cbn [negb].
    + apply String.eqb_eq in Hall. rewrite H2, H1. split; [|tauto].
      intros [[? ?] ?]. repeat split; try done; intros _ Hne; by rewrite Hall in Hne.
    + apply String.eqb_neq in Hall.
      rewrite !list_elem_of_In, filter_In, <- !list_elem_of_In, H2, H1, String.eqb_eq.
      split; [intros [[[? ?] ?] ?]; by repeat split|].
      intros (? & ? & ? & Hs). repeat split; try done. by apply Hs.
Qed.

(** X16. The history shown on the my-books page holds exactly the
    entries that pass the date and status filters, each as often as the
    loaded history has it, with the most recent borrow date first. *)
Theorem applyCurrentFilters_sorted (endOfDay : Z → Z)
    (form : MyBooksHistory.FilterForm) (borrowHistory : list BorrowHistoryEntry.t) :
  let shown := MyBooksHistory.applyCurrentFilters endOfDay form borrowHistory in
  Sorted (λ a b, BorrowHistoryEntry.borrowDate b ≤ BorrowHistoryEntry.borrowDate a)
         shown
  ∧ shown ≡ₚ MyBooksHistory.filterHistory endOfDay form borrowHistory
  ∧ (∀ r, r ∈ shown ↔
       r ∈ borrowHistory
       ∧ (∀ start, MyBooksHistory.startDate form = Some start →
            start ≤ BorrowHistoryEntry.borrowDate r)
       ∧ (∀ e, MyBooksHistory.endDate form = Some e →
            BorrowHistoryEntry.borrowDate r ≤ endOfDay e)
       ∧ (MyBooksHistory.status form ≠ "" → MyBooksHistory.status form ≠ "all" →
            Str.toLowerCase (MyBooksHistory.statusText (BorrowHistoryEntry.status r))
            = Str.toLowerCase (MyBooksHistory.status form)))
  ∧ (MyBooksHistory.status form = "all" →
     MyBooksHistory.startDate form = None → MyBooksHistory.endDate form = None →
     shown ≡ₚ borrowHistory).
Proof.
  cbn zeta. unfold MyBooksHistory.applyCurrentFilters, MyBooksHistory.sortHistoryByDate.
  split; [|split; [|split]].
  - eapply Sorted_ind with
      (P := Sorted (λ a b, BorrowHistoryEntry.borrowDate b
                           ≤ BorrowHistoryEntry.borrowDate a));
      [constructor | | apply (sort_Sorted MyBooksHistory.newestFirst)].
    + intros a l _ IH Hhd. constructor; [exact IH|].
      destruct Hhd as [|b l' Hb]; constructor.
      unfold MyBooksHistory.newestFirst in Hb. apply bool_decide_eq_true in Hb. lia.
    + intros a b. unfold MyBooksHistory.newestFirst.
      rewrite bool_decide_eq_false, bool_decide_eq_true. lia.
  - apply sort_Permutation.
  - intros r. rewrite (sort_Permutation MyBooksHistory.newestFirst).
    apply filterHistory_elem.
  - intros Hs Hstart Hend. rewrite sort_Permutation.
    unfold MyBooksHistory.filterHistory. by rewrite Hs, Hstart, Hend.
Qed.

(** X17. The counters of the my-books page: the returned books are
    counted from the loaded history and never exceed its length, which
    is the total shown when no statistics are available.  After a failed
    statistics request the zeroed statistics are available, so the total
    shown is 0 whatever the history holds.  Without a borrow profile the
    borrowed, overdue and fine counters keep their old values. *)
Theorem updateStatistics_counters (info : option UserBorrowInfo.t)
    (statistics : option UserStatistics.t) (history : list BorrowHistoryEntry.t)
    (s : MyBooksHistory.Stats) (e : Rx.Failure) (d : UserDataService.UserData) :
  let s' := MyBooksHistory.updateStatistics info statistics history s in
  0 ≤ MyBooksHistory.returnedBooks s' ≤ Z.of_nat (length history)
  ∧ (statistics = None →
     MyBooksHistory.totalBorrowedBooks s' = Z.of_nat (length history))
  ∧ (let d' := UserDataService.loadCompleteUserData
                 (UserService.getUserStatistics (Rx.Fail e)) d in
     MyBooksHistory.totalBorrowedBooks
       (MyBooksHistory.updateStatistics info (UserDataService.statistics d')
          history s) = 0)
  ∧ (info = None →
     MyBooksHistory.currentlyBorrowedBooks s' = MyBooksHistory.currentlyBorrowedBooks s
     ∧ MyBooksHistory.overdueBooks s' = MyBooksHistory.overdueBooks s
     ∧ MyBooksHistory.totalFines s' = MyBooksHistory.totalFines s).
Proof.
  cbn zeta. split; [|split; [|split]].
  - cbn. pose proof (length_filter
      (λ record, BorrowHistoryEntry.status record = Returned) history). lia.
  - by intros ->.
  - reflexivity.
  - by intros ->.
Qed.

(** X18. Loading more history never asks for a page past the last one
    and always for the page right after the current one; while a load is
    pending a second call asks for nothing; the entries that arrive are
    appended to the loaded history; and with nobody signed in the page
    counter advances although nothing is requested. *)
Theorem loadMore_pages (u : option AuthUser.t) (p : MyBooksHistory.Paging) :
  (∀ n, (MyBooksHistory.loadMore u p).2 = Some n →
     n = MyBooksHistory.currentPage p + 1
     ∧ n ≤ MyBooksHistory.totalPages p - 1
     ∧ MyBooksHistory.hasMoreResults p = true
     ∧ is_Some u)
  ∧ (MyBooksHistory.loadMore u (MyBooksHistory.loadMore u p).1).2 = None
  ∧ (∀ more history q,
       (MyBooksHistory.onMoreHistory (Rx.Next more) history q).1
       = (history ++ more)%list
       ∧ ∀ err, (MyBooksHistory.onMoreHistory (Rx.Fail err) history q).1 = history)
  ∧ (MyBooksHistory.hasMoreResults p = true →
     MyBooksHistory.isLoadingMore p = false →
     MyBooksHistory.currentPage (MyBooksHistory.loadMore None p).1
     = MyBooksHistory.currentPage p + 1
     ∧ (MyBooksHistory.loadMore None p).2 = None).
Proof.
  unfold MyBooksHistory.loadMore, MyBooksHistory.hasMoreResults.
  split; [|split; [|split]].
  - intros n. destruct (bool_decide _) eqn:Hb; cbn [andb]; [|discriminate].
    apply bool_decide_eq_true in Hb.
    destruct (MyBooksHistory.isLoadingMore p); cbn [negb]; [discriminate|].
    destruct u; [|discriminate]. intros [= <-]. cbn.
    repeat split; try lia. by eexists.
  - destruct (bool_decide (MyBooksHistory.currentPage p < _)) eqn:Hb; cbn [andb].
    + destruct (MyBooksHistory.isLoadingMore p) eqn:Hl; cbn [negb].
      * cbn [fst]. by rewrite Hb, Hl.
      * destruct u; cbn; by rewrite andb_false_r.
    + cbn [fst]. by rewrite Hb.
  - intros more history q. split; [reflexivity | by intros].
  - intros -> ->. by cbn.
Qed.

(** ** Selecting and borrowing on the books page *)

Lemma map_get_set (k k' : string) (v : Z) (m : list (string * Z)) :
  BooksPage.map_get k' (BooksPage.map_set k v m)
  = if decide (k' = k) then Some v else BooksPage.map_get k' m.
Proof.
  unfold BooksPage.map_get. induction m as [|[k0 v0] m IH]; cbn.
  - case_bool_decide; case_decide; done.
  - destruct (decide (k0 = k)) as [->|Hne]; cbn.
    + case_bool_decide; case_decide; done.
    + case_bool_decide as Hk; [subst k0; by rewrite decide_False|].
      exact IH.
Qed.

Lemma map_get_delete (k k' : string) (m : list (string * Z)) :
  BooksPage.map_get k' (BooksPage.map_delete k m)
  = if decide (k' = k) then None else BooksPage.map_get k' m.
Proof.
  unfold BooksPage.map_get, BooksPage.map_delete.
  induction m as [|[k0 v0] m IH]; [by case_decide|].
  rewrite filter_cons. cbn [fst]. destruct (decide (k0 ≠ k)) as [Hne|Heq]; cbn.
  - case_bool_decide as Hk; [subst k0; by rewrite decide_False|]. exact IH.
  - assert (k0 = k) as -> by (destruct (decide (k0 = k)); tauto).
    rewrite IH. case_decide as Hk; [done|]. by rewrite bool_decide_eq_false_2.
Qed.

Lemma map_set_keys (k : string) (v : Z) (m : list (string * Z)) :
  (NoDup m.*1 → NoDup (BooksPage.map_set k v m).*1)
  ∧ (∀ x, x ∈ (BooksPage.map_set k v m).*1 → x = k ∨ x ∈ m.*1).
Proof.
  induction m as [|[k0 v0] m (IH2 & IH3)]; cbn.
  - split; [intros _; apply NoDup_singleton|].
    intros x Hx. left. by apply list_elem_of_singleton in Hx.
  - destruct (decide (k0 = k)) as [->|Hne]; cbn.
    + split; [done|]. intros x Hx. by right.
    + split.
      * intros [Hnin Hnd]%NoDup_cons. apply NoDup_cons. split; [|by apply IH2].
        intros [->|Hin]%IH3; [done|by apply Hnin].
      * intros x [->|Hx]%elem_of_cons; [right; left|].
        destruct (IH3 x Hx) as [->|?]; [by left|right; by right].
Qed.

Lemma map_delete_NoDup (k : string) (m : list (string * Z)) :
  NoDup m.*1 → NoDup (BooksPage.map_delete k m).*1.
Proof.
  unfold BooksPage.map_delete. induction m as [|[k0 v0] m IH]; [done|].
  cbn [fmap list_fmap fst]. intros [Hnin Hnd]%NoDup_cons.
  rewrite filter_cons. case_decide; [|by apply IH].
  cbn. apply NoDup_cons. split; [|by apply IH].
  intros ((k1 & v1) & Heq & Hin)%list_elem_of_fmap. cbn in Heq. subst k1.
  apply list_elem_of_filter in Hin as [_ Hin]. apply Hnin.
  apply list_elem_of_fmap. by exists (k0, v1).
Qed.

Lemma validateSelection_selectedBooks (st : BooksComponent.State) :
  BooksComponent.selectedBooks (BooksComponent.validateSelection st)
  = BooksComponent.selectedBooks st.
Proof.
  unfold BooksComponent.validateSelection.
  destruct (BooksComponent.userBorrowInfo st); [|done].
  cbn zeta. by repeat case_decide.
Qed.

Lemma validateSelection_message (st : BooksComponent.State)
    (info : BooksComponent.BorrowInfo) (text : string) :
  BooksComponent.userBorrowInfo st = Some info →
  BooksComponent.errorMessage (BooksComponent.validateSelection st)
  ≠ BooksComponent.OtherMessage text.
Proof.
  unfold BooksComponent.validateSelection. intros ->. cbn zeta.
  by repeat case_decide.
Qed.

(** X19. [onQuantityChange] as a change of the selection map: a
    quantity that is not a positive number removes the book; a positive
    one is stored, cut down to the available copies when the book is
    among the search results (so a book without available copies is
    stored with quantity 0, not removed); every other book keeps its
    quantity, and the keys stay distinct. *)
Theorem onQuantityChange_selection (bookId : string) (value : option Z)
    (pg : BooksPage.Page) :
  let selected pg := BooksComponent.selectedBooks (BooksPage.core pg) in
  let pg' := BooksPage.onQuantityChange bookId value pg in
  let quantity := Js.or_default value 0 in
  (quantity ≤ 0 → BooksPage.map_get bookId (selected pg') = None)
  ∧ (0 < quantity →
       BooksPage.map_get bookId (selected pg')
       = Some match BooksPage.searchResults pg ≫= BooksPage.findBook bookId with
              | Some book => quantity `min` Book.availableCopies book
              | None => quantity
              end)
  ∧ (∀ other, other ≠ bookId →
       BooksPage.map_get other (selected pg') = BooksPage.map_get other (selected pg))
  ∧ (NoDup (selected pg).*1 → NoDup (selected pg').*1).
Proof.
  intros selected pg' quantity. subst selected pg'. cbn beta.
  unfold BooksPage.onQuantityChange. fold quantity. cbn zeta.
  cbn [BooksPage.core BooksPage.set_core].
  rewrite validateSelection_selectedBooks.
  destruct (decide (quantity <= 0)) as [Hq|Hq];
    [|destruct (BooksPage.searchResults pg ≫= BooksPage.findBook bookId) as [book|];
      [destruct (decide (quantity > Book.availableCopies book))|]];
    cbn [BooksPage.set_selectedBooks BooksComponent.selectedBooks BooksComponent.showError].
  - split; [intros _; rewrite map_get_delete; by rewrite decide_True|].
    split; [lia|]. split; [|apply map_delete_NoDup].
    intros other Hne. rewrite map_get_delete. by rewrite decide_False.
  - split; [lia|]. split; [intros _; rewrite map_get_set, decide_True by done; f_equal; lia|].
    split; [|apply map_set_keys].
    intros other Hne. rewrite map_get_set. by rewrite decide_False.
  - split; [lia|]. split; [intros _; rewrite map_get_set, decide_True by done; f_equal; lia|].
    split; [|apply map_set_keys].
    intros other Hne. rewrite map_get_set. by rewrite decide_False.
  - split; [lia|]. split; [intros _; by rewrite map_get_set, decide_True by done|].
    split; [|apply map_set_keys].
    intros other Hne. rewrite map_get_set. by rewrite decide_False.
Qed.

(** X20. The message of [onQuantityChange] about the copies available
    is shown only while no borrow profile is loaded: with a profile the
    validation that follows replaces it by its own message or by none;
    without one it stays exactly when the quantity asked for exceeds the
    copies of a book of the search results. *)
Theorem onQuantityChange_message (bookId : string) (value : option Z)
    (pg : BooksPage.Page) :
  let pg' := BooksPage.onQuantityChange bookId value pg in
  let quantity := Js.or_default value 0 in
  (∀ info text,
     BooksComponent.userBorrowInfo (BooksPage.core pg) = Some info →
     BooksComponent.errorMessage (BooksPage.core pg') ≠ BooksComponent.OtherMessage text)
  ∧ (BooksComponent.userBorrowInfo (BooksPage.core pg) = None →
     ∀ book,
       BooksPage.searchResults pg ≫= BooksPage.findBook bookId = Some book →
       0 < quantity → Book.availableCopies book < quantity →
       BooksComponent.errorMessage (BooksPage.core pg')
       = BooksComponent.OtherMessage (BooksPage.onlyCopiesText book)
       ∧ BooksComponent.successMessage (BooksPage.core pg') = BooksComponent.NoMessage)
  ∧ (BooksComponent.userBorrowInfo (BooksPage.core pg) = None →
     (quantity ≤ 0
      ∨ ∀ book, BooksPage.searchResults pg ≫= BooksPage.findBook bookId = Some book →
                quantity ≤ Book.availableCopies book) →
     BooksComponent.errorMessage (BooksPage.core pg')
     = BooksComponent.errorMessage (BooksPage.core pg)).
Proof.
  intros pg' quantity. subst pg'. unfold BooksPage.onQuantityChange.
  fold quantity. cbn zeta. cbn [BooksPage.core BooksPage.set_core].
  split; [|split].
  - intros info text Hinfo. apply validateSelection_message with info.
    destruct (decide (quantity <= 0));
      [|destruct (BooksPage.searchResults pg ≫= BooksPage.findBook bookId) as [book|];
        [destruct (decide (quantity > Book.availableCopies book))|]];
      exact Hinfo.
  - intros Hinfo book -> Hpos Hgt.
    rewrite decide_False, decide_True by lia.
    unfold BooksComponent.validateSelection. cbn. by rewrite Hinfo.
  - intros Hinfo Hq.
    destruct (decide (quantity <= 0)) as [Hle|Hpos].
    { unfold BooksComponent.validateSelection. cbn. by rewrite Hinfo. }
    destruct Hq as [Hq|Hq]; [lia|].
    destruct (BooksPage.searchResults pg ≫= BooksPage.findBook bookId) as [book|].
    + specialize (Hq book eq_refl). rewrite decide_False by lia.
      unfold BooksComponent.validateSelection. cbn. by rewrite Hinfo.
    + unfold BooksComponent.validateSelection. cbn. by rewrite Hinfo.
Qed.

(** X21. The three places that classify a book agree: the badge text,
    the badge class and the status of the availability dialogue (with
    the borrowers of the server or without) name the same one of three
    classes, and a member's click on Borrow opens the confirmation with
    exactly one copy of the book selected unless that class is
    Unavailable, when it asks for the availability and changes
    nothing. *)
Theorem availability_agrees (book : Book.t)
    (borrowers : Rx.Observable (list BookBorrower.t)) (pg : BooksPage.Page)
    (user : AuthUser.t) :
  BooksPage.currentUser pg = Some user →
  let text := BooksPage.getAvailabilityText book in
  BooksPage.status (BooksPage.onCheckAvailability book borrowers) = text
  ∧ BooksPage.status (BooksPage.getAvailabilityInfo book) = text
  ∧ BooksPage.getAvailabilityClass book = "availability-" +:+ Str.toLowerCase text
  ∧ (text = "Unavailable" ∨ text = "Limited" ∨ text = "Available")
  ∧ (text = "Unavailable" ↔ Book.isAvailable book = false ∨ Book.availableCopies book = 0)
  ∧ (text = "Unavailable" →
       BooksPage.onBorrowBook book pg = (pg, BooksPage.CheckAvailability book))
  ∧ (text ≠ "Unavailable" →
       ∃ pg', BooksPage.onBorrowBook book pg = (pg', BooksPage.Nothing)
         ∧ BooksPage.showBorrowConfirmModal pg' = true
         ∧ BooksComponent.selectedBooks (BooksPage.core pg') = [(Book.id book, 1)]).
Proof.
  intros Huser text. subst text.
  unfold BooksPage.onBorrowBook, BooksPage.onCheckAvailability,
    BooksPage.calculateAvailabilityInfo, BooksPage.getAvailabilityInfo,
    BooksPage.getAvailabilityText, BooksPage.getAvailabilityClass.
  rewrite Huser.
  assert (Hun : BooksPage.unavailable book = true
                ↔ Book.isAvailable book = false ∨ Book.availableCopies book = 0).
  { unfold BooksPage.unavailable. rewrite orb_true_iff, negb_true_iff.
    by rewrite bool_decide_eq_true. }
  destruct (BooksPage.unavailable book) eqn:Hu.
  - destruct borrowers; cbn [BooksPage.status].
    all: repeat split; try done; try (by left); try tauto.
    all: try (intros _; by apply Hun).
  - destruct (decide (Book.availableCopies book = 1)); destruct borrowers;
      cbn [BooksPage.status].
    all: repeat split; try done; try (right; by (left + right)).
    all: try (intros H; apply Hun in H; done).
    all: intros _; eexists; (split; [reflexivity|]); done.
Qed.

Lemma availability_agrees_witness :
  let book := Book.mk "b1" "Dune" "Herbert" "Fiction" 1 3 true in
  let pg := BooksPage.mkPage
              (BooksComponent.mkState [] None BooksComponent.NoMessage
                 BooksComponent.NoMessage)
              (Some (AuthUser.mk "M1" "Asha" "asha@example.org")) None [] false false in
  BooksPage.getAvailabilityClass book = "availability-limited"
  ∧ BooksPage.onBorrowBook book pg
    = (BooksPage.set_modal true
         (BooksPage.set_core
            (BooksPage.set_selectedBooks [("b1", 1)] (BooksPage.core pg)) pg),
       BooksPage.Nothing).
Proof.
  intros book pg.
  destruct (availability_agrees book (Rx.Fail (Rx.ErrorMsg "offline")) pg
              (AuthUser.mk "M1" "Asha" "asha@example.org") eq_refl)
    as (_ & _ & Hclass & _ & _ & _ & Hopen).
  split; [exact Hclass|].
  destruct Hopen as (pg' & Heq & _); [done|]. reflexivity.
Defined.

Lemma head_sort_least {A} (before : A → A → bool) (l : list A) (x : A) :
  (∀ a b, before a b = false → before b a = true) →
  (∀ a b c, before a b = true → before b c = true → before a c = true) →
  head (JsArray.sort before l) = Some x →
  x ∈ l ∧ ∀ y, y ∈ l → before x y = true.
Proof.
  intros Htotal Htrans Hhead.
  pose proof (sort_Permutation before l) as Hperm.
  pose proof (sort_Sorted before l Htotal) as Hsorted.
  destruct (JsArray.sort before l) as [|z s] eqn:Hs; [done|].
  cbn in Hhead. injection Hhead as ->.
  assert (Hrefl : ∀ a, before a a = true).
  { intros a. destruct (before a a) eqn:E; [done|]. pose proof (Htotal a a E). congruence. }
  split; [rewrite <- Hperm; by left|].
  intros y Hy. rewrite <- Hperm in Hy.
  assert (Htr : Transitive (λ a b : A, before a b = true))
    by (intros a b c; apply Htrans).
  apply Sorted_StronglySorted in Hsorted; [|exact Htr].
  apply StronglySorted_inv in Hsorted as [_ Hall].
  apply elem_of_cons in Hy as [->|Hy]; [apply Hrefl|].
  rewrite Forall_forall in Hall. by apply Hall.
Qed.

(** X22. For a book that cannot be borrowed, the next available date of
    the availability dialogue is the earliest due date among the
    borrowers who have not returned, and it is missing exactly when
    every borrower has returned; for any other book it is missing. *)
Theorem nextAvailableDate_earliest (book : Book.t) (borrowers : list BookBorrower.t) :
  let out b := Js.truthy (BookBorrower.returnDate b) = false in
  let info := BooksPage.calculateAvailabilityInfo book borrowers in
  (BooksPage.unavailable book = false → BooksPage.nextAvailableDate info = None)
  ∧ (BooksPage.unavailable book = true →
       (BooksPage.nextAvailableDate info = None ↔ ∀ b, b ∈ borrowers → ¬ out b)
       ∧ ∀ d, BooksPage.nextAvailableDate info = Some d →
           (∃ b, b ∈ borrowers ∧ out b ∧ BookBorrower.dueDate b = d)
           ∧ ∀ b, b ∈ borrowers → out b → d ≤ BookBorrower.dueDate b).
Proof.
  intros out info. subst out info. unfold BooksPage.calculateAvailabilityInfo.
  split; intros Hu; rewrite Hu; [by case_decide|].
  cbn [BooksPage.nextAvailableDate].
  set (open := List.filter _ borrowers).
  assert (Hopen : ∀ b, b ∈ open ↔ b ∈ borrowers
                                  ∧ Js.truthy (BookBorrower.returnDate b) = false).
  { intros b. subst open. rewrite !list_elem_of_In, filter_In.
    by rewrite negb_true_iff. }
  assert (Htotal : ∀ a b, BooksPage.earliestFirst a b = false
                          → BooksPage.earliestFirst b a = true).
  { unfold BooksPage.earliestFirst. intros a b H%bool_decide_eq_false.
    apply bool_decide_eq_true. lia. }
  assert (Htrans : ∀ a b c, BooksPage.earliestFirst a b = true
                            → BooksPage.earliestFirst b c = true
                            → BooksPage.earliestFirst a c = true).
  { unfold BooksPage.earliestFirst.
    intros a b c H1%bool_decide_eq_true H2%bool_decide_eq_true.
    apply bool_decide_eq_true. lia. }
  destruct (head (JsArray.sort BooksPage.earliestFirst open)) as [e|] eqn:Hhead.
  - destruct (head_sort_least _ _ _ Htotal Htrans Hhead) as [Hin Hleast].
    apply Hopen in Hin as [Hin Hout]. cbn. split.
    + split; [done|]. intros Hall. by destruct (Hall e Hin).
    + intros d [= <-]. split; [by exists e|].
      intros b Hb Hbout. specialize (Hleast b (proj2 (Hopen b) (conj Hb Hbout))).
      unfold BooksPage.earliestFirst in Hleast.
      apply bool_decide_eq_true in Hleast. lia.
  - cbn. split; [|done]. split; [|done]. intros _ b Hb Hbout.
    assert (Hnil : open = []).
    { pose proof (sort_Permutation BooksPage.earliestFirst open) as Hperm.
      destruct (JsArray.sort BooksPage.earliestFirst open); [|done].
      by apply Permutation_nil_l in Hperm. }
    assert (b ∈ open) as Hbo by (by apply Hopen).
    rewrite Hnil in Hbo. by apply elem_of_nil in Hbo.
Qed.

Lemma findBook_is_Some (bookId : string) (l : list Book.t) :
  is_Some (BooksPage.findBook bookId l) ↔ ∃ book, book ∈ l ∧ Book.id book = bookId.
Proof.
  unfold BooksPage.findBook. induction l as [|b l IH]; cbn.
  - split; [by intros [? ?]|]. intros (book & Hin & _). by apply elem_of_nil in Hin.
  - case_bool_decide as Hb.
    + split; [|by eexists]. intros _. exists b. split; [by left|done].
    + rewrite IH. split.
      * intros (book & Hin & Hid). exists book. split; [by right|done].
      * intros (book & [->|Hin]%elem_of_cons & Hid); [done|by exists book].
Qed.

Lemma getSelectedBookDetails_is_Some (pg : BooksPage.Page) :
  is_Some (BooksPage.getSelectedBookDetails pg)
  ↔ ∀ bookId, bookId ∈ (BooksComponent.selectedBooks (BooksPage.core pg)).*1 →
      ∃ book, book ∈ (default [] (BooksPage.searchResults pg) ++ BooksPage.books pg)%list
              ∧ Book.id book = bookId.
Proof.
  unfold BooksPage.getSelectedBookDetails. rewrite mapM_is_Some, Forall_forall.
  assert (Hone : ∀ bookId (quantity : Z),
    is_Some (match BooksPage.searchResults pg ≫= BooksPage.findBook bookId with
             | Some book => Some (book, quantity)
             | None => (λ book, (book, quantity)) <$> BooksPage.findBook bookId (BooksPage.books pg)
             end)
    ↔ ∃ book, book ∈ (default [] (BooksPage.searchResults pg) ++ BooksPage.books pg)%list
              ∧ Book.id book = bookId).
  { intros bookId quantity.
    transitivity (is_Some (BooksPage.findBook bookId (default [] (BooksPage.searchResults pg)))
                  ∨ is_Some (BooksPage.findBook bookId (BooksPage.books pg))).
    - destruct (BooksPage.searchResults pg) as [results|];
        cbn [mbind option_bind default from_option id].
      + destruct (BooksPage.findBook bookId results).
        * split; [intros _; left; by eexists|intros _; by eexists].
        * rewrite fmap_is_Some. split; [by right|]. by intros [[? ?]|?].
      + rewrite fmap_is_Some. split; [by right|]. by intros [[? ?]|?].
    - rewrite !findBook_is_Some. setoid_rewrite elem_of_app. split.
      + intros [(b & Hb & Hid)|(b & Hb & Hid)]; exists b; (split; [|done]);
          [by left|by right].
      + intros (b & [Hb|Hb] & Hid); [left|right]; by exists b. }
  split.
  - intros Hall bookId ((k & q) & Heq & Hin)%list_elem_of_fmap. cbn in Heq. subst k.
    specialize (Hall _ Hin). cbn in Hall. by apply (Hone bookId q).
  - intros Hall [bookId q] Hin. cbn. apply Hone, Hall.
    apply list_elem_of_fmap. by exists (bookId, q).
Qed.

Lemma borrowErrorMessage_nonempty (error : Rx.Failure) :
  BooksPage.borrowErrorMessage error ≠ "".
Proof.
  destruct error as [status message|message]; [|done]. cbn.
  destruct status as [|p|p]; try done.
  do 9 (destruct p as [p|p|]; try done).
  all: by destruct message as [[|? ?]|].
Qed.

(** X23. [confirmBorrow] sends a borrow request exactly when a member
    is signed in and a borrow profile is loaded; the request carries
    the member's id, the selection as it stands and a due date fourteen
    days after the clock read for it.  The outcome of the validation is
    not consulted: validating the selection first leaves the request
    the same, so a selection over the limit is sent as well. *)
Theorem confirmBorrow_request (now1 now2 : Z) (pg : BooksPage.Page) :
  let out := BooksPage.confirmBorrow now1 now2 pg in
  (out.2 = None ↔ BooksPage.currentUser pg = None
                  ∨ BooksComponent.userBorrowInfo (BooksPage.core pg) = None)
  ∧ (out.2 = None → out.1 = pg)
  ∧ (∀ request, out.2 = Some request →
       BooksPage.isBorrowing out.1 = true
       ∧ BooksPage.core out.1 = BooksPage.core pg
       ∧ Some (BorrowRequest.memberId request)
         = AuthUser.memberId <$> BooksPage.currentUser pg
       ∧ BorrowRequest.borrowItems request
         = BooksComponent.selectedBooks (BooksPage.core pg)
       ∧ BorrowRequest.borrowDate request = now1
       ∧ BorrowRequest.dueDate request - now2 = 14 * Js.msPerDay)
  ∧ (BooksPage.confirmBorrow now1 now2
       (BooksPage.set_core (BooksComponent.validateSelection (BooksPage.core pg)) pg)).2
    = out.2.
Proof.
  intros out. subst out. unfold BooksPage.confirmBorrow.
  cbn [BooksPage.core BooksPage.currentUser BooksPage.set_core].
  split; [|split; [|split]].
  - destruct (BooksPage.currentUser pg), (BooksComponent.userBorrowInfo (BooksPage.core pg));
      cbn; split; try done; try (by left); try (by right). by intros [?|?].
  - by destruct (BooksPage.currentUser pg),
         (BooksComponent.userBorrowInfo (BooksPage.core pg)).
  - destruct (BooksPage.currentUser pg), (BooksComponent.userBorrowInfo (BooksPage.core pg));
      cbn; try done.
    intros request [= <-]. cbn. repeat split.
    unfold BooksComponent.BORROW_PERIOD_DAYS, Js.msPerDay. lia.
  - assert (Hinfo : BooksComponent.userBorrowInfo
                      (BooksComponent.validateSelection (BooksPage.core pg))
                    = BooksComponent.userBorrowInfo (BooksPage.core pg)).
    { unfold BooksComponent.validateSelection.
      destruct (BooksComponent.userBorrowInfo (BooksPage.core pg)) eqn:E; [|by rewrite E].
      cbn zeta. repeat case_decide; cbn; by rewrite E. }
    assert (Htotal : BooksComponent.getTotalSelectedCopies
                       (BooksComponent.validateSelection (BooksPage.core pg))
                     = BooksComponent.getTotalSelectedCopies (BooksPage.core pg)).
    { unfold BooksComponent.getTotalSelectedCopies.
      by rewrite validateSelection_selectedBooks. }
    rewrite Hinfo, Htotal, validateSelection_selectedBooks.
    by destruct (BooksPage.currentUser pg),
         (BooksComponent.userBorrowInfo (BooksPage.core pg)).
Qed.

(** X24. A successful answer to the borrow request, with every selected
    book among the search results or the loaded books and a borrow
    profile present: the borrowed count grows by the copies selected
    (fines and overdue count stay), the selection is emptied, the
    confirmation closes, the busy flag falls, the error message is
    cleared and a success message is shown. *)
Theorem onBorrowResponse_success (dueText : string) (response : BorrowResponse.t)
    (pg : BooksPage.Page) (info : BooksComponent.BorrowInfo) :
  BorrowResponse.success response = true →
  BooksComponent.userBorrowInfo (BooksPage.core pg) = Some info →
  (∀ bookId, bookId ∈ (BooksComponent.selectedBooks (BooksPage.core pg)).*1 →
     ∃ book, book ∈ (default [] (BooksPage.searchResults pg) ++ BooksPage.books pg)%list
             ∧ Book.id book = bookId) →
  let pg' := BooksPage.onBorrowResponse dueText (Rx.Next response) pg in
  BooksComponent.userBorrowInfo (BooksPage.core pg')
  = Some (BooksComponent.mkBorrowInfo
            (BooksComponent.currentBorrowedCount info
             + BooksComponent.getTotalSelectedCopies (BooksPage.core pg))
            (BooksComponent.fines info) (BooksComponent.overdueBooks info))
  ∧ BooksComponent.selectedBooks (BooksPage.core pg') = []
  ∧ BooksComponent.getTotalSelectedCopies (BooksPage.core pg') = 0
  ∧ BooksPage.showBorrowConfirmModal pg' = false
  ∧ BooksPage.isBorrowing pg' = false
  ∧ BooksComponent.errorMessage (BooksPage.core pg') = BooksComponent.NoMessage
  ∧ ∃ text, BooksComponent.successMessage (BooksPage.core pg')
            = BooksComponent.OtherMessage text.
Proof.
  intros Hsuccess Hinfo Hfound pg'. subst pg'.
  apply getSelectedBookDetails_is_Some in Hfound as [details Hdetails].
  unfold BooksPage.onBorrowResponse. rewrite Hsuccess, Hdetails. cbn zeta.
  cbn [BooksPage.showSuccess BooksComponent.userBorrowInfo]. rewrite Hinfo.
  cbn. repeat split. by eexists.
Qed.

Lemma onBorrowResponse_success_witness :
  let book := Book.mk "b1" "Dune" "Herbert" "Fiction" 2 3 true in
  let pg := BooksPage.mkPage
              (BooksComponent.mkState [("b1", 2)]
                 (Some (BooksComponent.mkBorrowInfo 1 0 0))
                 BooksComponent.NoMessage BooksComponent.NoMessage)
              (Some (AuthUser.mk "M1" "Asha" "asha@example.org"))
              (Some [book]) [] true true in
  BooksComponent.userBorrowInfo
    (BooksPage.core
       (BooksPage.onBorrowResponse "15/11/2026"
          (Rx.Next (BorrowResponse.mk true "ok" None)) pg))
  = Some (BooksComponent.mkBorrowInfo 3 0 0).
Proof.
  intros book pg.
  refine (proj1 (onBorrowResponse_success "15/11/2026"
                   (BorrowResponse.mk true "ok" None) pg
                   (BooksComponent.mkBorrowInfo 1 0 0) eq_refl eq_refl _)).
  intros bookId Hin. cbn in Hin. apply list_elem_of_singleton in Hin. subst bookId.
  exists book. split; [|reflexivity]. cbn. by left.
Defined.

(** X25. An answer that is not a success, or an error of the request,
    changes neither the selection nor the borrow profile nor the
    confirmation: it only lowers the busy flag and shows an error
    message that is never empty, clearing the success message. *)
Theorem onBorrowResponse_failure (dueText : string)
    (response : Rx.Observable BorrowResponse.t) (pg : BooksPage.Page) :
  (∀ r, response = Rx.Next r → BorrowResponse.success r = false) →
  let pg' := BooksPage.onBorrowResponse dueText response pg in
  BooksComponent.selectedBooks (BooksPage.core pg')
  = BooksComponent.selectedBooks (BooksPage.core pg)
  ∧ BooksComponent.userBorrowInfo (BooksPage.core pg')
    = BooksComponent.userBorrowInfo (BooksPage.core pg)
  ∧ BooksPage.showBorrowConfirmModal pg' = BooksPage.showBorrowConfirmModal pg
  ∧ BooksPage.isBorrowing pg' = false
  ∧ BooksComponent.successMessage (BooksPage.core pg') = BooksComponent.NoMessage
  ∧ ∃ text, text ≠ ""
      ∧ BooksComponent.errorMessage (BooksPage.core pg') = BooksComponent.OtherMessage text.
Proof.
  intros Hfail pg'. subst pg'. unfold BooksPage.onBorrowResponse.
  destruct response as [r|error].
  - rewrite (Hfail r eq_refl). cbn. repeat split. eexists. split; [|done].
    by destruct (BorrowResponse.message r).
  - cbn. repeat split. eexists. split; [|done]. apply borrowErrorMessage_nonempty.
Qed.

Lemma onBorrowResponse_failure_witness :
  let pg := BooksPage.mkPage
              (BooksComponent.mkState [("b1", 2)]
                 (Some (BooksComponent.mkBorrowInfo 1 0 0))
                 BooksComponent.NoMessage BooksComponent.NoMessage)
              (Some (AuthUser.mk "M1" "Asha" "asha@example.org")) None [] true true in
  BooksPage.isBorrowing
    (BooksPage.onBorrowResponse "15/11/2026"
       (Rx.Fail (Rx.HttpErrorResponse 409 None)) pg) = false.
Proof.
  intros pg.
  refine (proj1 (proj2 (proj2 (proj2
    (onBorrowResponse_failure "15/11/2026" (Rx.Fail (Rx.HttpErrorResponse 409 None)) pg _))))).
  intros r Hr. discriminate Hr.
Defined.

(** X26. A successful answer while a selected book is in neither the
    search results nor the loaded books: the handler stops at the book
    it did not find, before any assignment; the page stays as it was,
    selection, count, confirmation and busy flag included. *)
Theorem onBorrowResponse_missing_book (dueText : string) (response : BorrowResponse.t)
    (pg : BooksPage.Page) (bookId : string) :
  BorrowResponse.success response = true →
  bookId ∈ (BooksComponent.selectedBooks (BooksPage.core pg)).*1 →
  (∀ book, book ∈ (default [] (BooksPage.searchResults pg) ++ BooksPage.books pg)%list →
           Book.id book ≠ bookId) →
  BooksPage.onBorrowResponse dueText (Rx.Next response) pg = pg.
Proof.
  intros Hsuccess Hin Hmissing. unfold BooksPage.onBorrowResponse. rewrite Hsuccess.
  destruct (BooksPage.getSelectedBookDetails pg) as [details|] eqn:Hdetails; [|done].
  assert (Hsome : is_Some (BooksPage.getSelectedBookDetails pg)) by by eexists.
  rewrite getSelectedBookDetails_is_Some in Hsome.
  destruct (Hsome bookId Hin) as (book & Hbook & Hid).
  by destruct (Hmissing book Hbook).
Qed.

Lemma onBorrowResponse_missing_book_witness :
  let pg := BooksPage.mkPage
              (BooksComponent.mkState [("b1", 2)]
                 (Some (BooksComponent.mkBorrowInfo 1 0 0))
                 BooksComponent.NoMessage BooksComponent.NoMessage)
              (Some (AuthUser.mk "M1" "Asha" "asha@example.org"))
              (Some [Book.mk "b2" "Emma" "Austen" "Fiction" 1 1 true]) [] true true in
  BooksPage.onBorrowResponse "15/11/2026"
    (Rx.Next (BorrowResponse.mk true "ok" None)) pg = pg.
Proof.
  intros pg.
  refine (onBorrowResponse_missing_book "15/11/2026" (BorrowResponse.mk true "ok" None)
            pg "b1" eq_refl _ _).
  - cbn. by left.
  - intros book Hbook. cbn in Hbook. apply list_elem_of_singleton in Hbook.
    by subst book.
Defined.

(** ** The navigation bar *)

Lemma filter_id_absent (k : string) (l : list Notification.t) :
  k ∉ Notification.id <$> l → filter (λ n, Notification.id n ≠ k) l = l.
Proof.
  induction l as [|x l IH]; [done|]. cbn [fmap list_fmap]. intros Hk.
  apply not_elem_of_cons in Hk as [Hx Hl].
  rewrite filter_cons, decide_True by done. f_equal. by apply IH.
Qed.

Lemma filter_id_elem (k y : string) (l : list Notification.t) :
  y ∈ Notification.id <$> filter (λ n, Notification.id n ≠ k) l →
  y ∈ Notification.id <$> l.
Proof.
  intros (n & -> & Hn)%list_elem_of_fmap. apply list_elem_of_filter in Hn as [_ Hn].
  apply list_elem_of_fmap. by exists n.
Qed.

Lemma dismiss_distinct (k : string) (l : list Notification.t) :
  NoDup (Notification.id <$> l) →
  (length l ≤ S (length (filter (λ n, Notification.id n ≠ k) l)))%nat
  ∧ NoDup (Notification.id <$> filter (λ n, Notification.id n ≠ k) l).
Proof.
  induction l as [|x l IH];
    [intros _; split; [cbn; lia|apply NoDup_nil_2]|]. cbn [fmap list_fmap].
  intros [Hx Hl]%NoDup_cons. destruct (IH Hl) as [IHlen IHnd].
  rewrite filter_cons. destruct (decide (Notification.id x ≠ k)) as [Hne|Heq].
  - cbn. split; [lia|]. apply NoDup_cons. split; [|done].
    intros Hin. apply Hx. by apply filter_id_elem in Hin.
  - assert (Notification.id x = k) as Hk
      by (destruct (decide (Notification.id x = k)); tauto).
    rewrite <- Hk in *. rewrite filter_id_absent by done. split; [cbn; lia|done].
Qed.

Lemma own_dismiss (k : string) (l : list Notification.t) :
  Navbar.own (filter (λ n, Notification.id n ≠ k) l)
  = filter (λ n, Notification.id n ≠ k) (Navbar.own l).
Proof.
  unfold Navbar.own. induction l as [|x l IH]; [done|].
  rewrite !filter_cons.
  destruct (decide (Notification.id x ≠ k)),
           (decide (Notification.id x ≠ "complaint-updates"));
    rewrite ?filter_cons, ?decide_True, ?decide_False by done; by rewrite IH.
Qed.

Lemma loadUserNotifications_invariant (now : Z) (st : Navbar.State) :
  Navbar.invariant st → Navbar.invariant (Navbar.loadUserNotifications now st).
Proof.
  unfold Navbar.loadUserNotifications. destruct (Navbar.currentUser st); [|done].
  intros (Hp & Hm & _). unfold Navbar.invariant. cbn.
  split; [done|]. split; [done|].
  destruct (decide (Navbar.overdueBooks st > 0)), (decide (Navbar.totalFines st > 0)),
    (Navbar.limitReached st); cbn.
  all: rewrite ?decide_True by done; cbn.
  all: split; [lia|]; split; [lia|].
  all: repeat (apply NoDup_cons; split; [by rewrite ?elem_of_cons, elem_of_nil; intuition discriminate|]).
  all: apply NoDup_nil_2.
Qed.

Ltac menus_case st :=
  intros (Hp & Hm & H0 & Hle & Hnd);
  unfold Navbar.toggleProfileDropdown, Navbar.toggleNotifications,
    Navbar.toggleMobileMenu, Navbar.closeAllDropdowns,
    Navbar.markNotificationsAsRead, Navbar.invariant in *;
  destruct (Navbar.showProfileDropdown st) eqn:?, (Navbar.showMobileMenu st) eqn:?,
    (Navbar.showNotifications st) eqn:?; cbn in *;
  try (by destruct (Hp eq_refl)); try (by specialize (Hm eq_refl));
  repeat split; try done; lia.

Lemma handle_invariant (st : Navbar.State) (e : Navbar.Event) :
  Navbar.invariant st → Navbar.invariant (Navbar.handle st e).
Proof.
  destruct e as [now d|now n|now| | | | |k]; cbn [Navbar.handle].
  - intros Hinv. unfold Navbar.onUserData.
    assert (Hst : Navbar.invariant (Navbar.updateQuickStats (Navbar.set_userData d st))).
    { unfold Navbar.updateQuickStats. cbn.
      by destruct (UserDataService.borrowInfo d). }
    cbn zeta. destruct (UserDataService.user d), (UserDataService.borrowInfo d);
      try done. by apply loadUserNotifications_invariant.
  - intros (Hp & Hm & H0 & Hle & Hnd). unfold Navbar.onComplaintStatistics.
    case_decide; [|done]. unfold Navbar.invariant, Navbar.own. cbn.
    rewrite filter_app, filter_cons, decide_False by (cbn; tauto).
    rewrite filter_nil, app_nil_r. done.
  - apply loadUserNotifications_invariant.
  - menus_case st.
  - menus_case st.
  - menus_case st.
  - menus_case st.
  - intros (Hp & Hm & H0 & Hle & Hnd). unfold Navbar.dismissNotification, Navbar.invariant.
    cbn. rewrite own_dismiss. destruct (dismiss_distinct k _ Hnd) as [Hlen Hnd'].
    repeat split; try done; try (by apply Hp); lia.
Qed.

Lemma run_invariant (events : list Navbar.Event) : Navbar.invariant (Navbar.run events).
Proof.
  unfold Navbar.run. induction events as [|e events IH] using rev_ind.
  - unfold Navbar.invariant. cbn. repeat split; try done. apply NoDup_nil_2.
  - rewrite foldl_app. cbn. by apply handle_invariant.
Qed.

(** X27. Whatever sequence of user data, complaint statistics, timer
    ticks, menu toggles, closings and dismissals reaches the navigation
    bar after its creation, at most one of profile dropdown, mobile
    menu and notification panel is open, and the unread badge is never
    negative and never above the number of notifications listed. *)
Theorem navbar_menus_and_badge (events : list Navbar.Event) :
  let st := Navbar.run events in
  (Navbar.showProfileDropdown st = true →
     Navbar.showMobileMenu st = false ∧ Navbar.showNotifications st = false)
  ∧ (Navbar.showMobileMenu st = true →
     Navbar.showProfileDropdown st = false ∧ Navbar.showNotifications st = false)
  ∧ (Navbar.showNotifications st = true →
     Navbar.showProfileDropdown st = false ∧ Navbar.showMobileMenu st = false)
  ∧ 0 ≤ Navbar.unreadNotificationsCount st
      ≤ Z.of_nat (length (Navbar.notifications st)).
Proof.
  intros st. destruct (run_invariant events) as (Hp & Hm & H0 & Hle & _).
  fold st in Hp, Hm, H0, Hle.
  pose proof (length_filter (λ n, Notification.id n ≠ "complaint-updates")
                (Navbar.notifications st)) as Hlen.
  unfold Navbar.own in Hle.
  destruct (Navbar.showProfileDropdown st), (Navbar.showMobileMenu st),
    (Navbar.showNotifications st); repeat split; try done; try lia.
  all: try (by destruct (Hp eq_refl)); try (by specialize (Hm eq_refl)).
Qed.

(** X28. User data with a member and a borrow profile makes the
    navigation bar list, in this order, the overdue notice when books
    are overdue, the fines notice when fines are pending and the limit
    notice exactly when no borrowing slot is left; the badge counts
    them, the quick figures are those of the profile, and a member who
    can borrow more books gets no notice at all. *)
Theorem onUserData_notifications (now : Z) (d : UserDataService.UserData)
    (st : Navbar.State) (user : AuthUser.t) (info : UserBorrowInfo.t) :
  UserDataService.user d = Some user →
  UserDataService.borrowInfo d = Some info →
  let st' := Navbar.onUserData now d st in
  Notification.id <$> Navbar.notifications st'
  = ((if decide (UserBorrowInfo.overdueBooks info > 0) then ["overdue-books"] else [])
     ++ (if decide (UserBorrowInfo.fines info > 0) then ["pending-fines"] else [])
     ++ (if decide (UserDataService.getAvailableBorrowingSlots d = 0)
         then ["borrowing-limit"] else []))%list
  ∧ Navbar.unreadNotificationsCount st' = Z.of_nat (length (Navbar.notifications st'))
  ∧ Navbar.overdueBooks st' = UserBorrowInfo.overdueBooks info
  ∧ Navbar.totalFines st' = UserBorrowInfo.fines info
  ∧ Navbar.borrowedBooksCount st' = UserBorrowInfo.currentBorrowedCount info
  ∧ (UserDataOps.canBorrowMoreBooks d = true → Navbar.notifications st' = []).
Proof.
  destruct d as [u b h s l e]. cbn. intros -> ->.
  unfold Navbar.onUserData, Navbar.updateQuickStats, Navbar.loadUserNotifications,
    UserDataOps.canBorrowMoreBooks, UserDataService.getAvailableBorrowingSlots,
    UserDataService.getCurrentBorrowInfo, Navbar.limitReached.
  cbn.
  destruct (decide (UserBorrowInfo.overdueBooks info > 0)) as [Ho|Ho],
    (decide (UserBorrowInfo.fines info > 0)) as [Hf|Hf];
    case_bool_decide as Hl; case_decide as Hs; try lia; cbn.
  all: repeat split; try done.
  all: rewrite !andb_true_iff, !bool_decide_eq_true; lia.
Qed.

Lemma onUserData_notifications_witness :
  let info := UserBorrowInfo.mk "L1" "Asha" "asha@example.org" 5 5 20 1 false in
  let d := UserDataService.mkUserData
             (Some (AuthUser.mk "M1" "Asha" "asha@example.org")) (Some info)
             [] None false None in
  Notification.id <$> Navbar.notifications (Navbar.onUserData 0 d Navbar.initial)
  = ["overdue-books"; "pending-fines"; "borrowing-limit"].
Proof.
  intros info d.
  exact (proj1 (onUserData_notifications 0 d Navbar.initial
                  (AuthUser.mk "M1" "Asha" "asha@example.org") info eq_refl eq_refl)).
Defined.

(** X29. User data without a borrow profile, as after signing out,
    replaces the member and the loading flag only: the quick figures,
    the notifications and the badge of the navigation bar stay those of
    the profile seen last, and the timer that reloads the notifications
    leaves them so while no member is signed in. *)
Theorem onUserData_without_profile (now now' : Z) (d : UserDataService.UserData)
    (st : Navbar.State) :
  UserDataService.borrowInfo d = None →
  let st' := Navbar.onUserData now d st in
  Navbar.currentUser st' = UserDataService.user d
  ∧ Navbar.userBorrowInfo st' = None
  ∧ Navbar.overdueBooks st' = Navbar.overdueBooks st
  ∧ Navbar.totalFines st' = Navbar.totalFines st
  ∧ Navbar.borrowedBooksCount st' = Navbar.borrowedBooksCount st
  ∧ Navbar.notifications st' = Navbar.notifications st
  ∧ Navbar.unreadNotificationsCount st' = Navbar.unreadNotificationsCount st
  ∧ (UserDataService.user d = None → Navbar.loadUserNotifications now' st' = st').
Proof.
  destruct d as [u b h s l e]. cbn. intros ->.
  unfold Navbar.onUserData, Navbar.updateQuickStats, Navbar.loadUserNotifications.
  cbn. destruct u; cbn; repeat split; done.
Qed.

Lemma onUserData_without_profile_witness :
  let info := UserBorrowInfo.mk "L1" "Asha" "asha@example.org" 5 5 20 1 false in
  let d := UserDataService.mkUserData
             (Some (AuthUser.mk "M1" "Asha" "asha@example.org")) (Some info)
             [] None false None in
  let signedOut := UserDataService.mkUserData None None [] None false None in
  Navbar.totalFines
    (Navbar.onUserData 1 signedOut (Navbar.onUserData 0 d Navbar.initial)) = 20.
Proof.
  intros info d signedOut.
  destruct (onUserData_without_profile 1 2 signedOut
              (Navbar.onUserData 0 d Navbar.initial) eq_refl)
    as (_ & _ & _ & Hfines & _).
  rewrite Hfines. reflexivity.
Defined.
